(** * Personalized chatbot API: profile store, relevance search,
      context window, prompt composer and chat handler.

    The development embeds the JavaScript of [models/PersonalData.js],
    of the chat router ([routes/chat.js]), of the router of the profile
    ([routes/personalData.js]) and of the key check of
    [middleware/auth.js] as Rocq functions:

    - JSON documents are values of the inductive type [json]; a property
      that is absent ([undefined] in JavaScript) is [None];
    - code that can throw returns a [result];
    - the data file is a field of an explicit [store], the session map of
      the chat router and the arrays it refers to are fields of an
      explicit [server]; both are threaded through the operations;
    - what the host and the libraries compute and the code only passes on
      (URI syntax, date and number parsing, the clock, [uuidv4], the
      language model) is collected in the class [Platform]. *)

From Stdlib Require Import ZArith Ascii String List Bool Lia.
From Stdlib Require Import Numbers.DecimalString.
From stdpp Require Import gmap strings list.

Local Open Scope string_scope.
Local Open Scope list_scope.

(* ===================================================================== *)
(** * JavaScript values and primitives *)
(* ===================================================================== *)

Module JS.

(** Strings are sequences of 8-bit code units, which covers ASCII text. *)

Definition dq : string := String "034"%char "".
Definition nl : string := String "010"%char "".
Definition bs : string := String "092"%char "".

(** [String.prototype.toLowerCase] on the ASCII range: a string is a
    sequence of 8-bit characters here, and the letters [A] to [Z] are
    the ones that are lowered.  JavaScript lowers the other letters of
    Unicode as well; text with such letters is outside this
    definition. *)
Definition lower_char (c : ascii) : ascii :=
  let n := nat_of_ascii c in
  if (65 <=? n)%nat && (n <=? 90)%nat then ascii_of_nat (n + 32) else c.

Fixpoint toLowerCase (s : string) : string :=
  match s with
  | EmptyString => EmptyString
  | String c s' => String (lower_char c) (toLowerCase s')
  end.

(** [s.split(sep)] for a one-character separator: the pieces between
    consecutive separators, empty pieces included; the empty string
    splits into one empty piece. *)
Fixpoint split (sep : ascii) (s : string) : list string :=
  match s with
  | EmptyString => [EmptyString]
  | String c s' =>
      if Ascii.eqb c sep then EmptyString :: split sep s'
      else match split sep s' with
           | [] => [String c EmptyString]
           | t :: ts => String c t :: ts
           end
  end.

Fixpoint startsWith (p s : string) : bool :=
  match p, s with
  | EmptyString, _ => true
  | String a p', String b s' => Ascii.eqb a b && startsWith p' s'
  | String _ _, EmptyString => false
  end.

(** [text.includes(term)] *)
Fixpoint includes (text term : string) : bool :=
  startsWith term text ||
  match text with
  | EmptyString => false
  | String _ t => includes t term
  end.

(** [xs.join(sep)] on strings that are already converted. *)
Fixpoint join (sep : string) (xs : list string) : string :=
  match xs with
  | [] => ""
  | [x] => x
  | x :: rest => x +:+ sep +:+ join sep rest
  end.

Definition string_of_nat (n : nat) : string :=
  NilEmpty.string_of_uint (Nat.to_uint n).

(** ** JSON values

    [JNum n] carries the number by its decimal rendering, the string
    that [String(n)] and [JSON.stringify(n)] produce for it.  Objects
    keep their properties in insertion order. *)
#[warnings="-register-all"]
Inductive json : Type :=
| JNull
| JBool (b : bool)
| JNum (n : string)
| JStr (s : string)
| JArr (items : list json)
| JObj (fields : list (string * json)).

(** Property lookup by name: the first binding. *)
Fixpoint assoc (k : string) (fs : list (string * json)) : option json :=
  match fs with
  | [] => None
  | (k', v) :: rest => if String.eqb k k' then Some v else assoc k rest
  end.

(** [o[k] = v]: an existing property keeps its place, a new one goes last. *)
Fixpoint set_field (k : string) (v : json) (fs : list (string * json))
  : list (string * json) :=
  match fs with
  | [] => [(k, v)]
  | (k', v') :: rest =>
      if String.eqb k k' then (k, v) :: rest
      else (k', v') :: set_field k v rest
  end.

(** The object without the property [k]. *)
Fixpoint remove_field (k : string) (fs : list (string * json))
  : list (string * json) :=
  match fs with
  | [] => []
  | (k', v') :: rest =>
      if String.eqb k k' then remove_field k rest
      else (k', v') :: remove_field k rest
  end.

Inductive error : Type :=
| TypeError (msg : string)
| Error (msg : string).

Definition error_message (e : error) : string :=
  match e with TypeError m => m | Error m => m end.

Inductive result (A : Type) : Type :=
| Ok (a : A)
| Throw (e : error).
Arguments Ok {A} a.
Arguments Throw {A} e.

Definition bind {A B} (r : result A) (k : A -> result B) : result B :=
  match r with
  | Ok a => k a
  | Throw e => Throw e
  end.

Notation "'let*' x ':=' c 'in' k" := (bind c (fun x => k))
  (at level 10, x name, c at level 100, k at level 200).

(** ** [JSON.stringify] without indentation *)

Definition hex_digit (n : nat) : ascii :=
  if (n <? 10)%nat then ascii_of_nat (48 + n) else ascii_of_nat (87 + n).

Definition escape_char (c : ascii) : string :=
  let n := nat_of_ascii c in
  if (n =? 34)%nat then bs +:+ dq
  else if (n =? 92)%nat then bs +:+ bs
  else if (n =? 8)%nat then bs +:+ "b"
  else if (n =? 9)%nat then bs +:+ "t"
  else if (n =? 10)%nat then bs +:+ "n"
  else if (n =? 12)%nat then bs +:+ "f"
  else if (n =? 13)%nat then bs +:+ "r"
  else if (n <? 32)%nat then
    bs +:+ "u00" +:+ String (hex_digit (n / 16)) (String (hex_digit (n mod 16)) "")
  else String c "".

Fixpoint escape (s : string) : string :=
  match s with
  | EmptyString => EmptyString
  | String c s' => escape_char c +:+ escape s'
  end.

Definition quote (s : string) : string := dq +:+ escape s +:+ dq.

Fixpoint JSON_stringify (j : json) : string :=
  match j with
  | JNull => "null"
  | JBool true => "true"
  | JBool false => "false"
  | JNum n => n
  | JStr s => quote s
  | JArr items => "[" +:+ join "," (List.map JSON_stringify items) +:+ "]"
  | JObj fields =>
      "{" +:+ join "," (List.map (fun kv => quote (fst kv) +:+ ":" +:+ JSON_stringify (snd kv)) fields) +:+ "}"
  end.

(** ** Conversions the prompt template applies *)

(** Truthiness of a property value; [None] is [undefined]. *)
Definition truthy (v : option json) : bool :=
  match v with
  | None => false
  | Some JNull => false
  | Some (JBool b) => b
  | Some (JNum n) => negb (String.eqb n "0")
  | Some (JStr s) => negb (String.eqb s "")
  | Some (JArr _) => true
  | Some (JObj _) => true
  end.

(** [String(v)], as a template literal applies it.  An object is
    converted by its [toString]: the one of [Object.prototype], unless a
    property of its own hides it; such a property, read from JSON, is no
    function, [valueOf] gives no primitive either, and the conversion
    throws.  An array is converted by [Array.prototype.join], where the
    elements [null] and [undefined] give the empty string. *)
Definition not_primitive : error :=
  TypeError "Cannot convert object to primitive value".

Fixpoint ToString (j : json) : result string :=
  match j with
  | JNull => Ok "null"
  | JBool true => Ok "true"
  | JBool false => Ok "false"
  | JNum n => Ok n
  | JStr s => Ok s
  | JArr items =>
      let* parts :=
        (fix each (xs : list json) : result (list string) :=
           match xs with
           | [] => Ok []
           | x :: rest =>
               let* s := match x with JNull => Ok "" | _ => ToString x end in
               let* ss := each rest in
               Ok (s :: ss)
           end) items in
      Ok (join "," parts)
  | JObj fields =>
      match assoc "toString" fields with
      | Some _ => Throw not_primitive
      | None => Ok "[object Object]"
      end
  end.

Definition interpolate (v : option json) : result string :=
  match v with
  | None => Ok "undefined"
  | Some j => ToString j
  end.

(** The elements of an array as [join] converts them, first to last. *)
Fixpoint join_parts (items : list json) : result (list string) :=
  match items with
  | [] => Ok []
  | x :: rest =>
      let* s := match x with JNull => Ok "" | _ => ToString x end in
      let* ss := join_parts rest in
      Ok (s :: ss)
  end.

(** [xs.join(sep)] on an array of JSON values. *)
Definition Array_join (sep : string) (items : list json) : result string :=
  let* parts := join_parts items in
  Ok (join sep parts).

(** [xs.slice(start, end)] with the relative-index rules of ECMAScript:
    a negative index counts from the end, and both are clamped. *)
Definition relative_index (len : nat) (i : Z) : nat :=
  if (i <? 0)%Z then Z.to_nat (Z.max (Z.of_nat len + i) 0)
  else Nat.min (Z.to_nat i) len.

Definition Array_slice {A} (start : Z) (end_ : option Z) (xs : list A) : list A :=
  let len := List.length xs in
  let k := relative_index len start in
  let final := match end_ with None => len | Some e => relative_index len e end in
  firstn (final - k) (skipn k xs).

End JS.

(* ===================================================================== *)
(** * The host platform *)
(* ===================================================================== *)

(** What the runtime and the libraries compute and the repository only
    calls.  Clock reads and [uuidv4] calls are numbered, so that a run is
    a function of the platform. *)
Class Platform := {
  (** the URI syntax check behind [Joi.string().uri()] *)
  is_uri : string -> bool;
  (** the number a numeric string is converted to by [Joi.number()] *)
  number_of_string : string -> option string;
  (** a number inside the safe range, as [Joi.number()] requires *)
  number_safe : string -> bool;
  (** the date a string or a number is converted to by [Joi.date()],
      as [JSON.stringify] writes it *)
  date_coerce : JS.json -> option string;
  (** [Date.now()] at the n-th clock read *)
  Date_now : nat -> string;
  (** [new Date()] at the n-th clock read, as [JSON.stringify] writes it *)
  Date_toJSON : nat -> string;
  (** the n-th identifier produced by [uuidv4()] *)
  uuidv4 : nat -> string;
  (** [ToNumber] on a string; [None] is NaN *)
  StringToNumber : string -> option string;
  (** the language model: [model.generateContent(prompt)] and the text
      of its response *)
  generateContent : string -> JS.result string
}.

(* ===================================================================== *)
(** * The validation library *)
(* ===================================================================== *)

(** joi is a dependency of the repository, not part of it.  This is the
    part of joi 17 that [personalDataSchema] uses, with the default
    preferences of [schema.validate(value)]: conversion on (numeric
    strings become numbers, ["true"] and ["false"] booleans, strings and
    numbers dates), the first error ends the validation, unknown keys
    are rejected, an allowed-values list is checked before the type, the
    empty string is not a string, a default is filled in for an absent
    key and is not validated. *)
Module Joi.
Import JS.

Inductive default_value : Type :=
| DefaultValue (v : json)
| DefaultDateNow.

Record flags : Type := {
  is_required : bool;
  only : option (list string);
  dflt : option default_value
}.

Definition no_flags : flags :=
  {| is_required := false; only := None; dflt := None |}.

#[warnings="-register-all"]
Inductive schema : Type :=
| SString (f : flags) (uri_rule : bool)
| SNumber (f : flags)
| SBoolean (f : flags)
| SDate (f : flags)
| SArray (f : flags) (items_schema : schema)
| SObject (f : flags) (keys : list (string * schema)).

Definition flags_of (s : schema) : flags :=
  match s with
  | SString f _ | SNumber f | SBoolean f | SDate f | SArray f _ | SObject f _ => f
  end.

Definition with_flags (g : flags -> flags) (s : schema) : schema :=
  match s with
  | SString f u => SString (g f) u
  | SNumber f => SNumber (g f)
  | SBoolean f => SBoolean (g f)
  | SDate f => SDate (g f)
  | SArray f i => SArray (g f) i
  | SObject f ks => SObject (g f) ks
  end.

(** The builders, named as in joi. *)
Definition string_ : schema := SString no_flags false.
Definition number : schema := SNumber no_flags.
Definition boolean : schema := SBoolean no_flags.
Definition date : schema := SDate no_flags.
Definition array_items (i : schema) : schema := SArray no_flags i.
Definition object (ks : list (string * schema)) : schema := SObject no_flags ks.

Definition required : schema -> schema :=
  with_flags (fun f => {| is_required := true; only := only f; dflt := dflt f |}).
Definition optional : schema -> schema :=
  with_flags (fun f => {| is_required := false; only := only f; dflt := dflt f |}).
Definition valid (vs : list string) : schema -> schema :=
  with_flags (fun f => {| is_required := is_required f; only := Some vs; dflt := dflt f |}).
Definition default (d : default_value) : schema -> schema :=
  with_flags (fun f => {| is_required := is_required f; only := only f; dflt := Some d |}).
Definition uri (s : schema) : schema :=
  match s with
  | SString f _ => SString f true
  | _ => s
  end.

(** ** Errors *)

Inductive seg : Type :=
| Key (k : string)
| Index (i : nat).

Inductive code : Type :=
| any_required
| any_only (vs : list string)
| string_base
| string_empty
| string_uri
| number_base
| number_unsafe
| boolean_base
| date_base
| array_base
| object_base
| object_unknown.

Record detail : Type := { path : list seg; type_ : code }.

Fixpoint label_from (first : bool) (p : list seg) : string :=
  match p with
  | [] => ""
  | Key k :: rest => (if first then k else "." +:+ k) +:+ label_from false rest
  | Index i :: rest => "[" +:+ string_of_nat i +:+ "]" +:+ label_from false rest
  end.

(** The label of an error is the path of the value, ["value"] at the root. *)
Definition label (p : list seg) : string :=
  match p with
  | [] => "value"
  | _ => label_from true p
  end.

Definition code_text (c : code) : string :=
  match c with
  | any_required => "is required"
  | any_only [v] => "must be [" +:+ v +:+ "]"
  | any_only vs => "must be one of [" +:+ join ", " vs +:+ "]"
  | string_base => "must be a string"
  | string_empty => "is not allowed to be empty"
  | string_uri => "must be a valid uri"
  | number_base => "must be a number"
  | number_unsafe => "must be a safe number"
  | boolean_base => "must be a boolean"
  | date_base => "must be a valid date"
  | array_base => "must be an array"
  | object_base => "must be of type object"
  | object_unknown => "is not allowed"
  end.

(** [error.details[0].message] *)
Definition message (d : detail) : string :=
  dq +:+ label (path d) +:+ dq +:+ " " +:+ code_text (type_ d).

(** The outcome of a validation and the number of clock reads so far. *)
Inductive vresult (A : Type) : Type :=
| VOk (a : A) (t : nat)
| VErr (d : detail) (t : nat).
Arguments VOk {A} a t.
Arguments VErr {A} d t.

Section Validate.
Context `{P : Platform}.

(** The value of a default; [Date.now] reads the clock. *)
Definition eval_default (d : default_value) (t : nat) : json * nat :=
  match d with
  | DefaultValue v => (v, t)
  | DefaultDateNow => (JNum (Date_now t), S t)
  end.

Definition fail {A} (p : list seg) (c : code) (t : nat) : vresult A :=
  VErr {| path := p; type_ := c |} t.

Fixpoint mem_string (s : string) (vs : list string) : bool :=
  match vs with
  | [] => false
  | v :: rest => String.eqb s v || mem_string s rest
  end.

(** The first key of the value that the schema does not describe. *)
Fixpoint first_unknown (ks : list string) (fs : list (string * json)) : option string :=
  match fs with
  | [] => None
  | (k, _) :: rest => if mem_string k ks then first_unknown ks rest else Some k
  end.

(** [validate s p v t]: validation of the defined value [v] at path [p]
    against [s], the clock having been read [t] times; the converted
    value, or the first error.  The keys of an object are visited in the
    order of the schema, and unknown keys are reported after them. *)
Fixpoint validate (s : schema) (p : list seg) (v : json) (t : nat)
  : vresult json :=
  match only (flags_of s) with
  | Some vs =>
      match v with
      | JStr x => if mem_string x vs then VOk v t else fail p (any_only vs) t
      | _ => fail p (any_only vs) t
      end
  | None =>
      match s with
      | SString _ u =>
          match v with
          | JStr x =>
              if String.eqb x "" then fail p string_empty t
              else if u && negb (is_uri x) then fail p string_uri t
              else VOk v t
          | _ => fail p string_base t
          end
      | SNumber _ =>
          match v with
          | JNum n => if number_safe n then VOk v t else fail p number_unsafe t
          | JStr x =>
              match number_of_string x with
              | Some n => if number_safe n then VOk (JNum n) t else fail p number_unsafe t
              | None => fail p number_base t
              end
          | _ => fail p number_base t
          end
      | SBoolean _ =>
          match v with
          | JBool _ => VOk v t
          | JStr x =>
              if String.eqb (toLowerCase x) "true" then VOk (JBool true) t
              else if String.eqb (toLowerCase x) "false" then VOk (JBool false) t
              else fail p boolean_base t
          | _ => fail p boolean_base t
          end
      | SDate _ =>
          match v with
          | JStr _ | JNum _ =>
              match date_coerce v with
              | Some iso => VOk (JStr iso) t
              | None => fail p date_base t
              end
          | _ => fail p date_base t
          end
      | SArray _ item =>
          match v with
          | JArr xs =>
              match
                (fix items (xs : list json) (i : nat) (t : nat)
                   : vresult (list json) :=
                   match xs with
                   | [] => VOk [] t
                   | x :: rest =>
                       match validate item (p ++ [Index i]) x t with
                       | VErr d t' => VErr d t'
                       | VOk x' t' =>
                           match items rest (S i) t' with
                           | VErr d t'' => VErr d t''
                           | VOk rest' t'' => VOk (x' :: rest') t''
                           end
                       end
                   end) xs 0 t
              with
              | VOk xs' t' => VOk (JArr xs') t'
              | VErr d t' => VErr d t'
              end
          | _ => fail p array_base t
          end
      | SObject _ ks =>
          match v with
          | JObj fs =>
              match
                (fix children (ks : list (string * schema))
                     (acc : list (string * json)) (t : nat)
                   : vresult (list (string * json)) :=
                   match ks with
                   | [] => VOk acc t
                   | (k, child) :: rest =>
                       match assoc k fs with
                       | Some x =>
                           match validate child (p ++ [Key k]) x t with
                           | VErr d t' => VErr d t'
                           | VOk x' t' => children rest (set_field k x' acc) t'
                           end
                       | None =>
                           if is_required (flags_of child)
                           then fail (p ++ [Key k]) any_required t
                           else match dflt (flags_of child) with
                                | Some d =>
                                    let '(dv, t') := eval_default d t in
                                    children rest (set_field k dv acc) t'
                                | None => children rest acc t
                                end
                       end
                   end) ks fs t
              with
              | VErr d t' => VErr d t'
              | VOk fs' t' =>
                  match first_unknown (List.map fst ks) fs with
                  | Some k => fail (p ++ [Key k]) object_unknown t'
                  | None => VOk (JObj fs') t'
                  end
              end
          | _ => fail p object_base t
          end
      end
  end.

(** The two loops of [validate], by name. *)
Definition validate_items (item : schema) (p : list seg)
  : list json -> nat -> nat -> vresult (list json) :=
  fix items (xs : list json) (i : nat) (t : nat) : vresult (list json) :=
    match xs with
    | [] => VOk [] t
    | x :: rest =>
        match validate item (p ++ [Index i]) x t with
        | VErr d t' => VErr d t'
        | VOk x' t' =>
            match items rest (S i) t' with
            | VErr d t'' => VErr d t''
            | VOk rest' t'' => VOk (x' :: rest') t''
            end
        end
    end.

Definition validate_children (fs : list (string * json)) (p : list seg)
  : list (string * schema) -> list (string * json) -> nat
    -> vresult (list (string * json)) :=
  fix children (ks : list (string * schema))
      (acc : list (string * json)) (t : nat)
    : vresult (list (string * json)) :=
    match ks with
    | [] => VOk acc t
    | (k, child) :: rest =>
        match assoc k fs with
        | Some x =>
            match validate child (p ++ [Key k]) x t with
            | VErr d t' => VErr d t'
            | VOk x' t' => children rest (set_field k x' acc) t'
            end
        | None =>
            if is_required (flags_of child)
            then fail (p ++ [Key k]) any_required t
            else match dflt (flags_of child) with
                 | Some d =>
                     let '(dv, t') := eval_default d t in
                     children rest (set_field k dv acc) t'
                 | None => children rest acc t
                 end
        end
    end.

End Validate.
End Joi.

(* ===================================================================== *)
(** * models/PersonalData.js *)
(* ===================================================================== *)

Module PersonalData.
Import JS.

(** [personalDataSchema] *)
Definition personalDataSchema : Joi.schema :=
  Joi.object [
    ("id", Joi.optional Joi.string_);
    ("biography", Joi.optional (Joi.object [
       ("name", Joi.required Joi.string_);
       ("title", Joi.required Joi.string_);
       ("description", Joi.required Joi.string_);
       ("location", Joi.optional Joi.string_);
       ("age", Joi.optional Joi.number);
       ("background", Joi.optional Joi.string_)
     ]));
    ("skills", Joi.optional (Joi.array_items (Joi.object [
       ("id", Joi.optional Joi.string_);
       ("name", Joi.required Joi.string_);
       ("category", Joi.required Joi.string_);
       ("proficiency",
         Joi.required (Joi.valid ["beginner"; "intermediate"; "advanced"; "expert"] Joi.string_));
       ("yearsOfExperience", Joi.optional Joi.number);
       ("description", Joi.optional Joi.string_)
     ])));
    ("projects", Joi.optional (Joi.array_items (Joi.object [
       ("id", Joi.optional Joi.string_);
       ("name", Joi.required Joi.string_);
       ("description", Joi.required Joi.string_);
       ("technologies", Joi.optional (Joi.array_items Joi.string_));
       ("status",
         Joi.required (Joi.valid ["completed"; "in-progress"; "planned"; "archived"] Joi.string_));
       ("startDate", Joi.optional Joi.date);
       ("endDate", Joi.optional Joi.date);
       ("repositoryUrl", Joi.optional (Joi.uri Joi.string_));
       ("demoUrl", Joi.optional (Joi.uri Joi.string_));
       ("role", Joi.optional Joi.string_);
       ("achievements", Joi.optional (Joi.array_items Joi.string_))
     ])));
    ("preferences", Joi.optional (Joi.object [
       ("workStyle", Joi.optional Joi.string_);
       ("interests", Joi.optional (Joi.array_items Joi.string_));
       ("goals", Joi.optional (Joi.array_items Joi.string_));
       ("values", Joi.optional (Joi.array_items Joi.string_));
       ("communicationStyle", Joi.optional Joi.string_);
       ("preferredTechnologies", Joi.optional (Joi.array_items Joi.string_))
     ]));
    ("socialLinks", Joi.optional (Joi.array_items (Joi.object [
       ("id", Joi.optional Joi.string_);
       ("platform", Joi.required Joi.string_);
       ("url", Joi.required (Joi.uri Joi.string_));
       ("username", Joi.optional Joi.string_);
       ("isPublic", Joi.default (Joi.DefaultValue (JBool true)) Joi.boolean)
     ])));
    ("experience", Joi.optional (Joi.array_items (Joi.object [
       ("id", Joi.optional Joi.string_);
       ("company", Joi.required Joi.string_);
       ("position", Joi.required Joi.string_);
       ("startDate", Joi.required Joi.date);
       ("endDate", Joi.optional Joi.date);
       ("description", Joi.optional Joi.string_);
       ("achievements", Joi.optional (Joi.array_items Joi.string_));
       ("technologies", Joi.optional (Joi.array_items Joi.string_));
       ("isCurrent", Joi.default (Joi.DefaultValue (JBool false)) Joi.boolean)
     ])));
    ("education", Joi.optional (Joi.array_items (Joi.object [
       ("id", Joi.optional Joi.string_);
       ("institution", Joi.required Joi.string_);
       ("degree", Joi.required Joi.string_);
       ("field", Joi.required Joi.string_);
       ("startDate", Joi.optional Joi.date);
       ("endDate", Joi.optional Joi.date);
       ("gpa", Joi.optional Joi.number);
       ("achievements", Joi.optional (Joi.array_items Joi.string_))
     ])));
    ("metadata", Joi.optional (Joi.object [
       ("createdAt", Joi.default Joi.DefaultDateNow Joi.date);
       ("updatedAt", Joi.default Joi.DefaultDateNow Joi.date);
       ("version", Joi.default (Joi.DefaultValue (JStr "1.0.0")) Joi.string_)
     ]))
  ].

(** The store: the data file, which is written by this class only and
    holds a JSON object ([None]: the file is missing or unreadable), and
    how often the clock and [uuidv4] have been used. *)
Record store : Type := {
  data_file : option (list (string * json));
  clock : nat;
  uuid_count : nat
}.

Definition set_file (f : list (string * json)) (w : store) : store :=
  {| data_file := Some f; clock := clock w; uuid_count := uuid_count w |}.
Definition set_clock (t : nat) (w : store) : store :=
  {| data_file := data_file w; clock := t; uuid_count := uuid_count w |}.

Section Model.
Context `{P : Platform}.

(** The document [initializeDataFile] writes when there is none. *)
Definition initialData (t : nat) : list (string * json) :=
  [ ("biography", JObj [
       ("name", JStr "Your Name");
       ("title", JStr "Your Title");
       ("description", JStr "Add your personal description here");
       ("location", JStr "Your Location") ]);
    ("skills", JArr []);
    ("projects", JArr []);
    ("preferences", JObj [ ("interests", JArr []); ("goals", JArr []) ]);
    ("socialLinks", JArr []);
    ("experience", JArr []);
    ("education", JArr []);
    ("metadata", JObj [
       ("createdAt", JStr (Date_toJSON t));
       ("updatedAt", JStr (Date_toJSON (S t)));
       ("version", JStr "1.0.0") ]) ].

Definition initializeDataFile (w : store) : store :=
  match data_file w with
  | Some _ => w
  | None => set_clock (S (S (clock w))) (set_file (initialData (clock w)) w)
  end.

(** [getAllData]: the parsed file, [null] when it cannot be read. *)
Definition getAllData (w : store) : json :=
  match data_file w with
  | Some f => JObj f
  | None => JNull
  end.

(** Reading a property that is neither an index nor [length] off a
    value that is not [null]. *)
Definition get (x : json) (k : string) : option json :=
  match x with
  | JObj fs => assoc k fs
  | _ => None
  end.

Fixpoint indexed (i : nat) (xs : list json) : list (string * json) :=
  match xs with
  | [] => []
  | x :: rest => (string_of_nat i, x) :: indexed (S i) rest
  end.

Fixpoint chars (s : string) : list json :=
  match s with
  | EmptyString => []
  | String c s' => JStr (String c "") :: chars s'
  end.

(** The own enumerable properties [{...x}] copies. *)
Definition spread (x : json) : list (string * json) :=
  match x with
  | JObj fs => fs
  | JArr xs => indexed 0 xs
  | JStr s => indexed 0 (chars s)
  | _ => []
  end.

(** [entry => ({ ...entry, id: entry.id || uuidv4() })] *)
Definition with_id (entry : json) (n : nat) : result (json * nat) :=
  match entry with
  | JNull => Throw (TypeError "Cannot read properties of null (reading 'id')")
  | _ =>
      if truthy (get entry "id")
      then Ok (JObj (set_field "id" (default JNull (get entry "id")) (spread entry)), n)
      else Ok (JObj (set_field "id" (JStr (uuidv4 n)) (spread entry)), S n)
  end.

(** [entries.map(with_id)], left to right. *)
Fixpoint map_with_id (entries : list json) (n : nat) : result (list json * nat) :=
  match entries with
  | [] => Ok ([], n)
  | e :: rest =>
      let* r := with_id e n in
      let* rs := map_with_id rest (snd r) in
      Ok (fst r :: fst rs, snd rs)
  end.

(** [if (value.k) { value.k = value.k.map(with_id) }] *)
Definition add_ids (k : string) (value : list (string * json)) (n : nat)
  : result (list (string * json) * nat) :=
  if truthy (assoc k value) then
    match assoc k value with
    | Some (JArr entries) =>
        let* r := map_with_id entries n in
        Ok (set_field k (JArr (fst r)) value, snd r)
    | _ => Throw (TypeError ("value." +:+ k +:+ ".map is not a function"))
    end
  else Ok (value, n).

(** [{ ...value.metadata, updatedAt: new Date(), version: "1.0.0" }] *)
Definition new_metadata (value : list (string * json)) (t : nat) : json :=
  let old := match assoc "metadata" value with
             | Some m => spread m
             | None => []
             end in
  JObj (set_field "version" (JStr "1.0.0")
          (set_field "updatedAt" (JStr (Date_toJSON t)) old)).

(** [updateData(newData)]: the returned document, or the error thrown,
    and the store afterwards. *)
Definition updateData (newData : json) (w : store) : result json * store :=
  match Joi.validate personalDataSchema [] newData (clock w) with
  | Joi.VErr d t =>
      (Throw (Error ("Validation error: " +:+ Joi.message d)), set_clock t w)
  | Joi.VOk (JObj value) t =>
      let ids :=
        let* r1 := add_ids "skills" value (uuid_count w) in
        let* r2 := add_ids "projects" (fst r1) (snd r1) in
        let* r3 := add_ids "socialLinks" (fst r2) (snd r2) in
        let* r4 := add_ids "experience" (fst r3) (snd r3) in
        add_ids "education" (fst r4) (snd r4) in
      match ids with
      | Throw e => (Throw e, set_clock t w)
      | Ok (value5, n) =>
          let final := set_field "metadata" (new_metadata value5 t) value5 in
          (Ok (JObj final),
           {| data_file := Some final; clock := S t; uuid_count := n |})
      end
  | Joi.VOk _ t =>
      (Throw (TypeError "Cannot create property 'metadata'"), set_clock t w)
  end.

(** [getSection(sectionName)]: [data[sectionName] || null], for a name
    that the document answers to with a property of its own or not at
    all.  A name that every object inherits ([constructor], [toString],
    ...) is answered by JavaScript with the inherited function when the
    document has no such property; a function is no JSON value, and
    these names are outside this definition. *)
Definition getSection (sectionName : string) (w : store) : json :=
  match data_file w with
  | None => JNull
  | Some f => if truthy (assoc sectionName f)
              then default JNull (assoc sectionName f) else JNull
  end.

(** [updateSection(sectionName, sectionData)] *)
Definition updateSection (sectionName : string) (sectionData : json) (w : store)
  : result json * store :=
  match data_file w with
  | None =>
      (Throw (TypeError "Cannot set properties of null"), w)
  | Some f =>
      let current := set_field sectionName sectionData f in
      let t := clock w in
      match assoc "metadata" current with
      | Some (JObj m) =>
          let final :=
            set_field "metadata" (JObj (set_field "updatedAt" (JStr (Date_toJSON t)) m)) current in
          (Ok (default JNull (assoc sectionName final)),
           set_clock (S t) (set_file final w))
      | Some (JArr _) =>
          (Ok (default JNull (assoc sectionName current)),
           set_clock (S t) (set_file current w))
      | Some (JStr _) | Some (JNum _) | Some (JBool _) =>
          (Throw (TypeError "Cannot create property 'updatedAt'"), set_clock (S t) w)
      | Some JNull | None =>
          (Throw (TypeError "Cannot set properties of undefined (setting 'updatedAt')"),
           set_clock (S t) w)
      end
  end.

(** [containsTerms(text, terms)] *)
Definition containsTerms (text : string) (terms : list string) : bool :=
  existsb (fun term => includes text term) terms.

(** [data.k?.filter(x => containsTerms(JSON.stringify(x).toLowerCase(), terms))]:
    [None] when the section is [undefined] or [null]. *)
Definition filter_section (data : list (string * json)) (k : string)
    (terms : list string) : result (option (list json)) :=
  match assoc k data with
  | None | Some JNull => Ok None
  | Some (JArr xs) =>
      Ok (Some (List.filter
                  (fun x => containsTerms (toLowerCase (JSON_stringify x)) terms) xs))
  | Some _ => Throw (TypeError ("data." +:+ k +:+ ".filter is not a function"))
  end.

(** [if (relevant?.length > 0) { relevantData.k = relevant }] *)
Definition add_relevant (k : string) (relevant : option (list json))
    (relevantData : list (string * json)) : list (string * json) :=
  match relevant with
  | Some (x :: xs) => set_field k (JArr (x :: xs)) relevantData
  | _ => relevantData
  end.

(** The body of the [try] block of [searchRelevantData]. *)
Definition search_body (query : string) (data : json)
  : result (list (string * json)) :=
  match data with
  | JObj d =>
      let searchTerms := split " "%char (toLowerCase query) in
      let relevantData := [] in
      let* relevantData :=
        match assoc "biography" d with
        | None => Throw (TypeError "Cannot read properties of undefined (reading 'toLowerCase')")
        | Some b =>
            if containsTerms (toLowerCase (JSON_stringify b)) searchTerms
            then Ok (set_field "biography" b relevantData)
            else Ok relevantData
        end in
      let* relevantSkills := filter_section d "skills" searchTerms in
      let relevantData := add_relevant "skills" relevantSkills relevantData in
      let* relevantProjects := filter_section d "projects" searchTerms in
      let relevantData := add_relevant "projects" relevantProjects relevantData in
      let* relevantExperience := filter_section d "experience" searchTerms in
      let relevantData := add_relevant "experience" relevantExperience relevantData in
      let relevantData :=
        if truthy (assoc "preferences" d)
        then set_field "preferences" (default JNull (assoc "preferences" d)) relevantData
        else relevantData in
      Ok relevantData
  | _ => Throw (TypeError "Cannot read properties of null (reading 'biography')")
  end.

(** [searchRelevantData(query)]: an error is caught and gives [{}]. *)
Definition searchRelevantData (query : string) (w : store) : list (string * json) :=
  match search_body query (getAllData w) with
  | Ok r => r
  | Throw _ => []
  end.

End Model.
End PersonalData.

(* ===================================================================== *)
(** * routes/chat.js *)
(* ===================================================================== *)

Module Chat.
Import JS.

(** One message of a conversation. *)
Record turn : Type := { role : string; content : string }.

#[global] Instance turn_eq_dec : EqDecision turn.
Proof. solve_decision. Defined.

(** The router's state: the store of the profile, the two environment
    variables it reads, the [chatContexts] map from session identifier to
    array, and the arrays themselves, by reference: [push] changes an
    array in place, so every holder of the reference sees it. *)
Record server : Type := {
  personal : PersonalData.store;
  GEMINI_API_KEY : option string;
  NODE_ENV : option string;
  chatContexts : gmap string nat;
  arrays : gmap nat (list turn);
  next_ref : nat
}.

Definition set_contexts (m : gmap string nat) (sv : server) : server :=
  {| personal := personal sv; GEMINI_API_KEY := GEMINI_API_KEY sv;
     NODE_ENV := NODE_ENV sv; chatContexts := m; arrays := arrays sv;
     next_ref := next_ref sv |}.

Definition set_arrays (h : gmap nat (list turn)) (sv : server) : server :=
  {| personal := personal sv; GEMINI_API_KEY := GEMINI_API_KEY sv;
     NODE_ENV := NODE_ENV sv; chatContexts := chatContexts sv; arrays := h;
     next_ref := next_ref sv |}.

(** A new array: a reference that was never used. *)
Definition alloc (xs : list turn) (sv : server) : nat * server :=
  (next_ref sv,
   {| personal := personal sv; GEMINI_API_KEY := GEMINI_API_KEY sv;
      NODE_ENV := NODE_ENV sv; chatContexts := chatContexts sv;
      arrays := <[next_ref sv := xs]> (arrays sv);
      next_ref := S (next_ref sv) |}).

(** The content of the array behind a reference. *)
Definition deref (sv : server) (r : nat) : list turn :=
  default [] (arrays sv !! r).

(** [chatContexts.get(sessionId) || []] as a value: the context window. *)
Definition get_context (sessionId : string) (sv : server) : list turn :=
  match chatContexts sv !! sessionId with
  | Some r => deref sv r
  | None => []
  end.

(** [chatContexts.delete(sessionId)] *)
Definition clear_context (sessionId : string) (sv : server) : server :=
  set_contexts (delete sessionId (chatContexts sv)) sv.

(** [updateChatContext(sessionId, userMessage, aiResponse)] *)
Definition updateChatContext (sessionId userMessage aiResponse : string)
    (sv : server) : server :=
  let sv1 :=
    match chatContexts sv !! sessionId with
    | Some _ => sv
    | None =>
        let '(r, sv') := alloc [] sv in
        set_contexts (<[sessionId := r]> (chatContexts sv')) sv'
    end in
  match chatContexts sv1 !! sessionId with
  | None => sv1
  | Some context =>
      let sv2 :=
        set_arrays
          (<[context := deref sv1 context ++
                          [ {| role := "user"; content := userMessage |};
                            {| role := "assistant"; content := aiResponse |} ]]>
             (arrays sv1)) sv1 in
      if (10 <? List.length (deref sv2 context))%nat then
        let '(r, sv3) := alloc (Array_slice (-10) None (deref sv2 context)) sv2 in
        set_contexts (<[sessionId := r]> (chatContexts sv3)) sv3
      else sv2
  end.

Section Model.
Context `{P : Platform}.

(** ** [createPersonalizedPrompt] *)

Definition preamble : string :=
  "You are a helpful AI assistant that answers questions about a specific person based on their personal information. You should respond naturally and conversationally, as if you know this person well." +:+ nl +:+
  nl +:+
  "IMPORTANT INSTRUCTIONS:" +:+ nl +:+
  "- Always refer to the person in third person (he/she/they) when answering questions about them" +:+ nl +:+
  "- Use the personal information provided to give specific, accurate answers" +:+ nl +:+
  "- If asked about something not in the personal data, say you don't have that information" +:+ nl +:+
  "- Be friendly, professional, and helpful" +:+ nl +:+
  "- Keep responses concise but informative" +:+ nl +:+
  "- If no personal context is provided, explain that you need personal data to answer specific questions about the person" +:+ nl +:+
  nl.

(** A number greater than zero, by its rendering. *)
Definition positive_number (n : string) : bool :=
  negb (String.eqb n "0") && negb (startsWith "-" n).

Definition positive_string (s : string) : bool :=
  match StringToNumber s with
  | Some n => positive_number n
  | None => false
  end.

(** [x > 0] for a property value [x]: an object or an array is converted
    to a primitive first, as [ToString] does it. *)
Definition gt0 (x : option json) : result bool :=
  match x with
  | None | Some JNull => Ok false
  | Some (JBool b) => Ok b
  | Some (JNum n) => Ok (positive_number n)
  | Some (JStr s) => Ok (positive_string s)
  | Some (JArr xs) => let* s := ToString (JArr xs) in Ok (positive_string s)
  | Some (JObj fs) => let* _ := ToString (JObj fs) in Ok false
  end.

(** [v.length > 0] for a truthy value [v] *)
Definition length_gt0 (v : json) : result bool :=
  match v with
  | JArr xs => Ok (0 <? List.length xs)%nat
  | JStr s => Ok (0 <? String.length s)%nat
  | JObj fs => gt0 (assoc "length" fs)
  | _ => Ok false
  end.

(** [xs.forEach(x => { prompt += ... })], the callback returning the
    text it appends. *)
Fixpoint forEach {A} (f : A -> result string) (xs : list A) (prompt : string)
  : result string :=
  match xs with
  | [] => Ok prompt
  | x :: rest =>
      let* piece := f x in
      forEach f rest (prompt +:+ piece)
  end.

(** Reading a property off a list entry: [null] has none. *)
Definition prop (x : json) (k : string) : result (option json) :=
  match x with
  | JNull => Throw (TypeError ("Cannot read properties of null (reading '" +:+ k +:+ "')"))
  | _ => Ok (PersonalData.get x k)
  end.

(** [`${x.k}`] for a list entry [x] *)
Definition shown (x : json) (k : string) : result string :=
  let* v := prop x k in
  interpolate v.

(** [if (x.k) prompt += `before${x.k}after`], as the text appended *)
Definition shown_if (x : json) (k before after : string) : result string :=
  let* v := prop x k in
  if truthy v then
    let* s := interpolate v in
    Ok (before +:+ s +:+ after)
  else Ok "".

(** [v.join(', ')] for a truthy property value [v] *)
Definition join_list (name : string) (v : json) : result string :=
  match v with
  | JArr xs => Array_join ", " xs
  | _ => Throw (TypeError (name +:+ ".join is not a function"))
  end.

Definition render_skill (skill : json) : result string :=
  let* name := shown skill "name" in
  let* proficiency := shown skill "proficiency" in
  let* category := shown skill "category" in
  let* years := shown_if skill "yearsOfExperience" " - " " years experience" in
  let* description := shown_if skill "description" " - " "" in
  Ok ("- " +:+ name +:+ " (" +:+ proficiency +:+ " level, " +:+ category +:+ ")"
      +:+ years +:+ description +:+ nl).

Definition render_project (project : json) : result string :=
  let* name := shown project "name" in
  let* description := shown project "description" in
  let* technologies := prop project "technologies" in
  let* techs :=
    (if truthy technologies
     then let* joined := join_list "project.technologies" (default JNull technologies) in
          Ok (" (Technologies: " +:+ joined +:+ ")")
     else Ok "") in
  let* status := shown project "status" in
  Ok ("- " +:+ name +:+ ": " +:+ description
      +:+ techs +:+ " [Status: " +:+ status +:+ "]" +:+ nl).

Definition render_experience (exp : json) : result string :=
  let* position := shown exp "position" in
  let* company := shown exp "company" in
  let* isCurrent := prop exp "isCurrent" in
  let* description := shown_if exp "description" ": " "" in
  Ok ("- " +:+ position +:+ " at " +:+ company
      +:+ (if truthy isCurrent then " (Current)" else "")
      +:+ description +:+ nl).

Definition render_turn (msg : turn) : result string :=
  Ok (role msg +:+ ": " +:+ content msg +:+ nl).

(** [if (ctx.k && ctx.k.length > 0) { prompt += header; entries.forEach(...) }]
    where [entries] is [ctx.k] or a slice of it. *)
Definition list_block (ctx : list (string * json)) (k header : string)
    (cap : option Z) (render : json -> result string) (prompt : string)
  : result string :=
  match assoc k ctx with
  | Some v =>
      if truthy (Some v) then
        let* filled := length_gt0 v in
        if filled then
          match v with
          | JArr xs =>
              forEach render
                (match cap with
                 | Some n => Array_slice 0 (Some n) xs
                 | None => xs
                 end)
                (prompt +:+ header)
          | _ => Throw (TypeError ("personalContext." +:+ k +:+ ".forEach is not a function"))
          end
        else Ok prompt
      else Ok prompt
  | None => Ok prompt
  end.

Definition biography_block (ctx : list (string * json)) (prompt : string)
  : result string :=
  match assoc "biography" ctx with
  | Some b =>
      if truthy (Some b) then
        let* name := shown b "name" in
        let* title := shown b "title" in
        let* description := shown b "description" in
        let* location := shown_if b "location" "- Location: " nl in
        let* background := shown_if b "background" "- Background: " nl in
        Ok (prompt +:+ nl +:+ "Basic Info:" +:+ nl
            +:+ "- Name: " +:+ name +:+ nl
            +:+ "- Title: " +:+ title +:+ nl
            +:+ "- Description: " +:+ description +:+ nl
            +:+ location +:+ background)
      else Ok prompt
  | None => Ok prompt
  end.

(** [if (prefs.k) prompt += `- Title: ${prefs.k.join(', ')}\n`] *)
Definition joined_line (prefs : json) (k title : string) : result string :=
  if truthy (PersonalData.get prefs k) then
    let* joined :=
      join_list ("personalContext.preferences." +:+ k)
                (default JNull (PersonalData.get prefs k)) in
    Ok ("- " +:+ title +:+ ": " +:+ joined +:+ nl)
  else Ok "".

Definition preferences_block (ctx : list (string * json)) (prompt : string)
  : result string :=
  match assoc "preferences" ctx with
  | Some prefs =>
      if truthy (Some prefs) then
        let* interests := joined_line prefs "interests" "Interests" in
        let* goals := joined_line prefs "goals" "Goals" in
        let* workStyle := shown_if prefs "workStyle" "- Work Style: " nl in
        Ok (prompt +:+ nl +:+ "Preferences & Interests:" +:+ nl
            +:+ interests +:+ goals +:+ workStyle)
      else Ok prompt
  | None => Ok prompt
  end.

Definition closing (userMessage : string) : string :=
  nl +:+ "USER QUESTION: " +:+ userMessage +:+ nl +:+ nl +:+
  "Your response should be helpful and based on the personal information provided above. If the question is about the person and you have relevant information, provide specific details. If you don't have the information, say so politely.".

(** [createPersonalizedPrompt(userMessage, personalContext, conversationHistory)] *)
Definition createPersonalizedPrompt (userMessage : string)
    (personalContext : list (string * json)) (conversationHistory : list turn)
  : result string :=
  let prompt := preamble in
  let* prompt :=
    (if (0 <? List.length personalContext)%nat then
       let prompt := prompt +:+ "PERSONAL INFORMATION ABOUT THE PERSON:" +:+ nl in
       let* prompt := biography_block personalContext prompt in
       let* prompt :=
         list_block personalContext "skills" (nl +:+ "Skills:" +:+ nl)
                    None render_skill prompt in
       let* prompt :=
         list_block personalContext "projects" (nl +:+ "Recent Projects:" +:+ nl)
                    (Some 5%Z) render_project prompt in
       let* prompt :=
         list_block personalContext "experience" (nl +:+ "Work Experience:" +:+ nl)
                    (Some 3%Z) render_experience prompt in
       preferences_block personalContext prompt
     else Ok prompt) in
  let* prompt :=
    (if (0 <? List.length conversationHistory)%nat then
       forEach render_turn (Array_slice (-4) None conversationHistory)
               (prompt +:+ nl +:+ "RECENT CONVERSATION HISTORY:" +:+ nl)
     else Ok prompt) in
  Ok (prompt +:+ closing userMessage).

(** ** [router.post('/')] *)

Record request : Type := {
  message : string;
  sessionId : option string;
  includePersonalContext : option bool
}.

Record response : Type := { status : nat; body : list (string * json) }.

Definition demo_text (message : string) : string :=
  "Hello! I'm your personalized AI assistant. You said: " +:+ dq +:+ message +:+ dq +:+ ". " +:+ nl +:+
  "        " +:+ nl +:+
  "To enable full AI capabilities with personalized responses, please:" +:+ nl +:+
  "1. Get a free API key from Google AI Studio (https://makersuite.google.com/app/apikey)" +:+ nl +:+
  "2. Add GEMINI_API_KEY=your_api_key_here to your .env file" +:+ nl +:+
  "3. Optionally add PERSONAL_DATA_API_KEY=your_secure_key for data protection" +:+ nl +:+
  "4. Restart the server" +:+ nl +:+
  nl +:+
  "You can still use the personal data management API to add your information!".

(** [!process.env.GEMINI_API_KEY || process.env.GEMINI_API_KEY === 'demo-key'] *)
Definition unconfigured (sv : server) : bool :=
  match GEMINI_API_KEY sv with
  | None => true
  | Some k => String.eqb k "" || String.eqb k "demo-key"
  end.

(** The [catch] block of the handler. *)
Definition error_response (sv : server) (e : error) : response :=
  let m := error_message e in
  if includes m "API key" then
    {| status := 401;
       body := [ ("error", JStr "Authentication Error");
                 ("message", JStr "Invalid or missing Gemini API key") ] |}
  else if includes m "quota" || includes m "rate limit" then
    {| status := 429;
       body := [ ("error", JStr "Rate Limit Exceeded");
                 ("message", JStr "Gemini API rate limit exceeded. Please try again later.") ] |}
  else
    {| status := 500;
       body := [ ("error", JStr "Internal Server Error");
                 ("message", JStr "Failed to get AI response") ]
               ++ (if match NODE_ENV sv with
                      | Some env => String.eqb env "development"
                      | None => false
                      end
                   then [ ("details", JStr m) ] else []) |}.

Definition post_chat (req : request) (sv : server) : response * server :=
  let message := message req in
  let sessionId := default "default" (sessionId req) in
  let includePersonalContext := default true (includePersonalContext req) in
  if String.eqb message "" then
    ({| status := 400;
        body := [ ("error", JStr "Bad Request");
                  ("message", JStr "Message is required") ] |}, sv)
  else if unconfigured sv then
    ({| status := 200;
        body := [ ("response", JStr (demo_text message));
                  ("isDemo", JBool true);
                  ("personalDataAvailable", JBool false) ] |}, sv)
  else
    let personalContext :=
      if includePersonalContext
      then PersonalData.searchRelevantData message (personal sv)
      else [] in
    let personalDataAvailable :=
      if includePersonalContext
      then (0 <? List.length personalContext)%nat
      else false in
    (* const conversationHistory = chatContexts.get(sessionId) || [] *)
    let '(conversationHistory, sv1) :=
      match chatContexts sv !! sessionId with
      | Some r => (r, sv)
      | None => alloc [] sv
      end in
    match
      (let* prompt :=
         createPersonalizedPrompt message personalContext (deref sv1 conversationHistory) in
       generateContent prompt)
    with
    | Throw e => (error_response sv1 e, sv1)
    | Ok text =>
        let sv2 := updateChatContext sessionId message text sv1 in
        ({| status := 200;
            body := [ ("response", JStr text);
                      ("sessionId", JStr sessionId);
                      ("personalDataUsed", JBool personalDataAvailable);
                      ("contextLength",
                        JNum (string_of_nat (List.length (deref sv2 conversationHistory))));
                      ("isDemo", JBool false) ] |}, sv2)
    end.

(** ** [router.post('/context')] *)

(** A turn as the object the array holds. *)
Definition turn_json (t : turn) : json :=
  JObj [ ("role", JStr (role t)); ("content", JStr (content t)) ].

Definition post_context (sessionId action : option string) (sv : server)
  : response * server :=
  let sessionId := default "default" sessionId in
  let action := default "get" action in
  if String.eqb action "clear" then
    ({| status := 200;
        body := [ ("success", JBool true);
                  ("message", JStr "Chat context cleared");
                  ("sessionId", JStr sessionId) ] |},
     clear_context sessionId sv)
  else
    let context := get_context sessionId sv in
    ({| status := 200;
        body := [ ("success", JBool true);
                  ("sessionId", JStr sessionId);
                  ("context", JArr (List.map turn_json context));
                  ("length", JNum (string_of_nat (List.length context)));
                  ("message", JStr "Chat context retrieved") ] |}, sv).

(** ** [router.post('/preview')] *)

Definition post_preview (message : string) (sv : server) : response :=
  if String.eqb message "" then
    {| status := 400;
       body := [ ("error", JStr "Bad Request");
                 ("message", JStr "Message is required for preview") ] |}
  else
    let relevantData := PersonalData.searchRelevantData message (personal sv) in
    {| status := 200;
       body := [ ("success", JBool true);
                 ("query", JStr message);
                 ("relevantData", JObj relevantData);
                 ("dataFound", JBool (0 <? List.length relevantData)%nat);
                 ("sections", JArr (List.map (fun kv => JStr (fst kv)) relevantData));
                 ("message", JStr "Preview data retrieved successfully") ] |}.

(** ** [router.get('/health')] *)

(** [!!(process.env.GEMINI_API_KEY && process.env.GEMINI_API_KEY !== 'demo-key')] *)
Definition geminiConfigured (sv : server) : bool :=
  match GEMINI_API_KEY sv with
  | Some k => negb (String.eqb k "") && negb (String.eqb k "demo-key")
  | None => false
  end.

End Model.
End Chat.

(* ===================================================================== *)
(** * middleware/auth.js *)
(* ===================================================================== *)

Module Auth.
Import JS.

(** A parsed query parameter: a string, or the array or object that a
    repeated or bracketed parameter gives. *)
Inductive query_value : Type :=
| QString (s : string)
| QOther.

(** What the middleware reads of a request and of the environment. *)
Record credentials : Type := {
  header_X_API_Key : option string;
  query_apiKey : option query_value;
  PERSONAL_DATA_API_KEY : option string
}.

(** A middleware hands the request on or answers it. *)
Inductive outcome : Type :=
| Next
| Answer (r : Chat.response).

Definition unauthorized (text : string) : outcome :=
  Answer {| Chat.status := 401;
            Chat.body := [ ("error", JStr "Unauthorized"); ("message", JStr text) ] |}.

(** [req.header('X-API-Key') || req.query.apiKey] *)
Definition apiKey (c : credentials) : option query_value :=
  match header_X_API_Key c with
  | Some h => if String.eqb h "" then query_apiKey c else Some (QString h)
  | None => query_apiKey c
  end.

(** [authenticateApiKey(req, res, next)] *)
Definition authenticateApiKey (c : credentials) : outcome :=
  match PERSONAL_DATA_API_KEY c with
  | None => Next
  | Some expectedApiKey =>
      if String.eqb expectedApiKey "" then Next
      else
        match apiKey c with
        | None | Some (QString "") =>
            unauthorized "API key required. Provide it via X-API-Key header or apiKey query parameter."
        | Some (QString k) =>
            if String.eqb k expectedApiKey then Next
            else unauthorized "Invalid API key."
        | Some QOther => unauthorized "Invalid API key."
        end
  end.

End Auth.

(* ===================================================================== *)
(** * routes/personalData.js *)
(* ===================================================================== *)

Module Routes.
Import JS.

(** ** The routes of the router, in the order they are registered *)

Inductive method : Type := GET | PUT | POST.

(** A segment of a route path: a literal, or a named parameter. *)
Inductive segment : Type :=
| Literal (s : string)
| Param (name : string).

Inductive endpoint : Type :=
| GetAll
| PutAll
| GetSection
| PutSection
| PostSearch
| PostValidate
| GetSchemaInfo
| GetHealth.

Definition routes : list (method * list segment * endpoint) :=
  [ (GET, [], GetAll);
    (PUT, [], PutAll);
    (GET, [Param "section"], GetSection);
    (PUT, [Param "section"], PutSection);
    (POST, [Literal "search"], PostSearch);
    (POST, [Literal "validate"], PostValidate);
    (GET, [Literal "schema"; Literal "info"], GetSchemaInfo);
    (GET, [Literal "health"], GetHealth) ].

Definition method_eqb (a b : method) : bool :=
  match a, b with
  | GET, GET | PUT, PUT | POST, POST => true
  | _, _ => false
  end.

(** A route path against the segments of a request path: a literal
    matches its text in any letter case, a parameter any segment that is
    not empty; the values of the parameters, by name. *)
Fixpoint match_path (ps : list segment) (path : list string)
  : option (list (string * string)) :=
  match ps, path with
  | [], [] => Some []
  | Literal s :: ps', x :: path' =>
      if String.eqb (toLowerCase s) (toLowerCase x) then match_path ps' path' else None
  | Param name :: ps', x :: path' =>
      if String.eqb x "" then None
      else match match_path ps' path' with
           | Some params => Some ((name, x) :: params)
           | None => None
           end
  | _, _ => None
  end.

(** The first route, in the order of registration, that matches; its
    handler answers, so no later route sees the request. *)
Fixpoint first_match (rs : list (method * list segment * endpoint))
    (m : method) (path : list string)
  : option (endpoint * list (string * string)) :=
  match rs with
  | [] => None
  | (m', ps, e) :: rest =>
      if method_eqb m m' then
        match match_path ps path with
        | Some params => Some (e, params)
        | None => first_match rest m path
        end
      else first_match rest m path
  end.

Definition dispatch (m : method) (path : list string)
  : option (endpoint * list (string * string)) :=
  first_match routes m path.

Section Model.
Context `{P : Platform}.

(** What [express.json()] hands on as [req.body]: in its strict mode,
    which is the default, an object or an array.  For any other JSON
    text the parser raises an error, the error handler answers, and no
    handler of the router runs. *)
Definition parsed (body : json) : bool :=
  match body with
  | JObj _ | JArr _ => true
  | _ => false
  end.

(** ** The handler of [router.put('/')]

    This is the function the route ends in.  It runs for a request that
    [express.json()], the limiters and [authenticateApiKey] have passed
    on; what these answer themselves (500, 429, 401) is not part of
    it. *)
Definition put_root_handler (body : json) (w : PersonalData.store)
  : Chat.response * PersonalData.store :=
  match PersonalData.updateData body w with
  | (Ok updatedData, w') =>
      ({| Chat.status := 200;
          Chat.body := [ ("success", JBool true);
                         ("data", updatedData);
                         ("message", JStr "Personal data updated successfully") ] |}, w')
  | (Throw error, w') =>
      if includes (error_message error) "Validation error" then
        ({| Chat.status := 400;
            Chat.body := [ ("error", JStr "Validation Error");
                           ("message", JStr (error_message error)) ] |}, w')
      else
        ({| Chat.status := 500;
            Chat.body := [ ("error", JStr "Internal Server Error");
                           ("message", JStr "Failed to update personal data") ] |}, w')
  end.

(** ** [router.get('/:section')] *)
Definition get_section (section : string) (w : PersonalData.store) : Chat.response :=
  let sectionData := PersonalData.getSection section w in
  if negb (truthy (Some sectionData)) then
    {| Chat.status := 404;
       Chat.body := [ ("error", JStr "Not Found");
                      ("message", JStr ("Section '" +:+ section +:+ "' not found")) ] |}
  else
    {| Chat.status := 200;
       Chat.body := [ ("success", JBool true);
                      ("data", sectionData);
                      ("section", JStr section);
                      ("message",
                        JStr ("Section '" +:+ section +:+ "' retrieved successfully")) ] |}.

(** ** The handler of [router.put('/:section')]

    As for [put_root_handler]: the function the route ends in, run for
    a request that the parser, the limiters and the key check have
    passed on. *)
Definition put_section_handler (section : string) (body : json)
    (w : PersonalData.store)
  : Chat.response * PersonalData.store :=
  match PersonalData.updateSection section body w with
  | (Ok updatedSection, w') =>
      ({| Chat.status := 200;
          Chat.body := [ ("success", JBool true);
                         ("data", updatedSection);
                         ("section", JStr section);
                         ("message",
                           JStr ("Section '" +:+ section +:+ "' updated successfully")) ] |}, w')
  | (Throw _, w') =>
      ({| Chat.status := 500;
          Chat.body := [ ("error", JStr "Internal Server Error");
                         ("message",
                           JStr ("Failed to update section '" +:+ section +:+ "'")) ] |}, w')
  end.

End Model.
End Routes.

(* ===================================================================== *)
(** * The properties, in the words of the specification *)
(* ===================================================================== *)

Module Spec.
Import JS.

(** Space, tab, line feed, vertical tab, form feed, carriage return. *)
Definition is_space (c : ascii) : bool :=
  let n := nat_of_ascii c in
  (n =? 32)%nat || ((9 <=? n)%nat && (n <=? 13)%nat).

(** The pieces of a string between whitespace characters. *)
Fixpoint pieces (s : string) : list string :=
  match s with
  | EmptyString => [EmptyString]
  | String c s' =>
      if is_space c then EmptyString :: pieces s'
      else match pieces s' with
           | [] => [String c EmptyString]
           | t :: ts => String c t :: ts
           end
  end.

(** The whitespace-delimited tokens of a query: the pieces that are not
    empty.  The empty query has none. *)
Definition tokens (query : string) : list string :=
  List.filter (fun t => negb (String.eqb t "")) (pieces query).

(** The unit contains, case-insensitively, a token of the query in its
    JSON text. *)
Definition contains_token (query : string) (unit : json) : bool :=
  existsb (fun t => includes (toLowerCase (JSON_stringify unit)) (toLowerCase t))
          (tokens query).

(** The units a result returns, [preferences] apart: the biography, and
    the entries of the list sections. *)
Definition units (result : list (string * json)) : list json :=
  flat_map (fun kv =>
              if String.eqb (fst kv) "preferences" then []
              else if String.eqb (fst kv) "biography" then [snd kv]
              else match snd kv with
                   | JArr xs => xs
                   | v => [v]
                   end) result.

(** The containment law: every returned unit contains a token. *)
Definition containment (query : string) (result : list (string * json)) : bool :=
  forallb (contains_token query) (units result).

(** The sections a search can return. *)
Definition searched : list string :=
  ["biography"; "skills"; "projects"; "experience"; "preferences"].

(** The validation ends in an error. *)
Definition rejected {A} (r : Joi.vresult A) : Prop :=
  exists d t, r = Joi.VErr d t.

(** The levels of [proficiency]. *)
Definition proficiencies : list string :=
  ["beginner"; "intermediate"; "advanced"; "expert"].

(** A document with [metadata.updatedAt] left out: two documents that
    agree on it are identical in every field except that one. *)
Definition without_updatedAt (doc : list (string * json)) : list (string * json) :=
  match assoc "metadata" doc with
  | Some (JObj m) => set_field "metadata" (JObj (remove_field "updatedAt" m)) doc
  | _ => doc
  end.

(** Re-saving what [read()] returns changes [metadata.updatedAt] only. *)
Definition resave_changes_updatedAt_only `{P : Platform} (w : PersonalData.store)
  : Prop :=
  forall r w',
    PersonalData.updateData (PersonalData.getAllData w) w = (Ok r, w') ->
    exists before after,
      PersonalData.data_file w = Some before /\
      PersonalData.data_file w' = Some after /\
      without_updatedAt after = without_updatedAt before.

(** The list sections whose entries get an [id]. *)
Definition list_sections : list string :=
  ["skills"; "projects"; "socialLinks"; "experience"; "education"].

Definition has_id (entry : json) : bool :=
  match entry with
  | JObj e => truthy (assoc "id" e)
  | _ => false
  end.

(** Every entry of the list section [k], if the document has it, has an
    [id]. *)
Definition ids_present (doc : list (string * json)) (k : string) : bool :=
  match assoc k doc with
  | None => true
  | Some (JArr entries) => forallb has_id entries
  | Some _ => false
  end.

(** What a whole-document write makes of an entry of a list section:
    the entry itself when it has an [id], the entry with a new [id]
    otherwise. *)
Definition identified `{P : Platform} (x y : json) : Prop :=
  exists e, x = JObj e /\
    if truthy (assoc "id" e) then y = x
    else exists m, y = JObj (set_field "id" (JStr (uuidv4 m)) e).

(** The section [k] of [b] is that of [a] with identifiers. *)
Definition ids_added `{P : Platform} (k : string) (a b : list (string * json)) : Prop :=
  match assoc k a with
  | Some (JArr xs) => exists ys, assoc k b = Some (JArr ys) /\ Forall2 identified xs ys
  | _ => assoc k b = assoc k a
  end.

(** The [n] most recent elements of a log, in their order. *)
Definition most_recent {A} (n : nat) (log : list A) : list A :=
  skipn (List.length log - n) log.

(** The two turns of one exchange. *)
Definition exchange (userMessage assistantReply : string) : list Chat.turn :=
  [ {| Chat.role := "user"; Chat.content := userMessage |};
    {| Chat.role := "assistant"; Chat.content := assistantReply |} ].

(** A call of [append]: the session and the two texts. *)
Record append_call : Type := {
  to_session : string;
  user_text : string;
  reply_text : string
}.

(** The turns a sequence of calls adds to one session, oldest first. *)
Definition turns_of (sessionId : string) (calls : list append_call)
  : list Chat.turn :=
  flat_map (fun c => if String.eqb (to_session c) sessionId
                     then exchange (user_text c) (reply_text c) else []) calls.

(** The server after a sequence of calls of [updateChatContext]. *)
Definition run_appends (calls : list append_call) (sv : Chat.server) : Chat.server :=
  fold_left (fun sv c =>
               Chat.updateChatContext (to_session c) (user_text c) (reply_text c) sv)
            calls sv.

(** References are handed out once: those in the session map are below
    the next one, and no two sessions share an array. *)
Definition well_formed (sv : Chat.server) : Prop :=
  (forall s r, Chat.chatContexts sv !! s = Some r -> r < Chat.next_ref sv) /\
  (forall s1 s2 r, Chat.chatContexts sv !! s1 = Some r ->
                   Chat.chatContexts sv !! s2 = Some r -> s1 = s2).

(** ** Violations of a schema *)

(** [v] is of the type [s] prescribes.  With [conv], a string that joi
    converts to the type (a numeric string for a number, ["true"] or
    ["false"] for a boolean) and a number where a date is prescribed
    count as of the type; without it they do not. *)
Definition of_type `{P : Platform} (conv : bool) (s : Joi.schema) (v : json) : bool :=
  match s, v with
  | Joi.SString _ _, JStr _ => true
  | Joi.SNumber _, JNum _ => true
  | Joi.SNumber _, JStr x =>
      conv && match number_of_string x with Some _ => true | None => false end
  | Joi.SBoolean _, JBool _ => true
  | Joi.SBoolean _, JStr x =>
      conv && (String.eqb (toLowerCase x) "true" || String.eqb (toLowerCase x) "false")
  | Joi.SDate _, JStr _ =>
      match date_coerce v with Some _ => true | None => false end
  | Joi.SDate _, JNum _ =>
      conv && match date_coerce v with Some _ => true | None => false end
  | Joi.SArray _ _, JArr _ => true
  | Joi.SObject _ _, JObj _ => true
  | _, _ => false
  end.

(** The rules of a string and of a number beyond the type: a string is
    not empty, and a URI where one is asked for; a number is safe. *)
Definition within_rules `{P : Platform} (s : Joi.schema) (v : json) : bool :=
  match s, v with
  | Joi.SString _ u, JStr x => negb (String.eqb x "") && (negb u || is_uri x)
  | Joi.SNumber _, JNum n => number_safe n
  | Joi.SNumber _, JStr x =>
      match number_of_string x with
      | Some n => number_safe n
      | None => true
      end
  | _, _ => true
  end.

Definition is_nil {A} (xs : list A) : bool :=
  match xs with
  | [] => true
  | _ => false
  end.

(** The field of [v] at the path [q] violates its constraint in [s]: it
    is not one of the allowed values, not of the type or outside the
    rules of the type, required and absent, or not described at all. *)
Fixpoint violates `{P : Platform} (conv : bool) (q : list Joi.seg)
    (s : Joi.schema) (v : json) : bool :=
  match Joi.only (Joi.flags_of s) with
  | Some vs =>
      is_nil q && negb (match v with JStr x => Joi.mem_string x vs | _ => false end)
  | None =>
      match q with
      | [] => negb (of_type conv s v && within_rules s v)
      | Joi.Key k :: q' =>
          match s, v with
          | Joi.SObject _ ks, JObj fs =>
              match assoc k fs with
              | Some x =>
                  existsb (fun kc => String.eqb (fst kc) k && violates conv q' (snd kc) x) ks
                  || (is_nil q' && negb (Joi.mem_string k (List.map fst ks)))
              | None =>
                  is_nil q'
                  && existsb (fun kc => String.eqb (fst kc) k
                                        && Joi.is_required (Joi.flags_of (snd kc))) ks
              end
          | _, _ => false
          end
      | Joi.Index i :: q' =>
          match s, v with
          | Joi.SArray _ item, JArr xs =>
              match xs !! i with
              | Some x => violates conv q' item x
              | None => false
              end
          | _, _ => false
          end
      end
  end.

(** The stored [metadata.version]. *)
Definition stored_version (w : PersonalData.store) : option json :=
  match PersonalData.data_file w with
  | Some d =>
      match assoc "metadata" d with
      | Some m => PersonalData.get m "version"
      | None => None
      end
  | None => None
  end.

(** ** The prompt, block by block *)

Import Chat.

(** A value the template can print: no object with a [toString] of its
    own, neither the value nor an element an array is joined from. *)
Fixpoint printable (j : json) : bool :=
  match j with
  | JArr items => forallb printable items
  | JObj fields =>
      match assoc "toString" fields with
      | Some _ => false
      | None => true
      end
  | _ => true
  end.

(** The properties [ks] of [x], where it has them, can be printed. *)
Definition prints (x : json) (ks : list string) : bool :=
  forallb (fun k => match PersonalData.get x k with
                    | Some v => printable v
                    | None => true
                    end) ks.

(** What the template can join: an array of values it can print, or
    nothing. *)
Definition joinable (v : option json) : bool :=
  match v with
  | None | Some JNull => true
  | Some (JArr xs) => forallb printable xs
  | Some _ => false
  end.

(** A skill: anything but [null], with the five properties of the skill
    line printable. *)
Definition is_skill (x : json) : bool :=
  match x with
  | JNull => false
  | _ => prints x ["name"; "proficiency"; "category"; "yearsOfExperience"; "description"]
  end.

(** A project: its [technologies] can be joined as well. *)
Definition is_project (x : json) : bool :=
  match x with
  | JNull => false
  | _ => prints x ["name"; "description"; "status"]
         && joinable (PersonalData.get x "technologies")
  end.

Definition is_experience (x : json) : bool :=
  match x with
  | JNull => false
  | _ => prints x ["position"; "company"; "description"]
  end.

(** The entries of a list section; none when the section is absent. *)
Definition entries (ctx : list (string * json)) (k : string) : list json :=
  match assoc k ctx with
  | Some (JArr xs) => xs
  | _ => []
  end.

(** A list section: absent, [null], or an array of entries. *)
Definition list_of (ok : json -> bool) (v : option json) : bool :=
  match v with
  | None | Some JNull => true
  | Some (JArr xs) => forallb ok xs
  | Some _ => false
  end.

(** A biography whose five printed properties can be printed. *)
Definition is_biography (v : option json) : bool :=
  match v with
  | Some b => prints b ["name"; "title"; "description"; "location"; "background"]
  | None => true
  end.

(** Preferences whose [interests] and [goals] can be joined and whose
    [workStyle] can be printed. *)
Definition is_preferences (v : option json) : bool :=
  match v with
  | Some prefs =>
      joinable (PersonalData.get prefs "interests")
      && joinable (PersonalData.get prefs "goals")
      && prints prefs ["workStyle"]
  | None => true
  end.

(** Relevant data the template can render: the list sections are arrays
    without [null] entries, what the template joins is an array, and
    what it prints can be converted to a string. *)
Definition well_shaped (ctx : list (string * json)) : bool :=
  is_biography (assoc "biography" ctx)
  && list_of is_skill (assoc "skills" ctx)
  && list_of is_project (assoc "projects" ctx)
  && list_of is_experience (assoc "experience" ctx)
  && is_preferences (assoc "preferences" ctx).

(** ** The shape of a stored profile *)

(** [x'] is what the schema makes of some value it accepts. *)
Definition accepted `{P : Platform} (s : Joi.schema) (x' : json) : Prop :=
  exists x q t t', Joi.validate s q x t = Joi.VOk x' t'.

Definition is_obj (x : json) : Prop := exists e, x = JObj e.

(** A schema for strings, numbers, booleans or dates. *)
Definition scalar (s : Joi.schema) : bool :=
  match s with
  | Joi.SArray _ _ | Joi.SObject _ _ => false
  | _ => true
  end.

(** The schema an object schema has for the key [k]. *)
Fixpoint child_schema (k : string) (ks : list (string * Joi.schema))
  : option Joi.schema :=
  match ks with
  | [] => None
  | (k', c) :: rest => if String.eqb k k' then Some c else child_schema k rest
  end.

(** Each of the keys [ps] has a scalar schema without a default in [ks]. *)
Definition scalar_keys (ks : list (string * Joi.schema)) (ps : list string) : bool :=
  forallb (fun k => match child_schema k ks with
                    | Some c => scalar c
                                && match Joi.dflt (Joi.flags_of c) with
                                   | None => true
                                   | Some _ => false
                                   end
                    | None => false
                    end) ps.

(** An object that meets [ok]. *)
Definition obj_with (ok : json -> bool) (x : json) : Prop :=
  exists e, x = JObj e /\ ok (JObj e) = true.

(** The section [k], if the document has it, is an array of [Q]s. *)
Definition section_of (Q : json -> Prop) (k : string) (d : list (string * json))
  : Prop :=
  forall v, assoc k d = Some v -> exists xs, v = JArr xs /\ List.Forall Q xs.

(** What validation and the assignment of identifiers leave: arrays of
    objects, arrays where the template joins, and strings and numbers
    where it prints. *)
Definition stored_shape (d : list (string * json)) : Prop :=
  is_biography (assoc "biography" d) = true /\
  section_of (obj_with is_skill) "skills" d /\
  section_of (obj_with is_project) "projects" d /\
  section_of (obj_with is_experience) "experience" d /\
  is_preferences (assoc "preferences" d) = true.

(** The line a renderer gives for an entry. *)
Definition line_of {A} (render : A -> result string) (x : A) : string :=
  match render x with
  | Ok s => s
  | Throw _ => ""
  end.

Fixpoint concat_lines (lines : list string) : string :=
  match lines with
  | [] => ""
  | l :: rest => l +:+ concat_lines rest
  end.

(** A header and its lines; nothing at all without lines. *)
Definition block (header : string) (lines : list string) : string :=
  match lines with
  | [] => ""
  | _ => header +:+ concat_lines lines
  end.

Definition text_of (r : result string) : string :=
  match r with
  | Ok s => s
  | Throw _ => ""
  end.

(** The personal-information part of the prompt: biography, all skills,
    the first five projects, the first three experiences, preferences. *)
Definition personal_information (ctx : list (string * json)) : string :=
  match ctx with
  | [] => ""
  | _ =>
      "PERSONAL INFORMATION ABOUT THE PERSON:" +:+ nl
      +:+ text_of (biography_block ctx "")
      +:+ block (nl +:+ "Skills:" +:+ nl)
                (List.map (line_of render_skill) (entries ctx "skills"))
      +:+ block (nl +:+ "Recent Projects:" +:+ nl)
                (List.map (line_of render_project) (firstn 5 (entries ctx "projects")))
      +:+ block (nl +:+ "Work Experience:" +:+ nl)
                (List.map (line_of render_experience) (firstn 3 (entries ctx "experience")))
      +:+ text_of (preferences_block ctx "")
  end.

(** The conversation part: the last four turns, one line each. *)
Definition recent_conversation (history : list turn) : string :=
  block (nl +:+ "RECENT CONVERSATION HISTORY:" +:+ nl)
        (List.map (fun msg => role msg +:+ ": " +:+ content msg +:+ nl)
                  (most_recent 4 history)).

(** ** The sessions of the chat router *)

(** The turns of a sequence of exchanges, oldest first. *)
Definition turns (log : list (string * string)) : list turn :=
  flat_map (fun e => exchange (fst e) (snd e)) log.

(** The states of the router.  It starts without sessions, and three
    steps change its state, each of them run to its end before anything
    else runs: a call of [updateChatContext], a [chatContexts.delete],
    and the creation of an array.  The handlers are sequences of these,
    and handlers that wait for the model at the same time interleave
    them. *)
Inductive reachable : server -> Prop :=
| reachable_start sv :
    chatContexts sv = ∅ -> reachable sv
| reachable_append sessionId userMessage aiResponse sv :
    reachable sv -> reachable (updateChatContext sessionId userMessage aiResponse sv)
| reachable_delete sessionId sv :
    reachable sv -> reachable (clear_context sessionId sv)
| reachable_alloc xs sv :
    reachable sv -> reachable (snd (alloc xs sv)).

(** The server with another stored profile. *)
Definition with_personal (p : PersonalData.store) (sv : server) : server :=
  {| personal := p; GEMINI_API_KEY := GEMINI_API_KEY sv; NODE_ENV := NODE_ENV sv;
     chatContexts := chatContexts sv; arrays := arrays sv; next_ref := next_ref sv |}.

(** In every session the window is so many whole exchanges, five at
    most, and the map holds the session when there is one. *)
Definition whole_exchanges (sv : server) : Prop :=
  forall sid, exists log,
    List.length log <= 5 /\
    get_context sid sv = turns log /\
    (is_Some (chatContexts sv !! sid) <-> log <> []).

(** ** What the prompt reads of its arguments *)

(** The relevant data with the array of section [k] cut to its first [n]
    entries. *)
Definition cap_section (k : string) (n : nat) (ctx : list (string * json))
  : list (string * json) :=
  match assoc k ctx with
  | Some (JArr xs) => set_field k (JArr (firstn n xs)) ctx
  | _ => ctx
  end.

Definition capped (ctx : list (string * json)) : list (string * json) :=
  cap_section "experience" 3 (cap_section "projects" 5 ctx).

(** ** What a search finds *)

(** The unit contains one of the terms [query.toLowerCase().split(' ')]
    gives, the empty ones included. *)
Definition matches (query : string) (unit : json) : bool :=
  PersonalData.containsTerms (toLowerCase (JSON_stringify unit))
                             (split " " (toLowerCase query)).

(** The units a result holds under the key [k]: the entries of a list
    section, the value itself otherwise. *)
Definition found (result : list (string * json)) (k : string) : list json :=
  match assoc k result with
  | Some (JArr xs) => xs
  | Some v => [v]
  | None => []
  end.

(** ** The result of a search *)

(** The result a search builds: the biography when it matched ([c]),
    the matching entries [rs], [rp], [re] of the three list sections
    where there are any, the preferences where the document has them. *)
Definition result_of (d : list (string * json)) (b : json) (c : bool)
    (rs rp re : option (list json)) : list (string * json) :=
  let r0 := if c then set_field "biography" b [] else [] in
  let r3 := PersonalData.add_relevant "experience" re
              (PersonalData.add_relevant "projects" rp
                 (PersonalData.add_relevant "skills" rs r0)) in
  if truthy (assoc "preferences" d)
  then set_field "preferences" (default JNull (assoc "preferences" d)) r3
  else r3.

(** The list section [k] can be filtered: it is absent, [null] or an
    array. *)
Definition filterable (d : list (string * json)) (k : string) : Prop :=
  assoc k d = None \/ assoc k d = Some JNull \/ exists all, assoc k d = Some (JArr all).

(** ** The keys of a document, and those an entry cannot go without *)

(** The names every object answers to without having the property
    itself: those of [Object.prototype].  A lookup by one of these
    names is not a lookup among the properties of the object. *)
Definition inherited_keys : list string :=
  ["constructor"; "__proto__"; "hasOwnProperty"; "isPrototypeOf";
   "propertyIsEnumerable"; "toLocaleString"; "toString"; "valueOf";
   "__defineGetter__"; "__defineSetter__"; "__lookupGetter__"; "__lookupSetter__"].

(** The keys [personalDataSchema] describes. *)
Definition known_keys : list string :=
  ["id"; "biography"; "skills"; "projects"; "preferences";
   "socialLinks"; "experience"; "education"; "metadata"].

Definition required_keys : list (string * list string) :=
  [ ("skills", ["name"; "category"; "proficiency"]);
    ("projects", ["name"; "description"; "status"]);
    ("socialLinks", ["platform"; "url"]);
    ("experience", ["company"; "position"; "startDate"]);
    ("education", ["institution"; "degree"; "field"]) ].

End Spec.

(* ===================================================================== *)
(** * Concrete data for the worked examples *)
(* ===================================================================== *)

Module Examples.
Import JS.

(** A platform to run the model on: URIs start with a scheme, dates are
    taken as they are written, the model always answers ["Hi"]. *)
#[local] Instance test_platform : Platform := {|
  is_uri := fun s => startsWith "http://" s || startsWith "https://" s;
  number_of_string := fun _ => None;
  number_safe := fun _ => true;
  date_coerce := fun j => match j with JStr s => Some s | _ => None end;
  Date_now := fun n => "170000000000" +:+ string_of_nat n;
  Date_toJSON := fun n => "2024-01-01T00:00:0" +:+ string_of_nat n +:+ ".000Z";
  uuidv4 := fun n => "uuid-" +:+ string_of_nat n;
  StringToNumber := fun _ => None;
  generateContent := fun _ => Ok "Hi"
|}.

Definition empty_store : PersonalData.store :=
  {| PersonalData.data_file := None;
     PersonalData.clock := 0;
     PersonalData.uuid_count := 0 |}.

(** The store after the first start: the placeholder profile. *)
Definition fresh_store : PersonalData.store :=
  PersonalData.initializeDataFile empty_store.

Definition react_skill : json :=
  JObj [ ("name", JStr "React"); ("category", JStr "programming");
         ("proficiency", JStr "advanced"); ("yearsOfExperience", JNum "3") ].

Definition bogus_skill : json :=
  JObj [ ("name", JStr "X"); ("category", JStr "c"); ("proficiency", JStr "bogus") ].

(** The placeholder profile after [PUT /api/personal-data/skills] with
    one skill, the request the README shows. *)
Definition react_store : PersonalData.store :=
  snd (PersonalData.updateSection "skills" (JArr [react_skill]) fresh_store).

(** The document of scenario E. *)
Definition bogus_doc : json := JObj [ ("skills", JArr [bogus_skill]) ].

(** The store after [PUT /api/personal-data] with an empty document. *)
Definition emptied_store : PersonalData.store :=
  snd (PersonalData.updateData (JObj []) fresh_store).

(** The store after the profile of [react_store] was read and saved
    whole: the skill has its [id]. *)
Definition saved_store : PersonalData.store :=
  snd (PersonalData.updateData (PersonalData.getAllData react_store) react_store).

(** The placeholder profile after [PUT /api/personal-data/projects] with
    a project whose [technologies] is a string. *)
Definition malformed_store : PersonalData.store :=
  snd (PersonalData.updateSection "projects"
         (JArr [ JObj [ ("name", JStr "Site"); ("description", JStr "A web site");
                        ("technologies", JStr "js"); ("status", JStr "completed") ] ])
         fresh_store).

Definition project (name : string) : json :=
  JObj [ ("name", JStr name); ("description", JStr "d");
         ("technologies", JArr [JStr "js"; JStr "css"]); ("status", JStr "completed") ].

Definition job (company : string) : json :=
  JObj [ ("company", JStr company); ("position", JStr "dev"); ("isCurrent", JBool false) ].

(** Relevant data with six projects and four experiences. *)
Definition big_context : list (string * json) :=
  [ ("projects", JArr [ project "p1"; project "p2"; project "p3";
                        project "p4"; project "p5"; project "p6" ]);
    ("experience", JArr [ job "c1"; job "c2"; job "c3"; job "c4" ]);
    ("preferences", JObj [ ("interests", JArr [JStr "chess"]) ]) ].

(** A history of six turns. *)
Definition six_turns : list Chat.turn :=
  Spec.exchange "q1" "a1" ++ Spec.exchange "q2" "a2" ++ Spec.exchange "q3" "a3".

(** A server without a model credential, and one with. *)
Definition demo_server : Chat.server :=
  {| Chat.personal := fresh_store; Chat.GEMINI_API_KEY := None;
     Chat.NODE_ENV := None; Chat.chatContexts := ∅; Chat.arrays := ∅;
     Chat.next_ref := 0 |}.

Definition live_server : Chat.server :=
  {| Chat.personal := fresh_store; Chat.GEMINI_API_KEY := Some "key";
     Chat.NODE_ENV := None; Chat.chatContexts := ∅; Chat.arrays := ∅;
     Chat.next_ref := 0 |}.

Definition ask (sid text : string) : Chat.request :=
  {| Chat.message := text; Chat.sessionId := Some sid;
     Chat.includePersonalContext := Some true |}.

(** The live server after [n] requests of session ["s1"]. *)
Fixpoint after_requests (n : nat) : Chat.server :=
  match n with
  | 0 => live_server
  | S m => snd (Chat.post_chat (ask "s1" "hi") (after_requests m))
  end.

(** Seven calls for session ["s1"], one for ["s2"] in between. *)
Definition seven_calls : list Spec.append_call :=
  [ {| Spec.to_session := "s1"; Spec.user_text := "q1"; Spec.reply_text := "a1" |};
    {| Spec.to_session := "s1"; Spec.user_text := "q2"; Spec.reply_text := "a2" |};
    {| Spec.to_session := "s2"; Spec.user_text := "other"; Spec.reply_text := "reply" |};
    {| Spec.to_session := "s1"; Spec.user_text := "q3"; Spec.reply_text := "a3" |};
    {| Spec.to_session := "s1"; Spec.user_text := "q4"; Spec.reply_text := "a4" |};
    {| Spec.to_session := "s1"; Spec.user_text := "q5"; Spec.reply_text := "a5" |};
    {| Spec.to_session := "s1"; Spec.user_text := "q6"; Spec.reply_text := "a6" |};
    {| Spec.to_session := "s1"; Spec.user_text := "q7"; Spec.reply_text := "a7" |} ].

(** A platform whose model is out of quota: every call fails. *)
Definition quota_platform : Platform := {|
  is_uri := fun s => startsWith "http://" s || startsWith "https://" s;
  number_of_string := fun _ => None;
  number_safe := fun _ => true;
  date_coerce := fun j => match j with JStr s => Some s | _ => None end;
  Date_now := fun n => "170000000000" +:+ string_of_nat n;
  Date_toJSON := fun n => "2024-01-01T00:00:0" +:+ string_of_nat n +:+ ".000Z";
  uuidv4 := fun n => "uuid-" +:+ string_of_nat n;
  StringToNumber := fun _ => None;
  generateContent := fun _ => Throw (Error "quota exceeded")
|}.

(** A skill that has its name only. *)
Definition bare_skill : json := JObj [ ("name", JStr "React") ].

End Examples.

(* ===================================================================== *)
(** * Properties *)
(* ===================================================================== *)

Module Facts.
Import JS Spec PersonalData Chat.

(** ** Strings *)

Lemma append_nil (s : string) : "" +:+ s = s.
Proof. reflexivity. Qed.

Lemma append_cons (c : ascii) (a b : string) :
  String c a +:+ b = String c (a +:+ b).
Proof. reflexivity. Qed.

Lemma append_assoc (a b c : string) : (a +:+ b) +:+ c = a +:+ (b +:+ c).
Proof.
  induction a as [|x a IH]; [reflexivity|].
  rewrite !append_cons. now rewrite IH.
Qed.

Lemma append_nil_r (s : string) : s +:+ "" = s.
Proof. induction s as [|c s IH]; [reflexivity|]. now rewrite append_cons, IH. Qed.

Lemma startsWith_app (p s : string) : startsWith p (p +:+ s) = true.
Proof.
  induction p as [|c p IH]; [reflexivity|].
  rewrite append_cons. simpl. now rewrite Ascii.eqb_refl.
Qed.

Lemma startsWith_inv (p s : string) :
  startsWith p s = true -> exists rest, s = p +:+ rest.
Proof.
  revert s. induction p as [|c p IH]; intros s H.
  - now exists s.
  - destruct s as [|b s]; simpl in H; [discriminate|].
    apply andb_true_iff in H as [Hc Hp].
    apply Ascii.eqb_eq in Hc. subst b.
    destruct (IH _ Hp) as [rest ->]. now exists rest.
Qed.

Lemma includes_here (x s : string) : includes (x +:+ s) x = true.
Proof.
  destruct (x +:+ s) eqn:E; simpl; rewrite <- E, startsWith_app; reflexivity.
Qed.

Lemma includes_later (a t x : string) :
  includes t x = true -> includes (a +:+ t) x = true.
Proof.
  intros H. induction a as [|c a IH]; [exact H|].
  rewrite append_cons. simpl. rewrite IH. apply orb_true_r.
Qed.

(** [includes] is the substring relation. *)
Lemma includes_spec (text term : string) :
  includes text term = true <->
  exists before after, text = before +:+ term +:+ after.
Proof.
  split.
  - induction text as [|c text IH]; simpl; intros H.
    + rewrite orb_false_r in H. apply startsWith_inv in H as [rest ->].
      now exists "", rest.
    + apply orb_true_iff in H as [H|H].
      * apply startsWith_inv in H as [rest ->]. now exists "", rest.
      * destruct (IH H) as (b & a & ->). now exists (String c b), a.
  - intros (b & a & ->). apply includes_later, includes_here.
Qed.

Lemma toLowerCase_app a b : toLowerCase (a +:+ b) = toLowerCase a +:+ toLowerCase b.
Proof.
  induction a as [|c a IH]; [reflexivity|].
  rewrite append_cons. simpl. rewrite IH. reflexivity.
Qed.

(** ** Objects *)

Lemma assoc_set_field_eq k v fs : assoc k (set_field k v fs) = Some v.
Proof.
  induction fs as [|[k' v'] rest IH]; simpl.
  - now rewrite String.eqb_refl.
  - destruct (String.eqb k k') eqn:E; simpl.
    + now rewrite String.eqb_refl.
    + now rewrite E.
Qed.

Lemma assoc_set_field_ne k k' v fs :
  k <> k' -> assoc k (set_field k' v fs) = assoc k fs.
Proof.
  intros Hne. induction fs as [|[k2 v2] rest IH]; simpl.
  - destruct (String.eqb k k') eqn:E; [apply String.eqb_eq in E; congruence | reflexivity].
  - destruct (String.eqb k' k2) eqn:E2; simpl.
    + apply String.eqb_eq in E2. subst k2.
      destruct (String.eqb k k') eqn:E; [apply String.eqb_eq in E; congruence | reflexivity].
    + destruct (String.eqb k k2); [reflexivity | exact IH].
Qed.

Lemma set_field_same k v fs : assoc k fs = Some v -> set_field k v fs = fs.
Proof.
  induction fs as [|[k' v'] rest IH]; simpl; [discriminate|].
  destruct (String.eqb k k') eqn:E.
  - apply String.eqb_eq in E. subst k'. now intros [= ->].
  - intros H. now rewrite IH.
Qed.

Lemma set_field_twice k v v' fs :
  set_field k v (set_field k v' fs) = set_field k v fs.
Proof.
  induction fs as [|[k1 v1] rest IH]; simpl.
  - now rewrite String.eqb_refl.
  - destruct (String.eqb k k1) eqn:E; simpl.
    + now rewrite String.eqb_refl.
    + now rewrite E, IH.
Qed.

Lemma remove_set_field k v fs :
  remove_field k (set_field k v fs) = remove_field k fs.
Proof.
  induction fs as [|[k1 v1] rest IH]; simpl.
  - now rewrite String.eqb_refl.
  - destruct (String.eqb k k1) eqn:E; simpl.
    + now rewrite String.eqb_refl.
    + now rewrite E, IH.
Qed.

(** ** Arrays *)

Lemma slice_last {A} (n : nat) (xs : list A) :
  0 < n -> Array_slice (- Z.of_nat n) None xs = most_recent n xs.
Proof.
  intros Hn. unfold Array_slice, relative_index, most_recent.
  destruct (Z.ltb_spec (- Z.of_nat n) 0) as [_|H]; [|lia].
  replace (Z.to_nat (Z.max (Z.of_nat (List.length xs) + - Z.of_nat n) 0))
    with (List.length xs - n) by lia.
  apply firstn_all2. rewrite length_skipn. lia.
Qed.

Lemma slice_first {A} (n : nat) (xs : list A) :
  Array_slice 0 (Some (Z.of_nat n)) xs = firstn n xs.
Proof.
  unfold Array_slice, relative_index. simpl.
  destruct (Z.ltb_spec (Z.of_nat n) 0) as [H|_]; [lia|].
  rewrite Nat2Z.id, Nat.sub_0_r.
  destruct (Nat.le_ge_cases n (List.length xs)) as [H|H].
  - now rewrite Nat.min_l.
  - rewrite Nat.min_r by exact H. rewrite !firstn_all2; auto.
Qed.

Lemma most_recent_short {A} (n : nat) (xs : list A) :
  List.length xs <= n -> most_recent n xs = xs.
Proof.
  intros H. unfold most_recent. now replace (List.length xs - n) with 0 by lia.
Qed.

Lemma most_recent_length {A} (n : nat) (xs : list A) :
  List.length (most_recent n xs) = Nat.min n (List.length xs).
Proof. unfold most_recent. rewrite length_skipn. lia. Qed.

Lemma most_recent_app_long {A} (n : nat) (xs ys : list A) :
  n <= List.length ys -> most_recent n (xs ++ ys) = most_recent n ys.
Proof.
  intros H. unfold most_recent. rewrite length_app, skipn_app.
  replace (List.length xs + List.length ys - n - List.length xs)
    with (List.length ys - n) by lia.
  rewrite skipn_all2 by lia. reflexivity.
Qed.

(** Cutting twice is cutting once. *)
Lemma most_recent_app {A} (n : nat) (xs ys : list A) :
  most_recent n (most_recent n xs ++ ys) = most_recent n (xs ++ ys).
Proof.
  unfold most_recent. rewrite !length_app, length_skipn.
  destruct (Nat.le_ge_cases (List.length xs) n) as [H|H].
  - replace (List.length xs - n) with 0 by lia. simpl. now rewrite Nat.sub_0_r.
  - rewrite !skipn_app, length_skipn, skipn_skipn.
    f_equal; f_equal; lia.
Qed.

(** ** Relevance search *)

Lemma bind_ok {A B} (r : result A) (k : A -> result B) (b : B) :
  bind r k = Ok b -> exists a, r = Ok a /\ k a = Ok b.
Proof. destruct r; simpl; [eauto | discriminate]. Qed.

Lemma assoc_add_relevant_ne k k' r fs :
  k <> k' -> assoc k (add_relevant k' r fs) = assoc k fs.
Proof.
  intros Hne. unfold add_relevant. destruct r as [[|x xs]|]; try reflexivity.
  now apply assoc_set_field_ne.
Qed.

(** The result of a search, taken apart: which sections it holds. *)
Lemma search_body_ok query d r :
  search_body query (JObj d) = Ok r ->
  exists b rs rp re,
    assoc "biography" d = Some b /\
    filter_section d "skills" (split " " (toLowerCase query)) = Ok rs /\
    filter_section d "projects" (split " " (toLowerCase query)) = Ok rp /\
    filter_section d "experience" (split " " (toLowerCase query)) = Ok re /\
    r = (let r0 :=
           if containsTerms (toLowerCase (JSON_stringify b))
                (split " " (toLowerCase query))
           then set_field "biography" b [] else [] in
         let r3 := add_relevant "experience" re
                     (add_relevant "projects" rp (add_relevant "skills" rs r0)) in
         if truthy (assoc "preferences" d)
         then set_field "preferences" (default JNull (assoc "preferences" d)) r3
         else r3).
Proof.
  unfold search_body. intros H.
  apply bind_ok in H as (r0 & H0 & H).
  apply bind_ok in H as (rs & Hs & H).
  apply bind_ok in H as (rp & Hp & H).
  apply bind_ok in H as (re & He & H).
  destruct (assoc "biography" d) as [b|]; [|discriminate].
  exists b, rs, rp, re. repeat split; try assumption.
  injection H as <-.
  destruct (containsTerms _ _); injection H0 as <-; reflexivity.
Qed.

Lemma search_keys query w k :
  ~ In k searched -> assoc k (searchRelevantData query w) = None.
Proof.
  intros Hk. unfold searchRelevantData.
  destruct (search_body query (getAllData w)) as [r|e] eqn:E; [|reflexivity].
  unfold getAllData in E. destruct (data_file w) as [d|]; [|discriminate].
  apply search_body_ok in E as (b & rs & rp & re & _ & _ & _ & _ & ->).
  assert (k <> "biography" /\ k <> "skills" /\ k <> "projects" /\
          k <> "experience" /\ k <> "preferences") as (H1 & H2 & H3 & H4 & H5).
  { unfold searched in Hk. simpl in Hk. intuition congruence. }
  cbv zeta.
  destruct (truthy (assoc "preferences" d));
    rewrite ?(assoc_set_field_ne k "preferences") by assumption;
    rewrite !assoc_add_relevant_ne by assumption;
    destruct (containsTerms _ _);
    rewrite ?(assoc_set_field_ne k "biography") by assumption; reflexivity.
Qed.

(** C9. Whatever the query and the profile, the result of
    [searchRelevantData] has no [education] and no [socialLinks]
    section. *)
Theorem search_excludes_education_socialLinks query w :
  assoc "education" (searchRelevantData query w) = None /\
  assoc "socialLinks" (searchRelevantData query w) = None.
Proof.
  split; apply search_keys; unfold searched; simpl; intuition discriminate.
Qed.

(** Every section of a result comes out of the stored profile, and
    what is returned of the biography and of the list sections contains
    one of the terms [query.toLowerCase().split(' ')] yields. *)
Lemma search_sound query w k v :
  assoc k (searchRelevantData query w) = Some v ->
  let terms := split " " (toLowerCase query) in
  let hit := fun x => containsTerms (toLowerCase (JSON_stringify x)) terms in
  exists d, data_file w = Some d /\
    ((k = "biography" /\ assoc "biography" d = Some v /\ hit v = true) \/
     (In k ["skills"; "projects"; "experience"] /\
      exists all, assoc k d = Some (JArr all) /\
                  v = JArr (List.filter hit all) /\ List.filter hit all <> []) \/
     (k = "preferences" /\ assoc "preferences" d = Some v)).
Proof.
  intros H terms hit. unfold searchRelevantData in H.
  destruct (search_body query (getAllData w)) as [r|e] eqn:E; [|discriminate].
  unfold getAllData in E. destruct (data_file w) as [d|]; [|discriminate].
  exists d. split; [reflexivity|].
  apply search_body_ok in E as (b & rs & rp & re & Hb & Hs & Hp & He & ->).
  fold terms in Hs, Hp, He, H. cbv zeta in H.
  assert (Hsec : forall k0 r0 acc,
             filter_section d k0 terms = Ok r0 ->
             assoc k0 (add_relevant k0 r0 acc) = Some v ->
             (exists all, assoc k0 d = Some (JArr all) /\
                          v = JArr (List.filter hit all) /\ List.filter hit all <> [])
             \/ assoc k0 acc = Some v).
  { intros k0 r0 acc Hf Ha. unfold filter_section in Hf.
    destruct (assoc k0 d) as [[| | | |all|]|]; try discriminate;
      injection Hf as <-; simpl in Ha; auto.
    fold hit in Ha. destruct (List.filter hit all) as [|x xs] eqn:Ef; auto.
    rewrite assoc_set_field_eq in Ha. injection Ha as <-.
    left. exists all. rewrite Ef. repeat split. discriminate. }
  destruct (String.eqb k "preferences") eqn:Kp.
  { apply String.eqb_eq in Kp. subst k. right. right. split; [reflexivity|].
    destruct (truthy (assoc "preferences" d)) eqn:T.
    - rewrite assoc_set_field_eq in H. injection H as <-.
      destruct (assoc "preferences" d); [reflexivity | discriminate].
    - rewrite !assoc_add_relevant_ne in H by discriminate.
      destruct (containsTerms _ _); simpl in H; discriminate. }
  apply String.eqb_neq in Kp.
  assert (H' : assoc k
                 (add_relevant "experience" re
                    (add_relevant "projects" rp
                       (add_relevant "skills" rs
                          (if hit b then set_field "biography" b [] else []))))
               = Some v).
  { destruct (truthy (assoc "preferences" d));
      [rewrite assoc_set_field_ne in H by exact Kp|]; exact H. }
  clear H.
  destruct (String.eqb k "experience") eqn:Ke.
  { apply String.eqb_eq in Ke. subst k.
    destruct (Hsec _ _ _ He H') as [Hx|Hx].
    - right. left. split; [simpl; tauto | exact Hx].
    - rewrite !assoc_add_relevant_ne in Hx by discriminate.
      destruct (hit b); simpl in Hx; discriminate. }
  apply String.eqb_neq in Ke. rewrite assoc_add_relevant_ne in H' by exact Ke.
  destruct (String.eqb k "projects") eqn:Kj.
  { apply String.eqb_eq in Kj. subst k.
    destruct (Hsec _ _ _ Hp H') as [Hx|Hx].
    - right. left. split; [simpl; tauto | exact Hx].
    - rewrite !assoc_add_relevant_ne in Hx by discriminate.
      destruct (hit b); simpl in Hx; discriminate. }
  apply String.eqb_neq in Kj. rewrite assoc_add_relevant_ne in H' by exact Kj.
  destruct (String.eqb k "skills") eqn:Ks.
  { apply String.eqb_eq in Ks. subst k.
    destruct (Hsec _ _ _ Hs H') as [Hx|Hx].
    - right. left. split; [simpl; tauto | exact Hx].
    - destruct (hit b); simpl in Hx; discriminate. }
  apply String.eqb_neq in Ks. rewrite assoc_add_relevant_ne in H' by exact Ks.
  destruct (hit b) eqn:Hh; [|discriminate].
  destruct (String.eqb k "biography") eqn:Kb.
  - apply String.eqb_eq in Kb. subst k. simpl in H'. injection H' as <-.
    left. auto.
  - simpl in H'. rewrite Kb in H'. discriminate.
Qed.

(** An empty term is contained in every text. *)
Lemma containsTerms_empty_term text terms :
  In "" terms -> containsTerms text terms = true.
Proof.
  intros H. unfold containsTerms. apply existsb_exists. exists "".
  split; [exact H|]. destruct text; reflexivity.
Qed.

(** A query that ends in a space has an empty last term. *)
Lemma split_trailing_space q :
  exists front, front <> [] /\ split " " (q +:+ " ") = front ++ [""].
Proof.
  induction q as [|c q (front & Hne & IH)].
  - exists [""]. split; [discriminate | reflexivity].
  - rewrite append_cons. simpl. rewrite IH.
    destruct (Ascii.eqb c " ").
    + exists ("" :: front). split; [discriminate | reflexivity].
    + destruct front as [|t front]; [contradiction|].
      exists (String c t :: front). split; [discriminate | reflexivity].
Qed.

(** So a query that ends in a space matches every unit. *)
Lemma trailing_space_matches_everything q x :
  containsTerms (toLowerCase (JSON_stringify x))
                (split " " (toLowerCase (q +:+ " "))) = true.
Proof.
  apply containsTerms_empty_term.
  rewrite toLowerCase_app. change (toLowerCase " ") with " ".
  destruct (split_trailing_space (toLowerCase q)) as (front & _ & ->).
  apply in_or_app. right. now left.
Qed.

(** Scenario A: the first start on an empty store. *)
Example scenario_A :
  getSection "skills" Examples.fresh_store = JArr [] /\
  PersonalData.get (getSection "metadata" Examples.fresh_store) "version"
  = Some (JStr "1.0.0").
Proof. repeat split; vm_compute; reflexivity. Qed.

(** Scenario B: one skill named React, and a question about React. *)
Example scenario_B :
  searchRelevantData "What React experience?" Examples.react_store
  = [ ("skills", JArr [Examples.react_skill]);
      ("preferences", JObj [ ("interests", JArr []); ("goals", JArr []) ]) ].
Proof. vm_compute. reflexivity. Qed.

(** C1, on the code: a query with a trailing space (or the empty query)
    has an empty term, which is a substring of every text, so the
    biography and every skill are returned although none contains a
    token of the query. *)
Theorem search_empty_term_returns_unrelated :
  Spec.tokens "hello " = ["hello"] /\
  Spec.tokens "" = [] /\
  PersonalData.searchRelevantData "hello " Examples.react_store
  = [ ("biography", JObj [ ("name", JStr "Your Name"); ("title", JStr "Your Title");
                          ("description", JStr "Add your personal description here");
                          ("location", JStr "Your Location") ]);
      ("skills", JArr [Examples.react_skill]);
      ("preferences", JObj [ ("interests", JArr []); ("goals", JArr []) ]) ] /\
  PersonalData.searchRelevantData "" Examples.react_store
  = PersonalData.searchRelevantData "hello " Examples.react_store /\
  Spec.containment "hello "
    (PersonalData.searchRelevantData "hello " Examples.react_store) = false /\
  Spec.containment ""
    (PersonalData.searchRelevantData "" Examples.react_store) = false /\
  PersonalData.searchRelevantData "hello" Examples.react_store
  = [ ("preferences", JObj [ ("interests", JArr []); ("goals", JArr []) ]) ].
Proof. repeat split; vm_compute; reflexivity. Qed.

Lemma forallb_filter {A} (ok hit : A -> bool) xs :
  forallb ok xs = true -> forallb ok (List.filter hit xs) = true.
Proof.
  induction xs as [|x xs IH]; [reflexivity|]. simpl. intros H.
  apply andb_true_iff in H as [Hx Hxs]. destruct (hit x); simpl; [rewrite Hx|]; auto.
Qed.

(** The search keeps the shape: it filters the list sections and passes
    the preferences on. *)
Lemma search_well_shaped query w d :
  data_file w = Some d -> well_shaped d = true ->
  well_shaped (searchRelevantData query w) = true.
Proof.
  intros Hd H. unfold well_shaped in *.
  apply andb_true_iff in H as [H Hprefs].
  apply andb_true_iff in H as [H Hexp].
  apply andb_true_iff in H as [H Hproj].
  apply andb_true_iff in H as [Hbio Hskills].
  assert (Hl : forall ok k, In k ["skills"; "projects"; "experience"] ->
                 list_of ok (assoc k d) = true ->
                 list_of ok (assoc k (searchRelevantData query w)) = true).
  { intros ok k Hk Hok.
    destruct (assoc k (searchRelevantData query w)) as [v|] eqn:E; [|reflexivity].
    destruct (search_sound _ _ _ _ E) as (d' & Hd' & Hcase).
    rewrite Hd in Hd'. injection Hd' as <-.
    destruct Hcase as [(-> & _)|[(_ & all & Hall & -> & _)|(-> & _)]].
    - simpl in Hk. intuition discriminate.
    - rewrite Hall in Hok. simpl in *. now apply forallb_filter.
    - simpl in Hk. intuition discriminate. }
  rewrite !Hl by (simpl; tauto || assumption).
  assert (Hb : is_biography (assoc "biography" (searchRelevantData query w)) = true).
  { destruct (assoc "biography" (searchRelevantData query w)) as [v|] eqn:E;
      [|reflexivity].
    destruct (search_sound _ _ _ _ E) as (d' & Hd' & Hcase).
    rewrite Hd in Hd'. injection Hd' as <-.
    destruct Hcase as [(_ & Hv & _)|[(Hk & _)|(Hk & _)]].
    - now rewrite Hv in Hbio.
    - simpl in Hk. intuition discriminate.
    - discriminate. }
  rewrite Hb. simpl.
  destruct (assoc "preferences" (searchRelevantData query w)) as [v|] eqn:E;
    [|reflexivity].
  destruct (search_sound _ _ _ _ E) as (d' & Hd' & Hcase).
  rewrite Hd in Hd'. injection Hd' as <-.
  destruct Hcase as [(Hk & _)|[(Hk & _)|(_ & Hv)]].
  - discriminate.
  - simpl in Hk. intuition discriminate.
  - now rewrite Hv in Hprefs.
Qed.

(** ** Validation *)

Section Validation.
Context `{P : Platform}.

Lemma validate_array f item p xs t :
  Joi.only f = None ->
  Joi.validate (Joi.SArray f item) p (JArr xs) t
  = match Joi.validate_items item p xs 0 t with
    | Joi.VOk xs' t' => Joi.VOk (JArr xs') t'
    | Joi.VErr d t' => Joi.VErr d t'
    end.
Proof. intros H. simpl. rewrite H. reflexivity. Qed.

Lemma validate_object f ks p fs t :
  Joi.only f = None ->
  Joi.validate (Joi.SObject f ks) p (JObj fs) t
  = match Joi.validate_children fs p ks fs t with
    | Joi.VErr d t' => Joi.VErr d t'
    | Joi.VOk fs' t' =>
        match Joi.first_unknown (List.map fst ks) fs with
        | Some k => Joi.fail (p ++ [Joi.Key k]) Joi.object_unknown t'
        | None => Joi.VOk (JObj fs') t'
        end
    end.
Proof. intros H. simpl. rewrite H. reflexivity. Qed.

Lemma validate_items_cons item p x rest i t :
  Joi.validate_items item p (x :: rest) i t
  = match Joi.validate item (p ++ [Joi.Index i]) x t with
    | Joi.VErr d t' => Joi.VErr d t'
    | Joi.VOk x' t' =>
        match Joi.validate_items item p rest (S i) t' with
        | Joi.VErr d t'' => Joi.VErr d t''
        | Joi.VOk rest' t'' => Joi.VOk (x' :: rest') t''
        end
    end.
Proof. reflexivity. Qed.

Lemma validate_children_cons fs p k child rest acc t :
  Joi.validate_children fs p ((k, child) :: rest) acc t
  = match assoc k fs with
    | Some x =>
        match Joi.validate child (p ++ [Joi.Key k]) x t with
        | Joi.VErr d t' => Joi.VErr d t'
        | Joi.VOk x' t' => Joi.validate_children fs p rest (set_field k x' acc) t'
        end
    | None =>
        if Joi.is_required (Joi.flags_of child)
        then Joi.fail (p ++ [Joi.Key k]) Joi.any_required t
        else match Joi.dflt (Joi.flags_of child) with
             | Some d =>
                 let '(dv, t') := Joi.eval_default d t in
                 Joi.validate_children fs p rest (set_field k dv acc) t'
             | None => Joi.validate_children fs p rest acc t
             end
    end.
Proof. reflexivity. Qed.

(** An array with an element its item schema rejects is rejected. *)
Lemma validate_items_rejected item p xs i x :
  xs !! i = Some x ->
  (forall q t, rejected (Joi.validate item q x t)) ->
  forall i0 t, rejected (Joi.validate_items item p xs i0 t).
Proof.
  intros Hx Hbad. revert i Hx.
  induction xs as [|y rest IH]; intros i Hx i0 t; [discriminate|].
  rewrite validate_items_cons. destruct i as [|i]; simpl in Hx.
  - injection Hx as ->. destruct (Hbad (p ++ [Joi.Index i0]) t) as (d & t' & ->).
    now exists d, t'.
  - destruct (Joi.validate item (p ++ [Joi.Index i0]) y t) as [y' t'|d t'];
      [|now exists d, t'].
    destruct (IH i Hx (S i0) t') as (d & t'' & ->). now exists d, t''.
Qed.

(** An object with a property that its schema rejects is rejected. *)
Lemma validate_children_rejected fs p ks k child x :
  In (k, child) ks ->
  assoc k fs = Some x ->
  (forall q t, rejected (Joi.validate child q x t)) ->
  forall acc t, rejected (Joi.validate_children fs p ks acc t).
Proof.
  intros Hin Hx Hbad.
  induction ks as [|[k1 c1] rest IH]; intros acc t; [destruct Hin|].
  rewrite validate_children_cons. destruct Hin as [Heq|Hin].
  - injection Heq as -> ->. rewrite Hx.
    destruct (Hbad (p ++ [Joi.Key k]) t) as (d & t' & ->). now exists d, t'.
  - destruct (assoc k1 fs) as [y|].
    + destruct (Joi.validate c1 (p ++ [Joi.Key k1]) y t) as [y' t'|d t'];
        [apply (IH Hin) | now exists d, t'].
    + destruct (Joi.is_required (Joi.flags_of c1)).
      * now eexists _, _.
      * destruct (Joi.dflt (Joi.flags_of c1)) as [dv|]; [|apply (IH Hin)].
        destruct (Joi.eval_default dv t) as [v t']. apply (IH Hin).
Qed.

Lemma rejected_array f item p xs t i x :
  Joi.only f = None ->
  xs !! i = Some x ->
  (forall q t, rejected (Joi.validate item q x t)) ->
  rejected (Joi.validate (Joi.SArray f item) p (JArr xs) t).
Proof.
  intros Hf Hx Hbad. rewrite validate_array by exact Hf.
  destruct (validate_items_rejected item p xs i x Hx Hbad 0 t) as (d & t' & ->).
  now exists d, t'.
Qed.

Lemma rejected_object f ks p fs t k child x :
  Joi.only f = None ->
  In (k, child) ks ->
  assoc k fs = Some x ->
  (forall q t, rejected (Joi.validate child q x t)) ->
  rejected (Joi.validate (Joi.SObject f ks) p (JObj fs) t).
Proof.
  intros Hf Hin Hx Hbad. rewrite validate_object by exact Hf.
  destruct (validate_children_rejected fs p ks k child x Hin Hx Hbad fs t)
    as (d & t' & ->).
  now exists d, t'.
Qed.

(** A value outside the allowed set of a [valid(...)] rule is rejected. *)
Lemma rejected_only s vs v q t :
  Joi.only (Joi.flags_of s) = Some vs ->
  (forall x, v = JStr x -> Joi.mem_string x vs = false) ->
  rejected (Joi.validate s q v t).
Proof.
  intros Hs Hv.
  assert (E : Joi.validate s q v t
              = match v with
                | JStr x => if Joi.mem_string x vs then Joi.VOk v t
                            else Joi.fail q (Joi.any_only vs) t
                | _ => Joi.fail q (Joi.any_only vs) t
                end).
  { destruct s; simpl in *; rewrite Hs; reflexivity. }
  rewrite E. destruct v; try (now eexists _, _).
  rewrite (Hv s0 eq_refl). now eexists _, _.
Qed.

(** A value that is not a string is rejected where a string is asked for. *)
Lemma rejected_not_string f u v q t :
  Joi.only f = None ->
  (forall x, v <> JStr x) ->
  rejected (Joi.validate (Joi.SString f u) q v t).
Proof.
  intros Hf Hv. simpl. rewrite Hf.
  destruct v; try (now eexists _, _). now destruct (Hv s).
Qed.

(** The empty string is rejected as well. *)
Lemma rejected_empty_string f u q t :
  Joi.only f = None ->
  rejected (Joi.validate (Joi.SString f u) q (JStr "") t).
Proof. intros Hf. simpl. rewrite Hf. now eexists _, _. Qed.

(** An object without a required property is rejected. *)
Lemma validate_children_missing fs p ks k child :
  In (k, child) ks ->
  assoc k fs = None ->
  Joi.is_required (Joi.flags_of child) = true ->
  forall acc t, rejected (Joi.validate_children fs p ks acc t).
Proof.
  intros Hin Hx Hreq.
  induction ks as [|[k1 c1] rest IH]; intros acc t; [destruct Hin|].
  rewrite validate_children_cons. destruct Hin as [Heq|Hin].
  - injection Heq as -> ->. rewrite Hx, Hreq. now eexists _, _.
  - destruct (assoc k1 fs) as [y|].
    + destruct (Joi.validate c1 (p ++ [Joi.Key k1]) y t) as [y' t'|d t'];
        [apply (IH Hin) | now exists d, t'].
    + destruct (Joi.is_required (Joi.flags_of c1)).
      * now eexists _, _.
      * destruct (Joi.dflt (Joi.flags_of c1)) as [dv|]; [|apply (IH Hin)].
        destruct (Joi.eval_default dv t) as [v t']. apply (IH Hin).
Qed.

Lemma rejected_missing f ks p fs t k child :
  Joi.only f = None ->
  In (k, child) ks ->
  assoc k fs = None ->
  Joi.is_required (Joi.flags_of child) = true ->
  rejected (Joi.validate (Joi.SObject f ks) p (JObj fs) t).
Proof.
  intros Hf Hin Hx Hreq. rewrite validate_object by exact Hf.
  destruct (validate_children_missing fs p ks k child Hin Hx Hreq fs t)
    as (d & t' & ->).
  now exists d, t'.
Qed.

(** An object with a property the schema does not know is rejected. *)
Lemma first_unknown_some ks fs k :
  Joi.mem_string k ks = false -> is_Some (assoc k fs) ->
  is_Some (Joi.first_unknown ks fs).
Proof.
  intros Hk. induction fs as [|[k1 v1] rest IH]; simpl; intros [v Hv]; [discriminate|].
  destruct (Joi.mem_string k1 ks) eqn:E; [|eauto].
  destruct (String.eqb_spec k k1) as [->|_]; [congruence|]. apply IH. eauto.
Qed.

Lemma rejected_unknown f ks p fs t k :
  Joi.only f = None ->
  Joi.mem_string k (List.map fst ks) = false -> is_Some (assoc k fs) ->
  rejected (Joi.validate (Joi.SObject f ks) p (JObj fs) t).
Proof.
  intros Hf Hk Hx. rewrite validate_object by exact Hf.
  destruct (Joi.validate_children fs p ks fs t) as [fs' t'|d t']; [|now exists d, t'].
  destruct (first_unknown_some _ _ _ Hk Hx) as [k' ->]. now eexists _, _.
Qed.

(** A skill without a name, or with a name that is not a string, makes
    the schema reject the document. *)
Lemma bad_skill_name_rejected fs xs i e t :
  assoc "skills" fs = Some (JArr xs) ->
  xs !! i = Some (JObj e) ->
  (forall x, assoc "name" e <> Some (JStr x)) ->
  rejected (Joi.validate personalDataSchema [] (JObj fs) t).
Proof.
  intros Hskills Hi Hname. unfold personalDataSchema, Joi.object.
  eapply rejected_object with (k := "skills");
    [reflexivity | simpl; tauto | exact Hskills |].
  intros q t1. eapply rejected_array; [reflexivity | exact Hi |].
  intros q2 t2. destruct (assoc "name" e) as [v|] eqn:E.
  - eapply rejected_object with (k := "name");
      [reflexivity | simpl; tauto | exact E |].
    intros q3 t3. apply rejected_not_string; [reflexivity|].
    intros x ->. now apply (Hname x).
  - eapply rejected_missing with (k := "name");
      [reflexivity | simpl; tauto | exact E | reflexivity].
Qed.

(** A property the schema does not describe makes it reject the document. *)
Lemma unknown_section_rejected fs k t :
  ~ In k ["id"; "biography"; "skills"; "projects"; "preferences";
          "socialLinks"; "experience"; "education"; "metadata"] ->
  is_Some (assoc k fs) ->
  rejected (Joi.validate personalDataSchema [] (JObj fs) t).
Proof.
  intros Hk Hx. unfold personalDataSchema, Joi.object.
  eapply rejected_unknown; [reflexivity | | exact Hx].
  simpl. simpl in Hk.
  repeat match goal with
         | |- (String.eqb ?a ?b || _)%bool = false =>
             destruct (String.eqb_spec a b) as [->|_]; [exfalso; tauto|]; simpl
         end.
  reflexivity.
Qed.

(** Whatever else a document holds, one skill whose [proficiency] is not
    one of the four levels makes the schema reject it. *)
Lemma bad_proficiency_rejected fs xs i e v t :
  assoc "skills" fs = Some (JArr xs) ->
  xs !! i = Some (JObj e) ->
  assoc "proficiency" e = Some v ->
  (forall x, v = JStr x -> Joi.mem_string x proficiencies = false) ->
  rejected (Joi.validate personalDataSchema [] (JObj fs) t).
Proof.
  intros Hskills Hi Hprof Hbad. unfold personalDataSchema, Joi.object.
  eapply rejected_object with (k := "skills");
    [reflexivity | simpl; tauto | exact Hskills |].
  intros q t1. eapply rejected_array; [reflexivity | exact Hi |].
  intros q2 t2. eapply rejected_object with (k := "proficiency");
    [reflexivity | simpl; tauto | exact Hprof |].
  intros q3 t3. eapply rejected_only; [reflexivity | exact Hbad].
Qed.

(** What an accepted value looks like. *)
Lemma validate_items_ok item p xs i t xs' t' :
  Joi.validate_items item p xs i t = Joi.VOk xs' t' ->
  List.Forall (accepted item) xs'.
Proof.
  revert i t xs' t'. induction xs as [|x rest IH]; intros i t xs' t' H.
  - injection H as <- <-. constructor.
  - rewrite validate_items_cons in H.
    destruct (Joi.validate item (p ++ [Joi.Index i]) x t) as [x' t1|] eqn:E;
      [|discriminate].
    destruct (Joi.validate_items item p rest (S i) t1) as [rest' t2|] eqn:E2;
      [|discriminate].
    injection H as <- <-. constructor; [now exists x, (p ++ [Joi.Index i]), t, t1|].
    eapply IH, E2.
Qed.

Lemma accepted_array s f item v :
  s = Joi.SArray f item ->
  Joi.only f = None ->
  accepted s v ->
  exists xs, v = JArr xs /\ List.Forall (accepted item) xs.
Proof.
  intros -> Hf (x & q & t & t' & H).
  destruct x; try (simpl in H; rewrite Hf in H; discriminate).
  rewrite validate_array in H by exact Hf.
  destruct (Joi.validate_items item q items 0 t) as [xs' t1|] eqn:E; [|discriminate].
  injection H as <- <-. exists xs'. split; [reflexivity|]. eapply validate_items_ok, E.
Qed.

Lemma validate_children_lookup fs p ks :
  forall acc t out t',
    Joi.validate_children fs p ks acc t = Joi.VOk out t' ->
    forall k,
      (~ In k (List.map fst ks) -> assoc k out = assoc k acc) /\
      (forall child v,
          NoDup (List.map fst ks) -> In (k, child) ks ->
          Joi.dflt (Joi.flags_of child) = None ->
          assoc k out = Some v ->
          accepted child v \/ (assoc k fs = None /\ assoc k acc = Some v)).
Proof.
  induction ks as [|[k1 c1] rest IH]; intros acc t out t' H k.
  - injection H as <- <-. split; [reflexivity|]. intros child v _ [].
  - rewrite validate_children_cons in H.
    assert (Hstep : exists acc1 t1,
               Joi.validate_children fs p rest acc1 t1 = Joi.VOk out t' /\
               (forall k', k' <> k1 -> assoc k' acc1 = assoc k' acc) /\
               ((exists x', assoc k1 acc1 = Some x' /\ accepted c1 x') \/
                (Joi.dflt (Joi.flags_of c1) <> None) \/
                (assoc k1 fs = None /\ acc1 = acc))).
    { destruct (assoc k1 fs) as [x|] eqn:Ex.
      - destruct (Joi.validate c1 (p ++ [Joi.Key k1]) x t) as [x' t1|] eqn:E;
          [|discriminate].
        exists (set_field k1 x' acc), t1. split; [exact H|]. split.
        + intros k' Hne. now apply assoc_set_field_ne.
        + left. exists x'. split; [apply assoc_set_field_eq|].
          now exists x, (p ++ [Joi.Key k1]), t, t1.
      - destruct (Joi.is_required (Joi.flags_of c1)); [discriminate|].
        destruct (Joi.dflt (Joi.flags_of c1)) as [d|] eqn:Ed.
        + destruct (Joi.eval_default d t) as [dv t1].
          exists (set_field k1 dv acc), t1. split; [exact H|]. split.
          * intros k' Hne. now apply assoc_set_field_ne.
          * right. left. discriminate.
        + exists acc, t. split; [exact H|]. split; [reflexivity|].
          right. right. split; reflexivity. }
    destruct Hstep as (acc1 & t1 & Hrest & Hother & Hk1).
    destruct (IH _ _ _ _ Hrest k) as [IH1 IH2]. split.
    + intros Hnot. simpl in Hnot.
      rewrite IH1 by tauto. apply Hother. intros ->. tauto.
    + intros child v Hnodup Hin Hd Hv. simpl in Hnodup.
      apply NoDup_cons in Hnodup as [Hk1fresh Hnodup].
      destruct Hin as [Heq|Hin].
      * injection Heq as -> ->.
        destruct (IH _ _ _ _ Hrest k) as [IH1' _].
        rewrite IH1' in Hv by (intros Hx; apply Hk1fresh; now apply list_elem_of_In).
        destruct Hk1 as [(x' & Hx' & Hacc)|[Hdf|[Hfs ->]]].
        -- left. congruence.
        -- contradiction.
        -- right. auto.
      * assert (Hne : k <> k1).
        { intros ->. apply Hk1fresh. apply list_elem_of_In.
          apply (in_map fst) in Hin. exact Hin. }
        destruct (IH2 child v Hnodup Hin Hd Hv) as [Hacc|[Hfs Hacc1]];
          [now left|]. right. split; [exact Hfs|]. rewrite <- Hother; assumption.
Qed.

Lemma accepted_object s f ks v :
  s = Joi.SObject f ks ->
  Joi.only f = None ->
  accepted s v ->
  exists out, v = JObj out /\
    (NoDup (List.map fst ks) ->
     forall k child x',
       In (k, child) ks -> Joi.dflt (Joi.flags_of child) = None ->
       assoc k out = Some x' -> accepted child x').
Proof.
  intros -> Hf (x & q & t & t' & H).
  destruct x; try (simpl in H; rewrite Hf in H; discriminate).
  rewrite validate_object in H by exact Hf.
  destruct (Joi.validate_children fields q ks fields t) as [out t1|] eqn:E;
    [|discriminate].
  destruct (Joi.first_unknown (List.map fst ks) fields); [discriminate|].
  injection H as <- <-. exists out. split; [reflexivity|].
  intros Hnodup k child x' Hin Hd Hx'.
  destruct (validate_children_lookup _ _ _ _ _ _ _ E k) as [_ Hl].
  destruct (Hl child x' Hnodup Hin Hd Hx') as [Ha|[Hnone Hsome]]; [exact Ha|].
  congruence.
Qed.


Lemma accepted_is_obj ks x :
  accepted (Joi.object ks) x -> is_obj x.
Proof.
  intros H. eapply accepted_object in H as (out & -> & _); [|reflexivity|reflexivity].
  now exists out.
Qed.

(** What a scalar schema accepts is a string, a number or a boolean. *)
Lemma accepted_scalar s v : scalar s = true -> accepted s v -> printable v = true.
Proof.
  intros Hs (x & q & t & t' & H).
  destruct s as [f u|f|f|f|f item|f ks]; try discriminate; simpl in H;
    destruct (Joi.only f); destruct x; simpl in H;
    repeat match type of H with
           | context [if ?c then _ else _] => destruct c
           | context [match ?c with Some _ => _ | None => _ end] => destruct c
           end;
    try discriminate; injection H as <- <-; reflexivity.
Qed.

Lemma child_schema_In k ks c : child_schema k ks = Some c -> In (k, c) ks.
Proof.
  induction ks as [|[k1 c1] rest IH]; simpl; [discriminate|].
  destruct (String.eqb_spec k k1) as [->|_]; [intros [= ->]; now left|].
  intros H. right. now apply IH.
Qed.

(** The scalar properties of an accepted object can be printed. *)
Lemma accepted_prints ks ps out :
  NoDup (List.map fst ks) ->
  scalar_keys ks ps = true ->
  (NoDup (List.map fst ks) ->
   forall k child x',
     In (k, child) ks -> Joi.dflt (Joi.flags_of child) = None ->
     assoc k out = Some x' -> accepted child x') ->
  prints (JObj out) ps = true.
Proof.
  intros Hnd Hps Hout. unfold prints, scalar_keys in *.
  induction ps as [|k ps IH]; [reflexivity|].
  cbn [forallb] in *. apply andb_true_iff in Hps as [Hk Hps].
  apply andb_true_iff. split; [|exact (IH Hps)].
  cbn [PersonalData.get]. destruct (assoc k out) as [v|] eqn:E; [|reflexivity].
  destruct (child_schema k ks) as [c|] eqn:Ec; [|discriminate].
  apply andb_true_iff in Hk as [Hsc Hd].
  destruct (Joi.dflt (Joi.flags_of c)) eqn:Ed; [discriminate|].
  eapply accepted_scalar; [exact Hsc|].
  eapply Hout; [exact Hnd | apply child_schema_In; exact Ec | exact Ed | exact E].
Qed.

Lemma accepted_joinable ks k item out :
  NoDup (List.map fst ks) ->
  scalar item = true ->
  In (k, Joi.optional (Joi.array_items item)) ks ->
  (NoDup (List.map fst ks) ->
   forall k child x',
     In (k, child) ks -> Joi.dflt (Joi.flags_of child) = None ->
     assoc k out = Some x' -> accepted child x') ->
  joinable (assoc k out) = true.
Proof.
  intros Hnd Hsc Hin Hout. destruct (assoc k out) as [v|] eqn:E; [|reflexivity].
  pose proof (Hout Hnd _ _ _ Hin eq_refl E) as Ha.
  eapply accepted_array in Ha as (xs & -> & Hxs); [|reflexivity|reflexivity].
  simpl. clear E. induction Hxs as [|x xs Hx _ IH]; [reflexivity|]. simpl.
  rewrite (accepted_scalar _ _ Hsc Hx). exact IH.
Qed.

Lemma validated_shape newData t value t' :
  Joi.validate personalDataSchema [] newData t = Joi.VOk (JObj value) t' ->
  stored_shape value.
Proof.
  intros H.
  assert (Ha : accepted personalDataSchema (JObj value))
    by (now exists newData, [], t, t').
  unfold personalDataSchema in Ha.
  eapply accepted_object in Ha as (out & [= <-] & Hout); [|reflexivity|reflexivity].
  assert (Hnd : NoDup (List.map fst
    (match personalDataSchema with Joi.SObject _ ks => ks | _ => [] end)))
    by (apply (bool_decide_unpack _); vm_compute; reflexivity).
  specialize (Hout Hnd).
  assert (Hsec : forall k item (Q : json -> Prop),
             (forall x, accepted item x -> Q x) ->
             In (k, Joi.optional (Joi.array_items item))
                (match personalDataSchema with Joi.SObject _ ks => ks | _ => [] end) ->
             section_of Q k value).
  { intros k item Q HQ Hin v Hv.
    pose proof (Hout _ _ _ Hin eq_refl Hv) as Hv'.
    eapply accepted_array in Hv' as (xs & -> & Hxs); [|reflexivity|reflexivity].
    exists xs. split; [reflexivity|].
    eapply List.Forall_impl; [|exact Hxs]. exact HQ. }
  assert (Hobj : forall ks ps (ok : json -> bool),
             NoDup (List.map fst ks) ->
             (forall e, prints (JObj e) ps = true ->
                        (NoDup (List.map fst ks) ->
                         forall k child x',
                           In (k, child) ks -> Joi.dflt (Joi.flags_of child) = None ->
                           assoc k e = Some x' -> accepted child x') ->
                        ok (JObj e) = true) ->
             scalar_keys ks ps = true ->
             forall x, accepted (Joi.object ks) x -> obj_with ok x).
  { intros ks ps ok Hks Hok Hps x Hx.
    eapply accepted_object in Hx as (e & -> & He); [|reflexivity|reflexivity].
    exists e. split; [reflexivity|]. apply Hok; [|exact He].
    eapply accepted_prints; eassumption. }
  split; [|split; [|split; [|split]]].
  - unfold is_biography. destruct (assoc "biography" value) as [b|] eqn:E;
      [|reflexivity].
    eassert (Hb : accepted _ b)
      by (eapply Hout; [simpl; right; left; reflexivity | reflexivity | exact E]).
    eapply accepted_object in Hb as (e & -> & He); [|reflexivity|reflexivity].
    eapply accepted_prints; [| |exact He];
      [apply (bool_decide_unpack _); vm_compute; reflexivity | reflexivity].
  - eapply Hsec; [| simpl; tauto].
    eapply (Hobj _ ["name"; "proficiency"; "category"; "yearsOfExperience"; "description"]);
      [apply (bool_decide_unpack _); vm_compute; reflexivity | | reflexivity].
    intros e He _. exact He.
  - eapply Hsec; [| simpl; tauto].
    eapply (Hobj _ ["name"; "description"; "status"]);
      [apply (bool_decide_unpack _); vm_compute; reflexivity | | reflexivity].
    intros e He Hacc. unfold is_project. rewrite He. simpl.
    eapply (accepted_joinable _ _ Joi.string_); [| | |exact Hacc];
      [apply (bool_decide_unpack _); vm_compute; reflexivity | reflexivity
      | simpl; tauto].
  - eapply Hsec; [| simpl; tauto].
    eapply (Hobj _ ["position"; "company"; "description"]);
      [apply (bool_decide_unpack _); vm_compute; reflexivity | | reflexivity].
    intros e He _. exact He.
  - unfold is_preferences. destruct (assoc "preferences" value) as [prefs|] eqn:E;
      [|reflexivity].
    eassert (Hp : accepted _ prefs)
      by (eapply Hout; [simpl; do 4 right; left; reflexivity | reflexivity | exact E]).
    eapply accepted_object in Hp as (e & -> & He); [|reflexivity|reflexivity].
    cbn [PersonalData.get].
    apply andb_true_iff. split; [apply andb_true_iff; split|].
    + eapply (accepted_joinable _ _ Joi.string_); [| | |exact He];
        [apply (bool_decide_unpack _); vm_compute; reflexivity | reflexivity
        | simpl; tauto].
    + eapply (accepted_joinable _ _ Joi.string_); [| | |exact He];
        [apply (bool_decide_unpack _); vm_compute; reflexivity | reflexivity
        | simpl; tauto].
    + eapply accepted_prints; [| |exact He];
        [apply (bool_decide_unpack _); vm_compute; reflexivity | reflexivity].
Qed.


(** ** Violations and validation errors *)

Lemma schema_induction (Q : Joi.schema -> Prop) :
  (forall f u, Q (Joi.SString f u)) ->
  (forall f, Q (Joi.SNumber f)) ->
  (forall f, Q (Joi.SBoolean f)) ->
  (forall f, Q (Joi.SDate f)) ->
  (forall f item, Q item -> Q (Joi.SArray f item)) ->
  (forall f ks, Forall (fun kc => Q (snd kc)) ks -> Q (Joi.SObject f ks)) ->
  forall s, Q s.
Proof.
  intros Hs Hn Hb Hd Ha Ho. fix IH 1. intros [f u|f|f|f|f item|f ks].
  - apply Hs.
  - apply Hn.
  - apply Hb.
  - apply Hd.
  - apply Ha, IH.
  - apply Ho. induction ks as [|[k c] rest IHr]; constructor; [apply IH | exact IHr].
Qed.

Lemma violates_only conv q s v vs :
  Joi.only (Joi.flags_of s) = Some vs ->
  violates conv q s v
  = is_nil q && negb (match v with JStr x => Joi.mem_string x vs | _ => false end).
Proof. intros H. destruct q as [|[k|i] q']; simpl; rewrite H; reflexivity. Qed.

Lemma violates_here conv s v :
  Joi.only (Joi.flags_of s) = None ->
  violates conv [] s v = negb (of_type conv s v && within_rules s v).
Proof. intros H. simpl. rewrite H. reflexivity. Qed.

(** A value with a violation is rejected. *)
Lemma violates_rejected q :
  forall s v, violates true q s v = true ->
  forall p t, rejected (Joi.validate s p v t).
Proof.
  induction q as [|[k|i] q' IH]; intros s v H p t.
  - destruct (Joi.only (Joi.flags_of s)) as [vs|] eqn:Eo.
    + rewrite (violates_only _ _ _ _ _ Eo) in H. simpl in H.
      apply negb_true_iff in H.
      eapply rejected_only; [exact Eo|]. intros x ->. exact H.
    + rewrite violates_here in H by exact Eo. apply negb_true_iff in H.
      destruct s as [f u|f|f|f|f item|f ks]; simpl in Eo; simpl; rewrite Eo;
        destruct v; simpl in H; try discriminate; try (now eexists _, _).
      * destruct (String.eqb s ""); [now eexists _, _|]. simpl in H.
        destruct u; simpl in *; [|discriminate]. rewrite H. now eexists _, _.
      * rewrite H. now eexists _, _.
      * destruct (number_of_string s) as [n|]; [|now eexists _, _].
        simpl in H. rewrite H. now eexists _, _.
      * destruct (String.eqb (toLowerCase s) "true"); [discriminate|].
        destruct (String.eqb (toLowerCase s) "false"); [discriminate|].
        now eexists _, _.
      * destruct (date_coerce (JNum n)); [discriminate|]. now eexists _, _.
      * destruct (date_coerce (JStr s)); [discriminate|]. now eexists _, _.
  - destruct (Joi.only (Joi.flags_of s)) as [vs|] eqn:Eo.
    + rewrite (violates_only _ _ _ _ _ Eo) in H. discriminate.
    + simpl in H. rewrite Eo in H.
      destruct s as [f u|f|f|f|f item|f ks]; try discriminate.
      destruct v as [| | | | |fs]; try discriminate. simpl in Eo.
      destruct (assoc k fs) as [x|] eqn:Ex.
      * apply orb_true_iff in H as [H|H].
        -- apply existsb_exists in H as ([k1 c] & Hin & H).
           apply andb_true_iff in H as [Hk Hc]. simpl in Hk, Hc.
           apply String.eqb_eq in Hk. subst k1.
           eapply rejected_object; [exact Eo | exact Hin | exact Ex |].
           intros q0 t0. now apply IH.
        -- apply andb_true_iff in H as [_ H]. apply negb_true_iff in H.
           eapply rejected_unknown; [exact Eo | exact H | rewrite Ex; eauto].
      * apply andb_true_iff in H as [_ H].
        apply existsb_exists in H as ([k1 c] & Hin & H).
        apply andb_true_iff in H as [Hk Hc]. simpl in Hk, Hc.
        apply String.eqb_eq in Hk. subst k1.
        eapply rejected_missing; [exact Eo | exact Hin | exact Ex | exact Hc].
  - destruct (Joi.only (Joi.flags_of s)) as [vs|] eqn:Eo.
    + rewrite (violates_only _ _ _ _ _ Eo) in H. discriminate.
    + simpl in H. rewrite Eo in H.
      destruct s as [f u|f|f|f|f item|f ks]; try discriminate.
      destruct v as [| | | |xs|]; try discriminate. simpl in Eo.
      destruct (xs !! i) as [x|] eqn:Ex; [|discriminate].
      eapply rejected_array; [exact Eo | exact Ex |].
      intros q0 t0. now apply IH.
Qed.

Lemma validate_items_error item p xs :
  (forall p v t d t', Joi.validate item p v t = Joi.VErr d t' ->
     exists q, Joi.path d = p ++ q /\ violates true q item v = true) ->
  forall i0 t d t',
    Joi.validate_items item p xs i0 t = Joi.VErr d t' ->
    exists i x q, xs !! i = Some x /\ Joi.path d = p ++ Joi.Index (i0 + i) :: q /\
                  violates true q item x = true.
Proof.
  intros Hitem. induction xs as [|y rest IH]; intros i0 t d t' H; [discriminate|].
  rewrite validate_items_cons in H.
  destruct (Joi.validate item (p ++ [Joi.Index i0]) y t) as [y' t1|d1 t1] eqn:E.
  - destruct (Joi.validate_items item p rest (S i0) t1) as [r t2|d2 t2] eqn:E2;
      [discriminate|].
    injection H as <- <-. destruct (IH _ _ _ _ E2) as (i & x & q & Hx & Hp & Hv).
    exists (S i), x, q. split; [exact Hx|]. split; [|exact Hv].
    rewrite Hp. now rewrite Nat.add_succ_r.
  - injection H as <- <-. destruct (Hitem _ _ _ _ _ E) as (q & Hp & Hv).
    exists 0, y, q. split; [reflexivity|]. split; [|exact Hv].
    rewrite Hp, Nat.add_0_r, <- app_assoc. reflexivity.
Qed.

Lemma validate_children_error fs p ks :
  Forall (fun kc => forall p v t d t',
            Joi.validate (snd kc) p v t = Joi.VErr d t' ->
            exists q, Joi.path d = p ++ q /\ violates true q (snd kc) v = true) ks ->
  forall acc t d t',
    Joi.validate_children fs p ks acc t = Joi.VErr d t' ->
    exists k child, In (k, child) ks /\
      ((exists x q, assoc k fs = Some x /\ Joi.path d = p ++ Joi.Key k :: q /\
                    violates true q child x = true) \/
       (assoc k fs = None /\ Joi.is_required (Joi.flags_of child) = true /\
        Joi.path d = p ++ [Joi.Key k])).
Proof.
  intros Hks. induction Hks as [|[k1 c1] rest Hc _ IH]; intros acc t d t' H;
    [discriminate|].
  rewrite validate_children_cons in H.
  assert (Hlater : forall acc1 t1,
             Joi.validate_children fs p rest acc1 t1 = Joi.VErr d t' ->
             exists k child, In (k, child) ((k1, c1) :: rest) /\
               ((exists x q, assoc k fs = Some x /\ Joi.path d = p ++ Joi.Key k :: q /\
                             violates true q child x = true) \/
                (assoc k fs = None /\ Joi.is_required (Joi.flags_of child) = true /\
                 Joi.path d = p ++ [Joi.Key k]))).
  { intros acc1 t1 H1. destruct (IH _ _ _ _ H1) as (k & child & Hin & Hcase).
    exists k, child. split; [now right | exact Hcase]. }
  destruct (assoc k1 fs) as [x|] eqn:Ex.
  - destruct (Joi.validate c1 (p ++ [Joi.Key k1]) x t) as [x' t1|d1 t1] eqn:E.
    + eapply Hlater, H.
    + injection H as <- <-. destruct (Hc _ _ _ _ _ E) as (q & Hp & Hv).
      exists k1, c1. split; [now left|]. left. exists x, q.
      split; [exact Ex|]. split; [|exact Hv]. rewrite Hp, <- app_assoc. reflexivity.
  - destruct (Joi.is_required (Joi.flags_of c1)) eqn:Er.
    + injection H as <- <-. exists k1, c1. split; [now left|]. right. auto.
    + destruct (Joi.dflt (Joi.flags_of c1)) as [dv|].
      * destruct (Joi.eval_default dv t) as [v1 t1]. eapply Hlater, H.
      * eapply Hlater, H.
Qed.

Lemma first_unknown_inv ks fs k :
  Joi.first_unknown ks fs = Some k ->
  Joi.mem_string k ks = false /\ is_Some (assoc k fs).
Proof.
  induction fs as [|[k1 v1] rest IH]; simpl; [discriminate|].
  destruct (Joi.mem_string k1 ks) eqn:E.
  - intros H. destruct (IH H) as [Hk Hs]. split; [exact Hk|].
    destruct (String.eqb_spec k k1) as [->|_]; [congruence | exact Hs].
  - intros [= <-]. split; [exact E|]. rewrite String.eqb_refl. eauto.
Qed.

Lemma validate_only_error s p v t d t' vs :
  Joi.only (Joi.flags_of s) = Some vs ->
  Joi.validate s p v t = Joi.VErr d t' ->
  Joi.path d = p /\
  is_nil (@nil Joi.seg)
  && negb (match v with JStr x => Joi.mem_string x vs | _ => false end) = true.
Proof.
  intros Hs H.
  assert (E : Joi.validate s p v t
              = match v with
                | JStr x => if Joi.mem_string x vs then Joi.VOk v t
                            else Joi.fail p (Joi.any_only vs) t
                | _ => Joi.fail p (Joi.any_only vs) t
                end).
  { destruct s; simpl in *; rewrite Hs; reflexivity. }
  rewrite E in H. destruct v as [| | |x| |];
    try (injection H as <- <-; split; reflexivity).
  destruct (Joi.mem_string x vs) eqn:Em; [discriminate|].
  injection H as <- <-. split; reflexivity.
Qed.

(** The path of a validation error is the path of a violation. *)
Lemma validate_error_violates :
  forall s p v t d t',
    Joi.validate s p v t = Joi.VErr d t' ->
    exists q, Joi.path d = p ++ q /\ violates true q s v = true.
Proof.
  intros s. induction s as [f u|f|f|f|f item IHitem|f ks IHks] using schema_induction;
    intros p v t d t' H.
  all: match type of H with Joi.validate ?s0 _ _ _ = _ =>
         destruct (Joi.only (Joi.flags_of s0)) as [vs|] eqn:Eo end;
    [ exists []; rewrite app_nil_r, (violates_only _ _ _ _ _ Eo);
      exact (validate_only_error _ _ _ _ _ _ _ Eo H) | ].
  - exists []. rewrite app_nil_r, violates_here by exact Eo.
    simpl in Eo, H. rewrite Eo in H.
    destruct v; try (injection H as <- <-; split; reflexivity).
    simpl. destruct (String.eqb s ""); [injection H as <- <-; split; reflexivity|].
    destruct u; simpl in *; [|discriminate].
    destruct (is_uri s); [discriminate|]. injection H as <- <-. split; reflexivity.
  - exists []. rewrite app_nil_r, violates_here by exact Eo.
    simpl in Eo, H. rewrite Eo in H.
    destruct v; try (injection H as <- <-; split; reflexivity); simpl.
    + destruct (number_safe n); [discriminate|]. injection H as <- <-.
      split; reflexivity.
    + destruct (number_of_string s) as [n|]; [|injection H as <- <-; split; reflexivity].
      destruct (number_safe n); [discriminate|]. injection H as <- <-.
      split; reflexivity.
  - exists []. rewrite app_nil_r, violates_here by exact Eo.
    simpl in Eo, H. rewrite Eo in H.
    destruct v; try (injection H as <- <-; split; reflexivity); try discriminate.
    simpl. destruct (String.eqb (toLowerCase s) "true"); [discriminate|].
    destruct (String.eqb (toLowerCase s) "false"); [discriminate|].
    injection H as <- <-. split; reflexivity.
  - exists []. rewrite app_nil_r, violates_here by exact Eo.
    simpl in Eo, H. rewrite Eo in H.
    destruct v; try (injection H as <- <-; split; reflexivity); simpl.
    + destruct (date_coerce (JNum n)); [discriminate|]. injection H as <- <-.
      split; reflexivity.
    + destruct (date_coerce (JStr s)); [discriminate|]. injection H as <- <-.
      split; reflexivity.
  - simpl in Eo.
    destruct v as [| | | |xs|];
      try (exists []; rewrite app_nil_r, violates_here by exact Eo;
           simpl in H; rewrite Eo in H; injection H as <- <-; split; reflexivity).
    rewrite validate_array in H by exact Eo.
    destruct (Joi.validate_items item p xs 0 t) as [xs' t1|d1 t1] eqn:E; [discriminate|].
    injection H as <- <-.
    destruct (validate_items_error item p xs IHitem _ _ _ _ E) as (i & x & q & Hx & Hp & Hv).
    exists (Joi.Index i :: q). split; [exact Hp|]. simpl. rewrite Eo, Hx. exact Hv.
  - simpl in Eo.
    destruct v as [| | | | |fs];
      try (exists []; rewrite app_nil_r, violates_here by exact Eo;
           simpl in H; rewrite Eo in H; injection H as <- <-; split; reflexivity).
    rewrite validate_object in H by exact Eo.
    destruct (Joi.validate_children fs p ks fs t) as [fs' t1|d1 t1] eqn:E.
    + destruct (Joi.first_unknown (List.map fst ks) fs) as [k|] eqn:Eu; [|discriminate].
      injection H as <- <-. apply first_unknown_inv in Eu as [Hk [x Hx]].
      exists [Joi.Key k]. split; [reflexivity|]. simpl. rewrite Eo, Hx, Hk.
      apply orb_true_r.
    + injection H as <- <-.
      destruct (validate_children_error fs p ks IHks _ _ _ _ E)
        as (k & child & Hin & [(x & q & Hx & Hp & Hv)|(Hx & Hr & Hp)]).
      * exists (Joi.Key k :: q). split; [exact Hp|]. simpl. rewrite Eo, Hx.
        apply orb_true_iff. left. apply existsb_exists. exists (k, child).
        split; [exact Hin|]. simpl. now rewrite String.eqb_refl.
      * exists [Joi.Key k]. split; [exact Hp|]. simpl. rewrite Eo, Hx.
        apply existsb_exists. exists (k, child).
        split; [exact Hin|]. simpl. now rewrite String.eqb_refl.
Qed.

End Validation.

(** ** Whole-document writes *)

Section Write.
Context `{P : Platform}.

(** What a successful [updateData] returns and stores: the validated
    document with identifiers, and fresh metadata. *)
Lemma updateData_ok_inv newData w r w' :
  updateData newData w = (Ok r, w') ->
  exists value t value5,
    Joi.validate personalDataSchema [] newData (clock w) = Joi.VOk (JObj value) t /\
    r = JObj (set_field "metadata" (new_metadata value5 t) value5) /\
    data_file w' = Some (set_field "metadata" (new_metadata value5 t) value5).
Proof.
  unfold updateData.
  destruct (Joi.validate personalDataSchema [] newData (clock w)) as [v t|d t];
    [|discriminate].
  destruct v; try discriminate.
  match goal with |- context [match ?x with Ok _ => _ | Throw _ => _ end] =>
    destruct x as [[value5 n]|e] end; [|discriminate].
  intros [= <- <-]. exists fields, t, value5. simpl. auto.
Qed.

(** C10, amended. After every successful whole-document write the
    stored document's [metadata.version] is ["1.0.0"], whatever version
    the caller supplied: the whole-document write overwrites it. *)
Theorem updateData_version newData w r w' :
  updateData newData w = (Ok r, w') ->
  exists doc m,
    data_file w' = Some doc /\ r = JObj doc /\
    assoc "metadata" doc = Some (JObj m) /\
    assoc "version" m = Some (JStr "1.0.0").
Proof.
  intros H. destruct (updateData_ok_inv _ _ _ _ H) as (value & t & value5 & _ & -> & Hf).
  eexists _, _. split; [exact Hf|]. split; [reflexivity|].
  split.
  - rewrite assoc_set_field_eq. unfold new_metadata. reflexivity.
  - apply assoc_set_field_eq.
Qed.

(** A rejected document: the error thrown, and the file untouched. *)
Lemma updateData_rejected newData w d t :
  Joi.validate personalDataSchema [] newData (clock w) = Joi.VErr d t ->
  updateData newData w
  = (Throw (Error ("Validation error: " +:+ Joi.message d)), set_clock t w).
Proof. intros H. unfold updateData. now rewrite H. Qed.

(** The message of a validation error quotes the path of the value. *)
Lemma message_names_path d :
  includes (Joi.message d) (Joi.label (Joi.path d)) = true.
Proof. unfold Joi.message. apply includes_later, includes_here. Qed.


(** Such a document is never written. *)
Lemma bad_proficiency_not_written fs xs i e v w :
  assoc "skills" fs = Some (JArr xs) ->
  xs !! i = Some (JObj e) ->
  assoc "proficiency" e = Some v ->
  (forall x, v = JStr x -> Joi.mem_string x proficiencies = false) ->
  (exists msg, fst (updateData (JObj fs) w) = Throw (Error msg)) /\
  data_file (snd (updateData (JObj fs) w)) = data_file w.
Proof.
  intros H1 H2 H3 H4.
  destruct (bad_proficiency_rejected fs xs i e v (clock w) H1 H2 H3 H4)
    as (d & t & Hd).
  rewrite (updateData_rejected _ _ _ _ Hd). split; [eauto | reflexivity].
Qed.

Lemma with_id_obj (Q : json -> Prop) entry n entry' n' :
  (forall e id, Q (JObj e) -> Q (JObj (set_field "id" id e))) ->
  (forall x, Q x -> exists e, x = JObj e) ->
  Q entry -> with_id entry n = Ok (entry', n') -> Q entry'.
Proof.
  intros Hid Hobj HQ H. destruct (Hobj _ HQ) as [e ->]. simpl in H.
  destruct (truthy (assoc "id" e)); injection H as <- <-; now apply Hid.
Qed.

Lemma map_with_id_obj (Q : json -> Prop) entries :
  (forall e id, Q (JObj e) -> Q (JObj (set_field "id" id e))) ->
  (forall x, Q x -> exists e, x = JObj e) ->
  forall n entries' n',
    List.Forall Q entries -> map_with_id entries n = Ok (entries', n') ->
    List.Forall Q entries'.
Proof.
  intros Hid Hobj. induction entries as [|e rest IH]; intros n entries' n' HQ H.
  - injection H as <- <-. constructor.
  - simpl in H. apply bind_ok in H as ([e1 n1] & He & H).
    apply bind_ok in H as ([rest1 n2] & Hr & H). injection H as <- <-.
    inversion HQ; subst. constructor.
    + eapply with_id_obj; eauto.
    + eapply IH; eauto.
Qed.

Lemma add_ids_other k value n value' n' k' :
  add_ids k value n = Ok (value', n') -> k' <> k ->
  assoc k' value' = assoc k' value.
Proof.
  unfold add_ids. intros H Hne. destruct (truthy (assoc k value)).
  - destruct (assoc k value) as [[| | | |entries|]|]; try discriminate.
    apply bind_ok in H as ([es n1] & _ & H). injection H as <- <-.
    now apply assoc_set_field_ne.
  - now injection H as <- <-.
Qed.

Lemma add_ids_section (Q : json -> Prop) k0 k value n value' n' :
  (forall e id, Q (JObj e) -> Q (JObj (set_field "id" id e))) ->
  (forall x, Q x -> exists e, x = JObj e) ->
  add_ids k value n = Ok (value', n') ->
  section_of Q k0 value -> section_of Q k0 value'.
Proof.
  intros Hid Hobj H Hsec v Hv.
  destruct (String.eqb_spec k0 k) as [->|Hne].
  - unfold add_ids in H. destruct (truthy (assoc k value)).
    + destruct (assoc k value) as [[| | | |entries|]|] eqn:E; try discriminate.
      apply bind_ok in H as ([es n1] & Hm & H). injection H as <- <-.
      rewrite assoc_set_field_eq in Hv. injection Hv as <-.
      destruct (Hsec _ E) as (xs & [= <-] & HQ).
      exists es. split; [reflexivity|]. eapply map_with_id_obj; eauto.
    + injection H as <- <-. now apply Hsec.
  - rewrite (add_ids_other _ _ _ _ _ _ H Hne) in Hv. now apply Hsec.
Qed.

Lemma add_ids_shape k value n value' n' :
  k <> "preferences" -> k <> "biography" ->
  add_ids k value n = Ok (value', n') ->
  stored_shape value -> stored_shape value'.
Proof.
  intros Hk Hk' H (Hb & Hs & Hp & He & Hprefs).
  assert (Hid : forall (ok : json -> bool),
             (forall e id, ok (JObj e) = true ->
                           ok (JObj (set_field "id" id e)) = true) ->
             forall e id, obj_with ok (JObj e) ->
                          obj_with ok (JObj (set_field "id" id e))).
  { intros ok Hok e id (e0 & [= <-] & Hj). eexists. split; [reflexivity|].
    now apply Hok. }
  assert (Hobj : forall ok x, obj_with ok x -> exists e, x = JObj e)
    by (intros ok x (e & -> & _); eauto).
  split; [|split; [|split; [|split]]].
  - rewrite (add_ids_other _ _ _ _ _ _ H); [exact Hb | congruence].
  - eapply add_ids_section; [apply Hid|apply Hobj|exact H|exact Hs].
    intros e id. unfold is_skill, prints. cbn [forallb PersonalData.get].
    now rewrite !(assoc_set_field_ne _ "id") by discriminate.
  - eapply add_ids_section; [apply Hid|apply Hobj|exact H|exact Hp].
    intros e id. unfold is_project, prints. cbn [forallb PersonalData.get].
    now rewrite !(assoc_set_field_ne _ "id") by discriminate.
  - eapply add_ids_section; [apply Hid|apply Hobj|exact H|exact He].
    intros e id. unfold is_experience, prints. cbn [forallb PersonalData.get].
    now rewrite !(assoc_set_field_ne _ "id") by discriminate.
  - rewrite (add_ids_other _ _ _ _ _ _ H); [exact Hprefs | congruence].
Qed.

Lemma stored_shape_well_shaped d : stored_shape d -> well_shaped d = true.
Proof.
  intros (Hb & Hs & Hp & He & Hprefs). unfold well_shaped.
  assert (Hl : forall (ok : json -> bool) k,
             section_of (obj_with ok) k d -> list_of ok (assoc k d) = true).
  { intros ok k Hsec. unfold list_of.
    destruct (assoc k d) as [v|] eqn:E; [|reflexivity].
    destruct (Hsec _ E) as (xs & -> & Hxs). clear E.
    induction Hxs as [|x xs (e & -> & Hx) _ IH]; [reflexivity|]. simpl.
    rewrite Hx. exact IH. }
  rewrite Hb, (Hl _ _ Hs), (Hl _ _ Hp), (Hl _ _ He), Hprefs. reflexivity.
Qed.

(** A profile that [updateData] has stored has the shape the template
    needs. *)
Lemma updateData_well_shaped newData w r w' :
  updateData newData w = (Ok r, w') ->
  exists d, data_file w' = Some d /\ well_shaped d = true.
Proof.
  unfold updateData.
  destruct (Joi.validate personalDataSchema [] newData (clock w)) as [v t|d t] eqn:Ev;
    [|discriminate].
  destruct v as [| | | | |value]; try discriminate.
  pose proof (validated_shape _ _ _ _ Ev) as Hshape.
  match goal with |- context [match ?x with Ok _ => _ | Throw _ => _ end] =>
    destruct x as [[value5 n]|e] eqn:Eids end; [|discriminate].
  intros [= <- <-]. eexists. split; [reflexivity|].
  apply bind_ok in Eids as ([v1 n1] & E1 & Eids).
  apply bind_ok in Eids as ([v2 n2] & E2 & Eids).
  apply bind_ok in Eids as ([v3 n3] & E3 & Eids).
  apply bind_ok in Eids as ([v4 n4] & E4 & E5).
  simpl in E2, E3, E4, E5.
  apply add_ids_shape in E1; [|discriminate|discriminate|exact Hshape].
  apply add_ids_shape in E2; [|discriminate|discriminate|exact E1].
  apply add_ids_shape in E3; [|discriminate|discriminate|exact E2].
  apply add_ids_shape in E4; [|discriminate|discriminate|exact E3].
  apply add_ids_shape in E5; [|discriminate|discriminate|exact E4].
  apply stored_shape_well_shaped.
  destruct E5 as (Hb & Hs & Hp & He & Hprefs).
  unfold stored_shape, section_of.
  rewrite !(assoc_set_field_ne _ "metadata") by discriminate.
  repeat split; assumption.
Qed.

End Write.

(** A caller supplies version ["9.9.9"]; the stored version is ["1.0.0"]. *)
Lemma updateData_version_witness :
  let supplied := JObj [ ("metadata", JObj [ ("version", JStr "9.9.9") ]) ] in
  exists r w',
    PersonalData.updateData (P := Examples.test_platform)
      supplied Examples.fresh_store = (Ok r, w') /\
    exists doc m,
      PersonalData.data_file w' = Some doc /\ r = JObj doc /\
      assoc "metadata" doc = Some (JObj m) /\
      assoc "version" m = Some (JStr "1.0.0").
Proof.
  intros supplied. eexists _, _. split.
  - vm_compute. reflexivity.
  - apply (updateData_version (P := Examples.test_platform)
             supplied Examples.fresh_store).
    vm_compute. reflexivity.
Defined.



(** C10 as stated fails: a section write to [metadata] changes the
    stored version. *)
Lemma version_changed_by_section_write :
  let out := updateSection (P := Examples.test_platform) "metadata"
               (JObj [ ("version", JStr "9.9.9") ]) Examples.fresh_store in
  stored_version Examples.fresh_store = Some (JStr "1.0.0") /\
  (exists r, fst out = Ok r) /\
  stored_version (snd out) = Some (JStr "9.9.9").
Proof.
  intros out. split; [vm_compute; reflexivity|].
  split; [eexists; vm_compute; reflexivity|]. vm_compute; reflexivity.
Qed.

(** The message of scenario E, spelled out. *)
Example scenario_E_message :
  fst (PersonalData.updateData (P := Examples.test_platform)
         Examples.bogus_doc Examples.fresh_store)
  = Throw (Error ("Validation error: " +:+ dq +:+ "skills[0].proficiency" +:+ dq
                  +:+ " must be one of [beginner, intermediate, advanced, expert]")).
Proof. vm_compute. reflexivity. Qed.

(** ** Section writes *)

Section SectionWrite.
Context `{P : Platform}.

(** [updateSection] stores whatever it is given under the name it is
    given, stamps [metadata.updatedAt], and leaves the other sections
    as they are; the schema is not consulted. *)
Lemma updateSection_stores sectionName sectionData w d m :
  data_file w = Some d ->
  assoc "metadata" d = Some (JObj m) ->
  sectionName <> "metadata" ->
  let stored :=
    set_field "metadata" (JObj (set_field "updatedAt" (JStr (Date_toJSON (clock w))) m))
              (set_field sectionName sectionData d) in
  updateSection sectionName sectionData w
  = (Ok sectionData, set_clock (S (clock w)) (set_file stored w)) /\
  assoc sectionName stored = Some sectionData /\
  (forall k, k <> sectionName -> k <> "metadata" -> assoc k stored = assoc k d).
Proof.
  intros Hd Hm Hne stored. unfold updateSection. rewrite Hd.
  assert (Hm' : assoc "metadata" (set_field sectionName sectionData d) = Some (JObj m))
    by (rewrite assoc_set_field_ne; [exact Hm | congruence]).
  rewrite Hm'. fold stored.
  assert (Hs : assoc sectionName stored = Some sectionData).
  { unfold stored. rewrite assoc_set_field_ne by exact Hne. apply assoc_set_field_eq. }
  rewrite Hs. repeat split.
  intros k Hk1 Hk2. unfold stored. now rewrite !assoc_set_field_ne.
Qed.

End SectionWrite.

(** C4, on the code: [updateSection] stores a skill whose proficiency is
    ["bogus"], a value the schema rejects and [updateData] refuses. *)
Theorem updateSection_stores_invalid :
  let w := Examples.fresh_store in
  let section := JArr [Examples.bogus_skill] in
  fst (PersonalData.updateSection (P := Examples.test_platform) "skills" section w)
  = Ok section /\
  (exists d, PersonalData.data_file
               (snd (PersonalData.updateSection (P := Examples.test_platform)
                       "skills" section w)) = Some d /\
             assoc "skills" d = Some section) /\
  rejected (Joi.validate (P := Examples.test_platform)
              PersonalData.personalDataSchema []
              (JObj [ ("skills", section) ]) (PersonalData.clock w)) /\
  (exists msg, fst (PersonalData.updateData (P := Examples.test_platform)
                      (JObj [ ("skills", section) ]) w) = Throw (Error msg)).
Proof.
  intros w section. split; [vm_compute; reflexivity|].
  split; [eexists; split; vm_compute; reflexivity|].
  split; [eexists _, _; vm_compute; reflexivity|].
  eexists; vm_compute; reflexivity.
Qed.

(** ** Saving what was read *)

Section Resave.
Context `{P : Platform}.

(** An entry that has an [id] keeps it, and no identifier is drawn. *)
Lemma with_id_present entry n :
  has_id entry = true -> with_id entry n = Ok (entry, n).
Proof.
  destruct entry as [| | | | |e]; try discriminate. simpl. intros H.
  rewrite H. destruct (assoc "id" e) as [v|] eqn:E; [|discriminate].
  simpl. now rewrite set_field_same.
Qed.

Lemma map_with_id_present entries n :
  forallb has_id entries = true -> map_with_id entries n = Ok (entries, n).
Proof.
  induction entries as [|e rest IH]; [reflexivity|].
  simpl. intros H. apply andb_true_iff in H as [He Hr].
  rewrite with_id_present by exact He. simpl. rewrite IH by exact Hr. reflexivity.
Qed.

Lemma add_ids_present k doc n :
  ids_present doc k = true -> add_ids k doc n = Ok (doc, n).
Proof.
  unfold ids_present, add_ids.
  destruct (assoc k doc) as [[| | | |entries|]|] eqn:E; try discriminate.
  - intros H. simpl. rewrite map_with_id_present by exact H. simpl.
    now rewrite set_field_same.
  - reflexivity.
Qed.

(** C7, amended. For a stored profile in the form validation leaves it
    in (validation returns it unchanged: no default to fill in, no value
    to convert), whose list entries all have an [id] and whose
    [metadata.version] is ["1.0.0"], saving what [read()] returns
    succeeds and the stored document is identical in every field except
    [metadata.updatedAt]; no identifier is drawn. *)
Theorem resave_canonical w doc m t :
  data_file w = Some doc ->
  Joi.validate personalDataSchema [] (JObj doc) (clock w) = Joi.VOk (JObj doc) t ->
  forallb (ids_present doc) list_sections = true ->
  assoc "metadata" doc = Some (JObj m) ->
  assoc "version" m = Some (JStr "1.0.0") ->
  let stored :=
    set_field "metadata" (JObj (set_field "updatedAt" (JStr (Date_toJSON t)) m)) doc in
  updateData (getAllData w) w
  = (Ok (JObj stored),
     {| data_file := Some stored; clock := S t; uuid_count := uuid_count w |}) /\
  without_updatedAt stored = without_updatedAt doc /\
  resave_changes_updatedAt_only w.
Proof.
  intros Hf Hv Hids Hm Hver stored.
  assert (Hup : updateData (getAllData w) w
                = (Ok (JObj stored),
                   {| data_file := Some stored; clock := S t;
                      uuid_count := uuid_count w |})).
  { unfold updateData, getAllData. rewrite Hf, Hv.
    simpl in Hids. repeat (apply andb_true_iff in Hids as [? Hids]).
    repeat (rewrite add_ids_present by assumption; simpl).
    unfold new_metadata. rewrite Hm. simpl.
    assert (Hver' : assoc "version" (set_field "updatedAt" (JStr (Date_toJSON t)) m)
                    = Some (JStr "1.0.0"))
      by (rewrite assoc_set_field_ne; [exact Hver | discriminate]).
    rewrite (set_field_same _ _ _ Hver'). reflexivity. }
  assert (Hsame : without_updatedAt stored = without_updatedAt doc).
  { unfold without_updatedAt, stored. rewrite assoc_set_field_eq, Hm.
    now rewrite set_field_twice, remove_set_field. }
  split; [exact Hup|]. split; [exact Hsame|].
  intros r w'. rewrite Hup. intros [= <- <-].
  exists doc, stored. auto.
Qed.

End Resave.

(** The profile of [saved_store] is in that form. *)
Lemma resave_canonical_witness :
  exists doc m t,
    (PersonalData.data_file Examples.saved_store = Some doc /\
     Joi.validate (P := Examples.test_platform) PersonalData.personalDataSchema []
       (JObj doc) (PersonalData.clock Examples.saved_store) = Joi.VOk (JObj doc) t /\
     forallb (ids_present doc) list_sections = true /\
     assoc "metadata" doc = Some (JObj m) /\
     assoc "version" m = Some (JStr "1.0.0")) /\
    let stored :=
      set_field "metadata"
        (JObj (set_field "updatedAt"
                 (JStr (Date_toJSON (Platform := Examples.test_platform) t)) m)) doc in
    PersonalData.updateData (P := Examples.test_platform)
      (PersonalData.getAllData Examples.saved_store) Examples.saved_store
    = (Ok (JObj stored),
       {| PersonalData.data_file := Some stored; PersonalData.clock := S t;
          PersonalData.uuid_count := PersonalData.uuid_count Examples.saved_store |}) /\
    without_updatedAt stored = without_updatedAt doc /\
    resave_changes_updatedAt_only (P := Examples.test_platform) Examples.saved_store.
Proof.
  eexists _, _, _.
  match goal with |- ?Hyps /\ _ => assert (Hh : Hyps) end.
  { split; [vm_compute; reflexivity|].
    split; [vm_compute; reflexivity|].
    split; [vm_compute; reflexivity|].
    split; vm_compute; reflexivity. }
  split; [exact Hh|].
  destruct Hh as (H1 & H2 & H3 & H4 & H5).
  exact (resave_canonical (P := Examples.test_platform) _ _ _ _ H1 H2 H3 H4 H5).
Defined.

(** C7 as stated fails: after the write of an empty document the stored
    metadata has no [createdAt]; saving what [read()] returns gives it
    one. *)
Lemma resave_adds_createdAt :
  ~ resave_changes_updatedAt_only (P := Examples.test_platform) Examples.emptied_store.
Proof.
  intros H.
  destruct (H _ _ eq_refl) as (before & after & Hb & Ha & Hsame).
  vm_compute in Hb, Ha.
  injection Hb as <-. injection Ha as <-. vm_compute in Hsame. discriminate.
Qed.

(** The same for a profile whose skill was stored by [updateSection]:
    the re-save gives the skill an [id]. *)
Example resave_assigns_id :
  PersonalData.getSection "skills" Examples.react_store = JArr [Examples.react_skill] /\
  PersonalData.getSection "skills" Examples.saved_store
  = JArr [ JObj [ ("name", JStr "React"); ("category", JStr "programming");
                  ("proficiency", JStr "advanced"); ("yearsOfExperience", JNum "3");
                  ("id", JStr "uuid-0") ] ].
Proof. split; vm_compute; reflexivity. Qed.

(** ** The context window *)

Lemma deref_set_arrays r xs sv :
  deref (set_arrays (<[r:=xs]> (arrays sv)) sv) r = xs.
Proof. unfold deref. simpl. now rewrite lookup_insert_eq. Qed.

(** One call of [updateChatContext]: the two turns go to the end of the
    session's window, user first, and the window keeps its ten most
    recent turns. *)
Lemma get_context_update sid u a sv :
  get_context sid (updateChatContext sid u a sv)
  = most_recent 10 (get_context sid sv ++ exchange u a).
Proof.
  unfold updateChatContext.
  destruct (chatContexts sv !! sid) as [r|] eqn:E.
  - rewrite E. cbv zeta. fold (exchange u a).
    rewrite deref_set_arrays.
    unfold get_context at 2. rewrite E.
    destruct (Nat.ltb_spec 10 (List.length (deref sv r ++ exchange u a))) as [H|H].
    + unfold alloc, get_context, set_contexts, deref. simpl.
      rewrite !lookup_insert_eq. simpl.
      change (-10)%Z with (- Z.of_nat 10)%Z. rewrite slice_last by lia.
      reflexivity.
    + unfold get_context. simpl. rewrite E. rewrite deref_set_arrays.
      now rewrite most_recent_short.
  - unfold get_context at 2. rewrite E.
    unfold alloc, set_contexts, set_arrays, get_context, deref. simpl.
    repeat (rewrite lookup_insert_eq; simpl).
    reflexivity.
Qed.

(** What one call does to the session map and to the arrays. *)
Lemma update_shape sid u a sv :
  let sv' := updateChatContext sid u a sv in
  ((chatContexts sv' = chatContexts sv /\ next_ref sv' = next_ref sv /\
    is_Some (chatContexts sv !! sid)) \/
   (chatContexts sv' = <[sid := next_ref sv]> (chatContexts sv) /\
    next_ref sv' = S (next_ref sv))) /\
  (forall r, r < next_ref sv -> chatContexts sv !! sid <> Some r ->
             arrays sv' !! r = arrays sv !! r).
Proof.
  unfold updateChatContext.
  destruct (chatContexts sv !! sid) as [r0|] eqn:E.
  - rewrite E. cbv zeta. rewrite deref_set_arrays.
    destruct (Nat.ltb_spec 10 (List.length (deref sv r0 ++
        [{| role := "user"; content := u |}; {| role := "assistant"; content := a |}])))
      as [H|H].
    + unfold alloc, set_contexts, set_arrays. simpl. split.
      * right. auto.
      * intros r Hr Hne. rewrite !lookup_insert_ne; [reflexivity| congruence | lia].
    + unfold set_arrays. simpl. split.
      * left. eauto.
      * intros r Hr Hne. rewrite lookup_insert_ne; [reflexivity | congruence].
  - unfold alloc, set_contexts, set_arrays, deref. simpl.
    repeat (rewrite lookup_insert_eq; simpl). split.
    + right. auto.
    + intros r Hr _. rewrite !lookup_insert_ne by lia. reflexivity.
Qed.

Lemma update_well_formed sid u a sv :
  well_formed sv -> well_formed (updateChatContext sid u a sv).
Proof.
  intros [Hlt Hinj].
  destruct (update_shape sid u a sv) as [[(Hm & Hn & _)|(Hm & Hn)] _];
    unfold well_formed; rewrite Hm, Hn.
  - split; assumption.
  - split.
    + intros s r. rewrite lookup_insert. case_decide.
      * intros [= <-]. lia.
      * intros H'. specialize (Hlt _ _ H'). lia.
    + intros s1 s2 r. rewrite !lookup_insert. repeat case_decide; subst.
      * reflexivity.
      * intros [= <-] H'. specialize (Hlt _ _ H'). lia.
      * intros H' [= <-]. specialize (Hlt _ _ H'). lia.
      * apply Hinj.
Qed.

(** A call for another session leaves the window alone. *)
Lemma get_context_update_other sid sid' u a sv :
  well_formed sv -> sid' <> sid ->
  get_context sid (updateChatContext sid' u a sv) = get_context sid sv.
Proof.
  intros [Hlt Hinj] Hne.
  destruct (update_shape sid' u a sv) as [Hmap Harr].
  cbv zeta in Hmap, Harr. unfold get_context.
  assert (Hl : chatContexts (updateChatContext sid' u a sv) !! sid
               = chatContexts sv !! sid).
  { destruct Hmap as [(Hm & _)|(Hm & _)]; rewrite Hm; [reflexivity|].
    now rewrite lookup_insert_ne. }
  rewrite Hl. destruct (chatContexts sv !! sid) as [r|] eqn:E; [|reflexivity].
  unfold deref. rewrite Harr; [reflexivity | eauto |].
  intros E'. apply Hne. eapply Hinj; eassumption.
Qed.

Lemma run_appends_well_formed calls sv :
  well_formed sv -> well_formed (run_appends calls sv).
Proof.
  revert sv. induction calls as [|c calls IH]; intros sv H; [exact H|].
  simpl. apply IH, update_well_formed, H.
Qed.

(** The window of a session after any sequence of calls, whichever
    sessions they go to. *)
Lemma get_context_run sid calls sv :
  well_formed sv ->
  get_context sid (run_appends calls sv)
  = match turns_of sid calls with
    | [] => get_context sid sv
    | _ => most_recent 10 (get_context sid sv ++ turns_of sid calls)
    end.
Proof.
  revert sv. induction calls as [|c calls IH]; intros sv Hwf; [reflexivity|].
  change (run_appends (c :: calls) sv)
    with (run_appends calls
            (updateChatContext (to_session c) (user_text c) (reply_text c) sv)).
  rewrite IH by now apply update_well_formed.
  unfold turns_of at 3 4. simpl. fold (turns_of sid calls).
  destruct (String.eqb_spec (to_session c) sid) as [->|Hne].
  - rewrite get_context_update.
    destruct (turns_of sid calls) as [|x xs] eqn:E.
    + simpl. reflexivity.
    + rewrite most_recent_app, <- app_assoc. reflexivity.
  - rewrite get_context_update_other by assumption. reflexivity.
Qed.

Lemma turns_of_length sid calls :
  List.length (turns_of sid calls)
  = 2 * List.length (List.filter (fun c => String.eqb (to_session c) sid) calls).
Proof.
  induction calls as [|c calls IH]; [reflexivity|].
  unfold turns_of in *. simpl.
  destruct (String.eqb (to_session c) sid); simpl; rewrite ?IH; lia.
Qed.

(** C6. A call of [updateChatContext] appends the user turn and then the
    assistant turn and keeps the ten most recent turns; after six or
    more calls for one session, in between calls for any other sessions,
    the session's window is exactly the ten most recent of its turns, in
    their order. *)
Theorem context_window_cap sid sv :
  (forall u a,
     get_context sid (updateChatContext sid u a sv)
     = most_recent 10 (get_context sid sv ++ exchange u a)) /\
  (forall calls,
     well_formed sv ->
     6 <= List.length (List.filter (fun c => String.eqb (to_session c) sid) calls) ->
     get_context sid (run_appends calls sv) = most_recent 10 (turns_of sid calls) /\
     List.length (get_context sid (run_appends calls sv)) = 10).
Proof.
  split; [intros; apply get_context_update|].
  intros calls Hwf Hn.
  pose proof (turns_of_length sid calls) as Hl.
  rewrite get_context_run by exact Hwf.
  destruct (turns_of sid calls) as [|x xs] eqn:E; [simpl in Hl; lia|].
  rewrite most_recent_app_long by lia.
  split; [reflexivity|]. rewrite most_recent_length. lia.
Qed.

Lemma well_formed_empty sv :
  chatContexts sv = ∅ -> well_formed sv.
Proof.
  intros E. split; [intros s r | intros s1 s2 r];
    rewrite E, lookup_empty; discriminate.
Qed.

(** The states the router reaches are well formed. *)
Lemma alloc_well_formed xs sv :
  well_formed sv -> well_formed (snd (alloc xs sv)).
Proof.
  intros [Hlt Hinj]. split; simpl.
  - intros s r H. specialize (Hlt _ _ H). lia.
  - exact Hinj.
Qed.

Lemma clear_context_well_formed sid sv :
  well_formed sv -> well_formed (clear_context sid sv).
Proof.
  intros [Hlt Hinj]. split; simpl.
  - intros s r H. apply lookup_delete_Some in H as [_ H]. eauto.
  - intros s1 s2 r H1 H2.
    apply lookup_delete_Some in H1 as [_ H1].
    apply lookup_delete_Some in H2 as [_ H2]. eauto.
Qed.

(** Clearing empties the window, also that of an unknown session. *)
Lemma get_context_clear sid sv : get_context sid (clear_context sid sv) = [].
Proof. unfold get_context, clear_context. simpl. now rewrite lookup_delete_eq. Qed.

(** Seven calls for ["s1"] and one for ["s2"] on a server without
    sessions: the window of ["s1"] holds the exchanges 3 to 7. *)
Lemma context_window_cap_witness :
  well_formed Examples.live_server /\
  6 <= List.length
         (List.filter (fun c => String.eqb (to_session c) "s1") Examples.seven_calls) /\
  get_context "s1" (run_appends Examples.seven_calls Examples.live_server)
  = most_recent 10 (turns_of "s1" Examples.seven_calls) /\
  List.length (get_context "s1" (run_appends Examples.seven_calls Examples.live_server))
  = 10.
Proof.
  assert (Hwf : well_formed Examples.live_server)
    by (apply well_formed_empty; reflexivity).
  assert (Hn : 6 <= List.length
                      (List.filter (fun c => String.eqb (to_session c) "s1")
                                   Examples.seven_calls))
    by (vm_compute; lia).
  split; [exact Hwf|]. split; [exact Hn|].
  exact (proj2 (context_window_cap "s1" Examples.live_server)
               Examples.seven_calls Hwf Hn).
Defined.

Example context_window_cap_values :
  get_context "s1" (run_appends Examples.seven_calls Examples.live_server)
  = exchange "q3" "a3" ++ exchange "q4" "a4" ++ exchange "q5" "a5"
    ++ exchange "q6" "a6" ++ exchange "q7" "a7".
Proof. vm_compute. reflexivity. Qed.

(** ** The prompt composer *)

Section Prompt.
Context `{P : Platform}.

Lemma forEach_ok {A} (f : A -> result string) (xs : list A) (prompt : string) :
  Forall (fun x => exists s, f x = Ok s) xs ->
  forEach f xs prompt = Ok (prompt +:+ concat_lines (List.map (line_of f) xs)).
Proof.
  intros H. revert prompt. induction H as [|x xs [s Hs] _ IH]; intros prompt.
  - simpl. now rewrite append_nil_r.
  - simpl. rewrite Hs. simpl. rewrite IH. unfold line_of at 2. rewrite Hs.
    now rewrite append_assoc.
Qed.

(** The array case of [ToString], by the loop of [join]. *)
Lemma ToString_array items :
  ToString (JArr items) = Array_join "," items.
Proof. reflexivity. Qed.

(** What can be printed is converted to a string. *)
Lemma printable_ToString :
  forall j, printable j = true -> exists s, ToString j = Ok s.
Proof.
  fix IH 1. intros [|b|n|x|items|fields] H.
  - eexists; reflexivity.
  - destruct b; eexists; reflexivity.
  - eexists; reflexivity.
  - eexists; reflexivity.
  - rewrite ToString_array. unfold Array_join.
    assert (Hparts : exists ps, join_parts items = Ok ps).
    { simpl in H. induction items as [|y rest IHr]; [eexists; reflexivity|].
      simpl in H. apply andb_true_iff in H as [Hy Hrest].
      destruct (IHr Hrest) as [ps Hps]. destruct (IH y Hy) as [sy Hsy].
      cbn [join_parts]. rewrite Hps.
      destruct y; try rewrite Hsy; eexists; reflexivity. }
    destruct Hparts as [ps ->]. eexists; reflexivity.
  - simpl in *. destruct (assoc "toString" fields); [discriminate|].
    eexists; reflexivity.
Qed.

Lemma join_parts_ok items :
  forallb printable items = true -> exists ps, join_parts items = Ok ps.
Proof.
  intros H. destruct (printable_ToString (JArr items) H) as [s Hs].
  rewrite ToString_array in Hs. unfold Array_join in Hs.
  destruct (join_parts items) as [ps|]; [eauto | discriminate].
Qed.

Lemma prints_In x ks k : prints x ks = true -> In k ks -> prints x [k] = true.
Proof.
  unfold prints. intros H Hin. rewrite forallb_forall in H.
  cbn [forallb]. rewrite (H k Hin). reflexivity.
Qed.

Lemma interpolate_ok x k :
  prints x [k] = true -> exists s, interpolate (PersonalData.get x k) = Ok s.
Proof.
  unfold prints. cbn [forallb]. rewrite andb_true_r.
  destruct (PersonalData.get x k) as [v|]; [|eexists; reflexivity].
  apply printable_ToString.
Qed.

Lemma prop_ok x k : x <> JNull -> prop x k = Ok (PersonalData.get x k).
Proof. destruct x; [contradiction|reflexivity..]. Qed.

Lemma shown_ok x k :
  x <> JNull -> prints x [k] = true -> exists s, shown x k = Ok s.
Proof.
  intros Hx H. unfold shown. rewrite prop_ok by exact Hx. cbn [bind].
  now apply interpolate_ok.
Qed.

Lemma shown_if_ok x k before after :
  x <> JNull -> prints x [k] = true -> exists s, shown_if x k before after = Ok s.
Proof.
  intros Hx H. unfold shown_if. rewrite prop_ok by exact Hx. cbn [bind].
  destruct (truthy (PersonalData.get x k)); [|eexists; reflexivity].
  destruct (interpolate_ok x k H) as [s ->]. eexists; reflexivity.
Qed.

Lemma truthy_not_null x : truthy (Some x) = true -> x <> JNull.
Proof. intros H ->. discriminate. Qed.

Ltac shown_step Hx Hp :=
  match goal with
  | |- context [shown ?x ?k] =>
      let s := fresh "s" in let E := fresh "E" in
      destruct (shown_ok x k Hx) as [s E];
      [apply (prints_In _ _ _ Hp); simpl; tauto|]; rewrite E; cbn [bind]
  | |- context [shown_if ?x ?k ?a ?b] =>
      let s := fresh "s" in let E := fresh "E" in
      destruct (shown_if_ok x k a b Hx) as [s E];
      [apply (prints_In _ _ _ Hp); simpl; tauto|]; rewrite E; cbn [bind]
  end.

Lemma render_skill_ok x : is_skill x = true -> exists s, render_skill x = Ok s.
Proof.
  intros H.
  assert (Hx : x <> JNull) by (intros ->; discriminate).
  assert (Hp : prints x ["name"; "proficiency"; "category"; "yearsOfExperience";
                         "description"] = true)
    by (destruct x; try discriminate; exact H).
  unfold render_skill. repeat shown_step Hx Hp. eexists; reflexivity.
Qed.

Lemma render_experience_ok x :
  is_experience x = true -> exists s, render_experience x = Ok s.
Proof.
  intros H.
  assert (Hx : x <> JNull) by (intros ->; discriminate).
  assert (Hp : prints x ["position"; "company"; "description"] = true)
    by (destruct x; try discriminate; exact H).
  unfold render_experience. repeat shown_step Hx Hp.
  rewrite prop_ok by exact Hx. cbn [bind]. repeat shown_step Hx Hp.
  eexists; reflexivity.
Qed.

Lemma join_list_ok name v :
  truthy v = true -> joinable v = true ->
  exists s, join_list name (default JNull v) = Ok s.
Proof.
  destruct v as [[| | | |xs|]|]; try discriminate. intros _ H. simpl in H.
  change (join_list name (default JNull (Some (JArr xs)))) with (Array_join ", " xs).
  unfold Array_join.
  destruct (join_parts_ok xs H) as [ps ->]. eexists; reflexivity.
Qed.

Lemma render_project_ok x : is_project x = true -> exists s, render_project x = Ok s.
Proof.
  intros H.
  assert (Hx : x <> JNull) by (intros ->; discriminate).
  assert (Hp : prints x ["name"; "description"; "status"] = true
               /\ joinable (PersonalData.get x "technologies") = true)
    by (destruct x; try discriminate; apply andb_true_iff in H; exact H).
  destruct Hp as [Hp Hj].
  unfold render_project. repeat shown_step Hx Hp.
  rewrite prop_ok by exact Hx. cbn [bind].
  destruct (truthy (PersonalData.get x "technologies")) eqn:Et.
  - destruct (join_list_ok "project.technologies" _ Et Hj) as [j ->]. cbn [bind].
    repeat shown_step Hx Hp. eexists; reflexivity.
  - cbn [bind]. repeat shown_step Hx Hp. eexists; reflexivity.
Qed.

Lemma Forall_ok {A} (ok : A -> bool) (f : A -> result string) xs :
  (forall x, ok x = true -> exists s, f x = Ok s) ->
  forallb ok xs = true -> Forall (fun x => exists s, f x = Ok s) xs.
Proof.
  intros Hok. induction xs as [|x xs IH]; simpl; intros H; constructor.
  - apply Hok. now apply andb_true_iff in H as [H _].
  - apply IH. now apply andb_true_iff in H as [_ H].
Qed.

Lemma list_block_all ctx k header (ok : json -> bool) render prompt :
  (forall x, ok x = true -> exists s, render x = Ok s) ->
  list_of ok (assoc k ctx) = true ->
  list_block ctx k header None render prompt
  = Ok (prompt +:+ block header (List.map (line_of render) (entries ctx k))).
Proof.
  intros Hok H. unfold list_block, entries, list_of in *.
  destruct (assoc k ctx) as [[| | | |xs|]|]; try discriminate.
  - simpl. now rewrite append_nil_r.
  - destruct xs as [|x xs].
    + simpl. now rewrite append_nil_r.
    + assert (HF := Forall_ok ok render _ Hok H).
      change (truthy (Some (JArr (x :: xs)))) with true.
      change (length_gt0 (JArr (x :: xs))) with (@Ok bool true).
      cbv iota. cbn [bind]. cbv iota.
      rewrite forEach_ok by exact HF. simpl. now rewrite append_assoc.
  - simpl. now rewrite append_nil_r.
Qed.

Lemma list_block_capped ctx k header cap (ok : json -> bool) render prompt :
  0 < cap ->
  (forall x, ok x = true -> exists s, render x = Ok s) ->
  list_of ok (assoc k ctx) = true ->
  list_block ctx k header (Some (Z.of_nat cap)) render prompt
  = Ok (prompt +:+ block header (List.map (line_of render) (firstn cap (entries ctx k)))).
Proof.
  intros Hcap Hok H. unfold list_block, entries, list_of in *.
  destruct (assoc k ctx) as [[| | | |xs|]|]; try discriminate.
  - rewrite firstn_nil. simpl. now rewrite append_nil_r.
  - destruct xs as [|x xs].
    + simpl. rewrite firstn_nil. simpl. now rewrite append_nil_r.
    + assert (HF := Forall_ok ok render _ Hok H).
      change (truthy (Some (JArr (x :: xs)))) with true.
      change (length_gt0 (JArr (x :: xs))) with (@Ok bool true).
      cbv iota. cbn [bind]. cbv iota. rewrite slice_first.
      rewrite forEach_ok by (apply Forall_take; exact HF).
      destruct cap as [|cap]; [lia|]. simpl. now rewrite append_assoc.
  - rewrite firstn_nil. simpl. now rewrite append_nil_r.
Qed.

Lemma biography_block_ok ctx prompt :
  is_biography (assoc "biography" ctx) = true ->
  biography_block ctx prompt
  = Ok (prompt +:+ text_of (biography_block ctx "")).
Proof.
  unfold is_biography, biography_block.
  destruct (assoc "biography" ctx) as [b|].
  - intros Hp. destruct (truthy (Some b)) eqn:Hb;
      [|cbn [text_of]; now rewrite append_nil_r].
    apply truthy_not_null in Hb.
    repeat shown_step Hb Hp. reflexivity.
  - intros _. cbn [text_of]. now rewrite append_nil_r.
Qed.

Lemma joined_line_ok prefs k title :
  joinable (PersonalData.get prefs k) = true ->
  exists s, joined_line prefs k title = Ok s.
Proof.
  intros H. unfold joined_line.
  destruct (truthy (PersonalData.get prefs k)) eqn:Et; [|eexists; reflexivity].
  destruct (join_list_ok ("personalContext.preferences." +:+ k) _ Et H) as [j ->].
  eexists; reflexivity.
Qed.

Lemma preferences_block_ok ctx prompt :
  is_preferences (assoc "preferences" ctx) = true ->
  preferences_block ctx prompt
  = Ok (prompt +:+ text_of (preferences_block ctx "")).
Proof.
  unfold is_preferences, preferences_block.
  destruct (assoc "preferences" ctx) as [prefs|].
  - intros H. apply andb_true_iff in H as [H Hw].
    apply andb_true_iff in H as [Hi Hg].
    destruct (truthy (Some prefs)) eqn:Hp;
      [|cbn [text_of]; now rewrite append_nil_r].
    apply truthy_not_null in Hp.
    destruct (joined_line_ok prefs "interests" "Interests" Hi) as [i ->].
    destruct (joined_line_ok prefs "goals" "Goals" Hg) as [g ->].
    cbn [bind]. repeat shown_step Hp Hw. reflexivity.
  - intros _. cbn [text_of]. now rewrite append_nil_r.
Qed.

Lemma conversation_ok history prompt :
  (if (0 <? List.length history)%nat
   then forEach render_turn (Array_slice (-4) None history)
          (prompt +:+ nl +:+ "RECENT CONVERSATION HISTORY:" +:+ nl)
   else Ok prompt)
  = Ok (prompt +:+ recent_conversation history).
Proof.
  unfold recent_conversation.
  change (-4)%Z with (- Z.of_nat 4)%Z. rewrite slice_last by lia.
  destruct history as [|m history].
  - simpl. now rewrite append_nil_r.
  - change (0 <? List.length (m :: history))%nat with true. cbv iota.
    rewrite forEach_ok by (apply Forall_forall; intros x _; eexists; reflexivity).
    assert (Hne : most_recent 4 (m :: history) <> []).
    { intros E. apply (f_equal (@List.length _)) in E.
      rewrite most_recent_length in E. simpl in E. lia. }
    destruct (most_recent 4 (m :: history)) as [|y ys]; [contradiction|].
    change (List.map (line_of render_turn) (y :: ys))
      with (List.map (fun msg => role msg +:+ ": " +:+ content msg +:+ nl) (y :: ys)).
    simpl. rewrite !append_assoc. reflexivity.
Qed.

Lemma personal_information_cons ctx :
  ctx <> [] ->
  personal_information ctx
  = "PERSONAL INFORMATION ABOUT THE PERSON:" +:+ nl
    +:+ text_of (biography_block ctx "")
    +:+ block (nl +:+ "Skills:" +:+ nl)
              (List.map (line_of render_skill) (entries ctx "skills"))
    +:+ block (nl +:+ "Recent Projects:" +:+ nl)
              (List.map (line_of render_project) (firstn 5 (entries ctx "projects")))
    +:+ block (nl +:+ "Work Experience:" +:+ nl)
              (List.map (line_of render_experience) (firstn 3 (entries ctx "experience")))
    +:+ text_of (preferences_block ctx "").
Proof. destruct ctx; [contradiction | reflexivity]. Qed.

(** The prompt on relevant data of that shape, block by block. *)
Lemma createPersonalizedPrompt_ok userMessage ctx history :
  well_shaped ctx = true ->
  createPersonalizedPrompt userMessage ctx history
  = Ok (preamble +:+ personal_information ctx +:+ recent_conversation history
        +:+ closing userMessage).
Proof.
  intros H. unfold well_shaped in H.
  apply andb_true_iff in H as [H Hprefs].
  apply andb_true_iff in H as [H Hexp].
  apply andb_true_iff in H as [H Hproj].
  apply andb_true_iff in H as [Hbio Hskills].
  unfold createPersonalizedPrompt. cbv zeta.
  match goal with |- bind ?info _ = _ =>
    assert (Hinfo : info = Ok (preamble +:+ personal_information ctx)) end.
  { assert (Hcase : ctx = [] \/ ctx <> []) by (destruct ctx; [now left | now right]).
    destruct Hcase as [->|Hne]; [simpl; now rewrite append_nil_r|].
    replace (0 <? List.length ctx)%nat with true
      by (destruct ctx; [contradiction | reflexivity]).
    rewrite biography_block_ok by exact Hbio. cbn [bind].
    rewrite (list_block_all _ _ _ is_skill) by (auto using render_skill_ok).
    cbn [bind].
    change 5%Z with (Z.of_nat 5).
    rewrite (list_block_capped _ _ _ 5 is_project) by (auto using render_project_ok; lia).
    cbn [bind].
    change 3%Z with (Z.of_nat 3).
    rewrite (list_block_capped _ _ _ 3 is_experience)
      by (auto using render_experience_ok; lia).
    cbn [bind].
    rewrite preferences_block_ok by exact Hprefs.
    rewrite personal_information_cons by exact Hne.
    rewrite !append_assoc. reflexivity. }
  rewrite Hinfo. simpl bind.
  rewrite conversation_ok. simpl bind.
  rewrite !append_assoc. reflexivity.
Qed.


(** After a whole-document write the prompt can be composed for any
    question: the stored profile has the shape, and the search keeps it. *)
Lemma createPersonalizedPrompt_after_write newData w r w' query userMessage history :
  updateData newData w = (Ok r, w') ->
  exists prompt,
    createPersonalizedPrompt userMessage (searchRelevantData query w') history
    = Ok prompt.
Proof.
  intros H. destruct (updateData_well_shaped _ _ _ _ H) as (d & Hd & Hshape).
  eexists. apply createPersonalizedPrompt_ok.
  eapply search_well_shaped; eassumption.
Qed.


End Prompt.



(** The composer throws as well on a value it cannot convert to a
    string: a skill stored with an object for its name, the object
    having a [toString] property of its own. *)
Example createPersonalizedPrompt_throws_on_toString :
  let ctx := [ ("skills",
                JArr [ JObj [ ("name", JObj [ ("toString", JNum "1") ]);
                              ("proficiency", JStr "expert");
                              ("category", JStr "programming") ] ]) ] in
  well_shaped ctx = false /\
  createPersonalizedPrompt (P := Examples.test_platform) "hi" ctx []
  = Throw not_primitive.
Proof. intros ctx. split; vm_compute; reflexivity. Qed.

(** Each part of the shape is needed: the composer throws on a [null]
    entry, on a list section that is a string, on goals that are a
    string, and on a biography with a title it cannot print. *)
Example createPersonalizedPrompt_needs_shape :
  let compose := createPersonalizedPrompt (P := Examples.test_platform) "hi" in
  (exists e, compose [ ("skills", JArr [JNull]) ] [] = Throw e) /\
  (exists e, compose [ ("experience", JStr "none") ] [] = Throw e) /\
  (exists e, compose [ ("preferences", JObj [ ("goals", JStr "g") ]) ] [] = Throw e) /\
  (exists e, compose [ ("biography",
                        JObj [ ("title", JArr [ JObj [ ("toString", JNull) ] ]) ]) ] []
             = Throw e).
Proof. intros compose. repeat split; eexists; vm_compute; reflexivity. Qed.

(** In that prompt: the fifth project and not the sixth, the third
    experience and not the fourth, the third turn and not the second. *)
Example createPersonalizedPrompt_caps :
  exists prompt,
    createPersonalizedPrompt (P := Examples.test_platform)
      "What did they build?" Examples.big_context Examples.six_turns = Ok prompt /\
    includes prompt "- p5: d (Technologies: js, css) [Status: completed]" = true /\
    includes prompt "p6" = false /\
    includes prompt "- dev at c3" = true /\
    includes prompt "c4" = false /\
    includes prompt ("user: q2" +:+ nl +:+ "assistant: a2" +:+ nl
                     +:+ "user: q3" +:+ nl +:+ "assistant: a3" +:+ nl) = true /\
    includes prompt "q1" = false /\
    includes prompt "- Interests: chess" = true.
Proof. eexists. repeat split; vm_compute; reflexivity. Qed.

(** ** The chat handler *)

Section Handler.
Context `{P : Platform}.

(** Demo mode: the canned answer, and the server as it was. *)
Lemma post_chat_demo req sv :
  message req <> "" -> unconfigured sv = true ->
  post_chat req sv
  = ({| status := 200;
        body := [ ("response", JStr (demo_text (message req)));
                  ("isDemo", JBool true);
                  ("personalDataAvailable", JBool false) ] |}, sv).
Proof.
  intros Hm Hu. unfold post_chat.
  destruct (String.eqb_spec (message req) "") as [E|_]; [contradiction|].
  rewrite Hu. reflexivity.
Qed.

(** The array behind a session's reference after the call. *)
Lemma deref_after_update sid u a sv r :
  chatContexts sv !! sid = Some r -> r < next_ref sv ->
  deref (updateChatContext sid u a sv) r = deref sv r ++ exchange u a.
Proof.
  intros E Hlt. unfold updateChatContext. rewrite E. cbv zeta. rewrite E.
  rewrite deref_set_arrays. fold (exchange u a).
  destruct (10 <? _)%nat.
  - unfold alloc, set_contexts, set_arrays, deref. simpl.
    rewrite lookup_insert_ne by lia. now rewrite lookup_insert_eq.
  - apply deref_set_arrays.
Qed.

(** The [contextLength] of a successful answer: for a session that has a
    window it counts the two turns of this request as well, because
    [conversationHistory] is the stored array itself and [push] has
    changed it; a session without a window gets 0. *)
Lemma post_chat_contextLength req sv resp sv' :
  well_formed sv -> unconfigured sv = false -> message req <> "" ->
  post_chat req sv = (resp, sv') -> status resp = 200 ->
  let sid := default "default" (sessionId req) in
  assoc "contextLength" (body resp)
  = Some (JNum (string_of_nat
                  (match chatContexts sv !! sid with
                   | Some _ => List.length (get_context sid sv) + 2
                   | None => 0
                   end))).
Proof.
  intros [Hlt _] Hu Hm Hp Hs sid. unfold post_chat in Hp.
  destruct (String.eqb_spec (message req) "") as [E|_]; [contradiction|].
  rewrite Hu in Hp. fold sid in Hp.
  unfold get_context.
  destruct (chatContexts sv !! sid) as [r|] eqn:E.
  - destruct (bind _ _) as [text|e] in Hp.
    + injection Hp as <- <-. simpl.
      rewrite deref_after_update by eauto.
      rewrite length_app. reflexivity.
    + injection Hp as <- <-. unfold error_response in Hs.
      repeat (destruct (_ : bool) in Hs; try discriminate).
  - unfold alloc in Hp.
    destruct (bind _ _) as [text|e] in Hp.
    + injection Hp as <- <-. simpl.
      match goal with |- context [updateChatContext sid ?m ?t ?s] =>
        destruct (update_shape sid m t s) as [_ Hfr] end.
      cbv zeta in Hfr. unfold deref. rewrite Hfr.
      * simpl. now rewrite lookup_insert_eq.
      * simpl. lia.
      * simpl. rewrite E. discriminate.
    + injection Hp as <- <-. unfold error_response in Hs.
      repeat (destruct (_ : bool) in Hs; try discriminate).
Qed.

Lemma post_chat_well_formed req sv :
  well_formed sv -> well_formed (snd (post_chat req sv)).
Proof.
  intros Hwf. unfold post_chat.
  destruct (String.eqb (message req) ""); [exact Hwf|].
  destruct (unconfigured sv); [exact Hwf|].
  destruct (chatContexts sv !! default "default" (sessionId req)) as [r|].
  - destruct (bind _ _); simpl; [now apply update_well_formed | exact Hwf].
  - pose proof (alloc_well_formed [] sv Hwf) as Hwf'.
    destruct (alloc [] sv) as [r sv1]. simpl in Hwf'.
    destruct (bind _ _); simpl; [now apply update_well_formed | exact Hwf'].
Qed.

End Handler.

(** C2, on the code: the first request of a session answers
    [contextLength] 0, the second 4 although two turns were stored
    before it, and a request on a full window of ten answers 12. *)
Theorem post_chat_contextLength_counts_new_turns :
  let second := Chat.post_chat (P := Examples.test_platform)
                  (Examples.ask "s1" "again") (Examples.after_requests 1) in
  let sixth := Chat.post_chat (P := Examples.test_platform)
                 (Examples.ask "s1" "again") (Examples.after_requests 5) in
  assoc "contextLength"
    (body (fst (Chat.post_chat (P := Examples.test_platform)
                  (Examples.ask "s1" "hi") Examples.live_server)))
  = Some (JNum "0") /\
  get_context "s1" (Examples.after_requests 1) = exchange "hi" "Hi" /\
  assoc "contextLength" (body (fst second)) = Some (JNum "4") /\
  assoc "isDemo" (body (fst second)) = Some (JBool false) /\
  get_context "s1" (snd second) = exchange "hi" "Hi" ++ exchange "again" "Hi" /\
  List.length (get_context "s1" (Examples.after_requests 5)) = 10 /\
  assoc "contextLength" (body (fst sixth)) = Some (JNum "12").
Proof. repeat split; vm_compute; reflexivity. Qed.

(** C3, on the code: without a credential the handler answers with the
    canned text, [isDemo] true and [personalDataAvailable] false; the
    answer has no [personalDataUsed] property, and the server, its
    context windows included, is as it was. *)
Theorem post_chat_demo_mode :
  let answer := Chat.post_chat (P := Examples.test_platform)
                  (Examples.ask "s1" "hello") Examples.demo_server in
  status (fst answer) = 200 /\
  body (fst answer)
  = [ ("response", JStr (demo_text "hello")); ("isDemo", JBool true);
      ("personalDataAvailable", JBool false) ] /\
  includes (demo_text "hello") ("You said: " +:+ dq +:+ "hello" +:+ dq) = true /\
  assoc "personalDataUsed" (body (fst answer)) = None /\
  snd answer = Examples.demo_server /\
  get_context "s1" (snd answer) = [].
Proof. repeat split; vm_compute; reflexivity. Qed.
(* ===================================================================== *)
(** * Further properties of the code *)
(* ===================================================================== *)

(** ** The whole-document write, in full *)

(** The placeholder of [initializeDataFile] against the schema, for any
    platform that reads back the dates it prints. *)
Lemma initialData_valid (P : Platform) t0 t :
  (forall n, date_coerce (JStr (Date_toJSON n)) = Some (Date_toJSON n)) ->
  Joi.validate personalDataSchema [] (JObj (initialData t0)) t
  = Joi.VOk (JObj (initialData t0)) t.
Proof.
  destruct P as [f1 f2 f3 f4 f5 f6 f7 f8 f9]. simpl. intros Hdate.
  unfold initialData. simpl Date_toJSON.
  lazy. rewrite !Hdate. reflexivity.
Qed.

Lemma mem_string_false k ks : ~ In k ks -> Joi.mem_string k ks = false.
Proof.
  induction ks as [|k1 ks IH]; [reflexivity|]. simpl. intros H.
  destruct (String.eqb_spec k k1) as [->|_]; [tauto|]. apply IH. tauto.
Qed.

Section Store.
Context `{P : Platform}.

(** Every list section of a validated document is an array of objects. *)
Lemma validated_sections newData t value t' k :
  Joi.validate personalDataSchema [] newData t = Joi.VOk (JObj value) t' ->
  In k list_sections -> section_of is_obj k value.
Proof.
  intros H Hk.
  assert (Ha : accepted personalDataSchema (JObj value))
    by (now exists newData, [], t, t').
  unfold personalDataSchema in Ha.
  eapply accepted_object in Ha as (out & [= <-] & Hout); [|reflexivity|reflexivity].
  assert (Hnd : NoDup (List.map fst
    (match personalDataSchema with Joi.SObject _ ks => ks | _ => [] end)))
    by (apply (bool_decide_unpack _); vm_compute; reflexivity).
  specialize (Hout Hnd).
  assert (Hsec : forall ks,
             In (k, Joi.optional (Joi.array_items (Joi.object ks)))
                (match personalDataSchema with Joi.SObject _ ks => ks | _ => [] end) ->
             section_of is_obj k value).
  { intros ks Hin v Hv.
    pose proof (Hout _ _ _ Hin eq_refl Hv) as Hv'.
    eapply accepted_array in Hv' as (xs & -> & Hxs); [|reflexivity|reflexivity].
    exists xs. split; [reflexivity|].
    eapply List.Forall_impl; [|exact Hxs]. apply accepted_is_obj. }
  simpl in Hk.
  destruct Hk as [<-|[<-|[<-|[<-|[<-|[]]]]]]; eapply Hsec; simpl; tauto.
Qed.

Lemma validated_is_object newData t v t' :
  Joi.validate personalDataSchema [] newData t = Joi.VOk v t' ->
  exists value, v = JObj value.
Proof.
  intros H.
  assert (Ha : accepted personalDataSchema v) by (now exists newData, [], t, t').
  now apply accepted_is_obj in Ha.
Qed.

Lemma map_with_id_defined entries n :
  List.Forall is_obj entries -> exists r, map_with_id entries n = Ok r.
Proof.
  intros H. revert n. induction H as [|x xs [e ->] _ IH]; intros n.
  - eexists. reflexivity.
  - simpl. destruct (truthy (assoc "id" e)); simpl;
      match goal with |- context [map_with_id xs ?m] =>
        destruct (IH m) as [r ->] end; simpl; eauto.
Qed.

Lemma add_ids_defined k value n :
  section_of is_obj k value -> exists r, add_ids k value n = Ok r.
Proof.
  intros Hsec. unfold add_ids.
  destruct (assoc k value) as [v|] eqn:E; [|simpl; eauto].
  destruct (Hsec _ E) as (xs & -> & Hxs). simpl.
  destruct (map_with_id_defined xs n Hxs) as [r ->]. simpl. eauto.
Qed.

Lemma add_ids_listed k value n value' n' :
  add_ids k value n = Ok (value', n') ->
  (forall k0, In k0 list_sections -> section_of is_obj k0 value) ->
  forall k0, In k0 list_sections -> section_of is_obj k0 value'.
Proof.
  intros H Hall k0 Hk0. eapply add_ids_section; eauto.
  intros; eexists; reflexivity.
Qed.

(** The five assignments of identifiers go through on a validated
    document. *)
Lemma ids_defined value n :
  (forall k, In k list_sections -> section_of is_obj k value) ->
  exists r,
    (let* r1 := add_ids "skills" value n in
     let* r2 := add_ids "projects" (fst r1) (snd r1) in
     let* r3 := add_ids "socialLinks" (fst r2) (snd r2) in
     let* r4 := add_ids "experience" (fst r3) (snd r3) in
     add_ids "education" (fst r4) (snd r4)) = Ok r.
Proof.
  intros H0.
  destruct (add_ids_defined "skills" value n) as [[v1 n1] E1];
    [apply H0; simpl; tauto|].
  pose proof (add_ids_listed _ _ _ _ _ E1 H0) as H1.
  destruct (add_ids_defined "projects" v1 n1) as [[v2 n2] E2];
    [apply H1; simpl; tauto|].
  pose proof (add_ids_listed _ _ _ _ _ E2 H1) as H2.
  destruct (add_ids_defined "socialLinks" v2 n2) as [[v3 n3] E3];
    [apply H2; simpl; tauto|].
  pose proof (add_ids_listed _ _ _ _ _ E3 H2) as H3.
  destruct (add_ids_defined "experience" v3 n3) as [[v4 n4] E4];
    [apply H3; simpl; tauto|].
  pose proof (add_ids_listed _ _ _ _ _ E4 H3) as H4.
  destruct (add_ids_defined "education" v4 n4) as [r E5];
    [apply H4; simpl; tauto|].
  exists r. rewrite E1. simpl. rewrite E2. simpl. rewrite E3. simpl.
  rewrite E4. simpl. exact E5.
Qed.

Lemma with_id_identified e n y n' :
  with_id (JObj e) n = Ok (y, n') -> identified (JObj e) y.
Proof.
  unfold with_id. cbn [PersonalData.get spread]. intros H. exists e.
  split; [reflexivity|].
  destruct (truthy (assoc "id" e)) eqn:E; injection H as <- <-.
  - destruct (assoc "id" e) as [v|] eqn:Ev; [|discriminate].
    cbn [default]. now rewrite set_field_same.
  - now exists n.
Qed.

Lemma map_with_id_identified xs :
  List.Forall is_obj xs ->
  forall n ys n', map_with_id xs n = Ok (ys, n') -> Forall2 identified xs ys.
Proof.
  induction 1 as [|x xs [e ->] _ IH]; intros n ys n' H.
  - injection H as <- <-. constructor.
  - cbn [map_with_id] in H. apply bind_ok in H as ([y n1] & Hy & H).
    apply bind_ok in H as ([rest n2] & Hr & H). injection H as <- <-.
    constructor; [eapply with_id_identified, Hy | eapply IH, Hr].
Qed.

Lemma add_ids_identified k value n value' n' :
  section_of is_obj k value ->
  add_ids k value n = Ok (value', n') -> ids_added k value value'.
Proof.
  intros Hsec H. unfold add_ids in H. unfold ids_added.
  destruct (assoc k value) as [v|] eqn:E.
  - destruct (Hsec _ E) as (xs & -> & Hxs). simpl in H.
    apply bind_ok in H as ([ys n1] & Hm & H). injection H as <- <-.
    exists ys. split; [apply assoc_set_field_eq|].
    eapply map_with_id_identified; eauto.
  - simpl in H. injection H as <- <-. exact E.
Qed.

Lemma ids_added_ext k a a' b b' :
  assoc k a' = assoc k a -> assoc k b' = assoc k b ->
  ids_added k a b -> ids_added k a' b'.
Proof. unfold ids_added. now intros -> ->. Qed.

(** The five assignments, section by section. *)
Lemma ids_described value n value5 n5 :
  (forall k, In k list_sections -> section_of is_obj k value) ->
  (let* r1 := add_ids "skills" value n in
   let* r2 := add_ids "projects" (fst r1) (snd r1) in
   let* r3 := add_ids "socialLinks" (fst r2) (snd r2) in
   let* r4 := add_ids "experience" (fst r3) (snd r3) in
   add_ids "education" (fst r4) (snd r4)) = Ok (value5, n5) ->
  (forall k, In k list_sections -> ids_added k value value5) /\
  (forall k, ~ In k list_sections -> assoc k value5 = assoc k value).
Proof.
  intros H0 H.
  apply bind_ok in H as ([v1 n1] & E1 & H).
  apply bind_ok in H as ([v2 n2] & E2 & H).
  apply bind_ok in H as ([v3 n3] & E3 & H).
  apply bind_ok in H as ([v4 n4] & E4 & E5).
  cbn [fst snd] in *.
  pose proof (add_ids_listed _ _ _ _ _ E1 H0) as H1.
  pose proof (add_ids_listed _ _ _ _ _ E2 H1) as H2.
  pose proof (add_ids_listed _ _ _ _ _ E3 H2) as H3.
  pose proof (add_ids_listed _ _ _ _ _ E4 H3) as H4.
  pose proof (fun k' => add_ids_other _ _ _ _ _ k' E1) as O1.
  pose proof (fun k' => add_ids_other _ _ _ _ _ k' E2) as O2.
  pose proof (fun k' => add_ids_other _ _ _ _ _ k' E3) as O3.
  pose proof (fun k' => add_ids_other _ _ _ _ _ k' E4) as O4.
  pose proof (fun k' => add_ids_other _ _ _ _ _ k' E5) as O5.
  split.
  - intros k Hk. simpl in Hk.
    destruct Hk as [<-|[<-|[<-|[<-|[<-|[]]]]]].
    + eapply ids_added_ext;
        [reflexivity | | eapply add_ids_identified; [|exact E1]; apply H0; simpl; tauto].
      rewrite O5, O4, O3, O2 by discriminate. reflexivity.
    + eapply ids_added_ext;
        [ | | eapply add_ids_identified; [|exact E2]; apply H1; simpl; tauto].
      * rewrite O1 by discriminate. reflexivity.
      * rewrite O5, O4, O3 by discriminate. reflexivity.
    + eapply ids_added_ext;
        [ | | eapply add_ids_identified; [|exact E3]; apply H2; simpl; tauto].
      * rewrite O2, O1 by discriminate. reflexivity.
      * rewrite O5, O4 by discriminate. reflexivity.
    + eapply ids_added_ext;
        [ | | eapply add_ids_identified; [|exact E4]; apply H3; simpl; tauto].
      * rewrite O3, O2, O1 by discriminate. reflexivity.
      * rewrite O5 by discriminate. reflexivity.
    + eapply ids_added_ext;
        [ | reflexivity | eapply add_ids_identified; [|exact E5]; apply H4; simpl; tauto].
      rewrite O4, O3, O2, O1 by discriminate. reflexivity.
  - intros k Hk. simpl in Hk.
    rewrite O5, O4, O3, O2, O1 by (intros ->; tauto). reflexivity.
Qed.

Lemma new_metadata_ext value value' t :
  assoc "metadata" value' = assoc "metadata" value ->
  new_metadata value' t = new_metadata value t.
Proof. unfold new_metadata. now intros ->. Qed.


(** *** Identifiers *)

Lemma with_id_has_id entry n entry' n' :
  (forall m, uuidv4 m <> "") -> is_obj entry ->
  with_id entry n = Ok (entry', n') -> has_id entry' = true.
Proof.
  intros Hu [e ->]. simpl.
  destruct (truthy (assoc "id" e)) eqn:E; intros [= <- <-]; simpl;
    rewrite assoc_set_field_eq.
  - destruct (assoc "id" e); [exact E | discriminate].
  - simpl. apply negb_true_iff, String.eqb_neq, Hu.
Qed.

Lemma map_with_id_has_id entries :
  (forall m, uuidv4 m <> "") ->
  forall n entries' n',
    List.Forall is_obj entries -> map_with_id entries n = Ok (entries', n') ->
    forallb has_id entries' = true.
Proof.
  intros Hu. induction entries as [|e rest IH]; intros n entries' n' HQ H.
  - now injection H as <- <-.
  - simpl in H. apply bind_ok in H as ([e1 n1] & He & H).
    apply bind_ok in H as ([rest1 n2] & Hr & H). injection H as <- <-.
    inversion HQ; subst. simpl. apply andb_true_iff. split.
    + eapply with_id_has_id; eauto.
    + eapply IH; eauto.
Qed.

Lemma add_ids_present_after k value n value' n' :
  (forall m, uuidv4 m <> "") ->
  section_of is_obj k value ->
  add_ids k value n = Ok (value', n') -> ids_present value' k = true.
Proof.
  intros Hu Hsec H. unfold add_ids in H. unfold ids_present.
  destruct (assoc k value) as [v|] eqn:E.
  - destruct (Hsec _ E) as (xs & -> & Hxs). simpl in H.
    apply bind_ok in H as ([es n1] & Hm & H). injection H as <- <-.
    rewrite assoc_set_field_eq. eapply map_with_id_has_id; eauto.
  - simpl in H. injection H as <- <-. now rewrite E.
Qed.

Lemma add_ids_keeps_present k k0 value n value' n' :
  k0 <> k -> add_ids k value n = Ok (value', n') ->
  ids_present value k0 = true -> ids_present value' k0 = true.
Proof.
  intros Hne H. unfold ids_present. now rewrite (add_ids_other _ _ _ _ _ _ H Hne).
Qed.

(** X2. After a whole-document write that succeeds, every entry of the
    five list sections of the stored document has an [id], provided
    [uuidv4] never gives the empty string. *)
Theorem updateData_assigns_ids newData w r w' :
  (forall n, uuidv4 n <> "") ->
  updateData newData w = (Ok r, w') ->
  exists doc, data_file w' = Some doc /\ r = JObj doc /\
              forallb (ids_present doc) list_sections = true.
Proof.
  intros Hu. unfold updateData.
  destruct (Joi.validate personalDataSchema [] newData (clock w)) as [v t|d t] eqn:Ev;
    [|discriminate].
  destruct v as [| | | | |value]; try discriminate.
  assert (H0 : forall k, In k list_sections -> section_of is_obj k value)
    by (intros k Hk; eapply validated_sections; eauto).
  match goal with |- context [match ?x with Ok _ => _ | Throw _ => _ end] =>
    destruct x as [[value5 n]|e] eqn:Eids end; [|discriminate].
  intros [= <- <-]. eexists. split; [reflexivity|]. split; [reflexivity|].
  apply bind_ok in Eids as ([v1 n1] & E1 & Eids).
  apply bind_ok in Eids as ([v2 n2] & E2 & Eids).
  apply bind_ok in Eids as ([v3 n3] & E3 & Eids).
  apply bind_ok in Eids as ([v4 n4] & E4 & E5).
  simpl in E2, E3, E4, E5.
  pose proof (add_ids_listed _ _ _ _ _ E1 H0) as H1.
  pose proof (add_ids_listed _ _ _ _ _ E2 H1) as H2.
  pose proof (add_ids_listed _ _ _ _ _ E3 H2) as H3.
  pose proof (add_ids_listed _ _ _ _ _ E4 H3) as H4.
  assert (P1 : ids_present v1 "skills" = true)
    by (eapply add_ids_present_after; eauto; apply H0; simpl; tauto).
  assert (P2 : ids_present v2 "projects" = true)
    by (eapply add_ids_present_after; eauto; apply H1; simpl; tauto).
  assert (P3 : ids_present v3 "socialLinks" = true)
    by (eapply add_ids_present_after; eauto; apply H2; simpl; tauto).
  assert (P4 : ids_present v4 "experience" = true)
    by (eapply add_ids_present_after; eauto; apply H3; simpl; tauto).
  assert (P5 : ids_present value5 "education" = true)
    by (eapply add_ids_present_after; eauto; apply H4; simpl; tauto).
  assert (Hm : forall k, k <> "metadata" ->
                 ids_present (set_field "metadata" (new_metadata value5 t) value5) k
                 = ids_present value5 k).
  { intros k Hk. unfold ids_present. now rewrite assoc_set_field_ne. }
  assert (K : forall k k0 value n value' n',
             k0 <> k -> add_ids k value n = Ok (value', n') ->
             ids_present value k0 = true -> ids_present value' k0 = true)
    by (intros; eapply add_ids_keeps_present; eauto).
  simpl. rewrite !Hm by discriminate. rewrite P5.
  eapply (K "education" "experience") in P4; [|discriminate|eassumption].
  eapply (K "experience" "socialLinks") in P3; [|discriminate|eassumption].
  eapply (K "education" "socialLinks") in P3; [|discriminate|eassumption].
  eapply (K "socialLinks" "projects") in P2; [|discriminate|eassumption].
  eapply (K "experience" "projects") in P2; [|discriminate|eassumption].
  eapply (K "education" "projects") in P2; [|discriminate|eassumption].
  eapply (K "projects" "skills") in P1; [|discriminate|eassumption].
  eapply (K "socialLinks" "skills") in P1; [|discriminate|eassumption].
  eapply (K "experience" "skills") in P1; [|discriminate|eassumption].
  eapply (K "education" "skills") in P1; [|discriminate|eassumption].
  rewrite P1, P2, P3, P4. reflexivity.
Qed.

(** *** What the schema asks of a document *)

Lemma rejected_not_object f ks v q t :
  Joi.only f = None -> (forall fs, v <> JObj fs) ->
  rejected (Joi.validate (Joi.SObject f ks) q v t).
Proof.
  intros Hf Hv. destruct v; simpl; rewrite Hf; try (eexists _, _; reflexivity).
  now destruct (Hv fields).
Qed.

Lemma entry_without_required_key_rejected section keys k fs xs i x t :
  In (section, keys) required_keys -> In k keys ->
  assoc section fs = Some (JArr xs) ->
  xs !! i = Some x ->
  PersonalData.get x k = None ->
  rejected (Joi.validate personalDataSchema [] (JObj fs) t).
Proof.
  intros Hsec Hk Hfs Hi Hget. unfold personalDataSchema, Joi.object.
  unfold required_keys in Hsec. simpl in Hsec.
  destruct Hsec as [[= <- <-]|[[= <- <-]|[[= <- <-]|[[= <- <-]|[[= <- <-]|[]]]]]];
    simpl in Hk;
    repeat match type of Hk with
           | _ \/ _ => destruct Hk as [<-|Hk]
           | False => destruct Hk
           end;
    (match type of Hfs with
     | assoc ?s _ = _ =>
         eapply rejected_object with (k := s);
         [reflexivity | simpl; tauto | exact Hfs |]
     end;
     intros q t1; eapply rejected_array; [reflexivity | exact Hi |];
     intros q2 t2;
     destruct x as [| | | | |e];
     try (apply rejected_not_object; [reflexivity | discriminate]);
     match type of Hget with
     | PersonalData.get _ ?key = _ =>
         eapply rejected_missing with (k := key);
         [reflexivity | simpl; tauto | exact Hget | reflexivity]
     end).
Qed.

(** X3. A document in which an entry of a list section lacks one of the
    keys the schema requires of it (a skill its [name], [category] or
    [proficiency]; a project its [name], [description] or [status]; a
    social link its [platform] or [url]; an experience its [company],
    [position] or [startDate]; an education its [institution], [degree]
    or [field]) is not written, whatever else it holds: [updateData]
    throws a validation error and the file stays as it was. *)
Theorem entry_without_required_key_not_written section keys k fs xs i x w :
  In (section, keys) required_keys -> In k keys ->
  assoc section fs = Some (JArr xs) ->
  xs !! i = Some x ->
  PersonalData.get x k = None ->
  (exists d, fst (updateData (JObj fs) w)
             = Throw (Error ("Validation error: " +:+ Joi.message d))) /\
  data_file (snd (updateData (JObj fs) w)) = data_file w.
Proof.
  intros H1 H2 H3 H4 H5.
  destruct (entry_without_required_key_rejected _ _ _ _ _ _ _ (clock w) H1 H2 H3 H4 H5)
    as (d & t & Hd).
  rewrite (updateData_rejected _ _ _ _ Hd). split; [eauto | reflexivity].
Qed.

(** X4. A document with a top-level key that the schema does not
    describe is not written: [updateData] throws a validation error and
    the file stays as it was. *)
Theorem unknown_key_not_written fs k w :
  ~ In k known_keys ->
  is_Some (assoc k fs) ->
  (exists d, fst (updateData (JObj fs) w)
             = Throw (Error ("Validation error: " +:+ Joi.message d))) /\
  data_file (snd (updateData (JObj fs) w)) = data_file w.
Proof.
  intros H1 H2.
  destruct (unknown_section_rejected fs k (clock w) H1 H2) as (d & t & Hd).
  rewrite (updateData_rejected _ _ _ _ Hd). split; [eauto | reflexivity].
Qed.

Lemma validated_known_keys newData t value t' k :
  Joi.validate personalDataSchema [] newData t = Joi.VOk (JObj value) t' ->
  ~ In k known_keys -> assoc k value = None.
Proof.
  intros H Hk. unfold personalDataSchema, Joi.object in H.
  destruct newData as [| | | | |fs]; try discriminate.
  rewrite validate_object in H by reflexivity.
  match type of H with
  | context [Joi.validate_children fs [] ?ks fs t] =>
      destruct (Joi.validate_children fs [] ks fs t) as [out t1|] eqn:E;
        [|discriminate];
      destruct (Joi.first_unknown (List.map fst ks) fs) eqn:U; [discriminate|];
      destruct (validate_children_lookup _ _ _ _ _ _ _ E k) as [Hl _]
  end.
  injection H as <- <-. rewrite Hl by exact Hk.
  destruct (assoc k fs) as [v|] eqn:Ev; [|reflexivity].
  destruct (first_unknown_some _ fs k (mem_string_false _ _ Hk)) as [x Hx]; [eauto|].
  unfold known_keys in Hx. simpl in U. congruence.
Qed.

(** What [updateData] stores has the keys of the schema only. *)
Lemma updateData_known_keys newData w r w' d k :
  updateData newData w = (Ok r, w') -> data_file w' = Some d ->
  ~ In k known_keys -> assoc k d = None.
Proof.
  unfold updateData.
  destruct (Joi.validate personalDataSchema [] newData (clock w)) as [v t|e t] eqn:Ev;
    [|discriminate].
  destruct v as [| | | | |value]; try discriminate.
  match goal with |- context [match ?x with Ok _ => _ | Throw _ => _ end] =>
    destruct x as [[value5 n]|e] eqn:Eids end; [|discriminate].
  intros [= <- <-] [= <-] Hk.
  apply bind_ok in Eids as ([v1 n1] & E1 & Eids).
  apply bind_ok in Eids as ([v2 n2] & E2 & Eids).
  apply bind_ok in Eids as ([v3 n3] & E3 & Eids).
  apply bind_ok in Eids as ([v4 n4] & E4 & E5).
  simpl in E2, E3, E4, E5.
  assert (Hne : k <> "skills" /\ k <> "projects" /\ k <> "socialLinks" /\
                k <> "experience" /\ k <> "education" /\ k <> "metadata").
  { unfold known_keys in Hk. simpl in Hk. intuition congruence. }
  destruct Hne as (N1 & N2 & N3 & N4 & N5 & N6).
  rewrite assoc_set_field_ne by exact N6.
  rewrite (add_ids_other _ _ _ _ _ _ E5 N5), (add_ids_other _ _ _ _ _ _ E4 N4),
    (add_ids_other _ _ _ _ _ _ E3 N3), (add_ids_other _ _ _ _ _ _ E2 N2),
    (add_ids_other _ _ _ _ _ _ E1 N1).
  eapply validated_known_keys; eassumption.
Qed.

(** *** The first start *)

(** X5. [initializeDataFile] leaves an existing file alone, so a second
    call changes nothing; where there is no file it writes a document
    that the schema accepts as it is, on a platform that reads back the
    dates it prints. *)
Theorem initializeDataFile_writes_valid_placeholder w :
  (forall n, date_coerce (JStr (Date_toJSON n)) = Some (Date_toJSON n)) ->
  let w' := initializeDataFile w in
  (forall d, data_file w = Some d -> w' = w) /\
  initializeDataFile w' = w' /\
  (data_file w = None ->
   exists d,
     data_file w' = Some d /\
     forall t, Joi.validate personalDataSchema [] (JObj d) t = Joi.VOk (JObj d) t).
Proof.
  intros Hdate. cbv zeta.
  destruct (data_file w) as [d|] eqn:Hd.
  - assert (Hw : initializeDataFile w = w)
      by (unfold initializeDataFile; now rewrite Hd).
    rewrite !Hw. split; [reflexivity|]. split; [reflexivity|]. discriminate.
  - assert (Hw : data_file (initializeDataFile w) = Some (initialData (clock w)))
      by (unfold initializeDataFile; now rewrite Hd).
    split; [discriminate|]. split.
    + unfold initializeDataFile at 1. now rewrite Hw.
    + intros _. exists (initialData (clock w)). split; [exact Hw|].
      intros t. apply initialData_valid, Hdate.
Qed.

(** *** Section writes *)

(** A section that was written is the section that is read, and the
    other sections read as before. *)
Lemma getSection_after_updateSection sectionName sectionData w d m :
  data_file w = Some d ->
  assoc "metadata" d = Some (JObj m) ->
  sectionName <> "metadata" ->
  truthy (Some sectionData) = true ->
  let w' := snd (updateSection sectionName sectionData w) in
  fst (updateSection sectionName sectionData w) = Ok sectionData /\
  getSection sectionName w' = sectionData /\
  (forall k, k <> sectionName -> k <> "metadata" -> getSection k w' = getSection k w).
Proof.
  intros Hd Hm Hne Ht. cbv zeta.
  destruct (updateSection_stores sectionName sectionData w d m Hd Hm Hne)
    as (Hu & Hs & Ho).
  cbv zeta in Hu, Hs, Ho. rewrite Hu. simpl.
  split; [reflexivity|]. unfold getSection. simpl. rewrite Hd. split.
  - rewrite Hs, Ht. reflexivity.
  - intros k H1 H2. now rewrite Ho.
Qed.

(** X6. A section write that throws has written nothing, and what it
    throws is a [TypeError], never a validation error.  (The name
    [__proto__] apart, which is no property of the document.) *)
Theorem updateSection_failure_writes_nothing sectionName sectionData w e :
  sectionName <> "__proto__" ->
  fst (updateSection sectionName sectionData w) = Throw e ->
  data_file (snd (updateSection sectionName sectionData w)) = data_file w /\
  exists msg, e = TypeError msg.
Proof.
  intros _. unfold updateSection. destruct (data_file w) as [d|] eqn:Hd.
  - destruct (assoc "metadata" (set_field sectionName sectionData d))
      as [[| | | | |]|]; simpl; intros [= <-] || discriminate; eauto.
  - simpl. intros [= <-]. rewrite Hd. eauto.
Qed.


End Store.

Lemma updateData_assigns_ids_witness :
  let supplied := JObj [ ("skills", JArr [Examples.react_skill]) ] in
  (forall n, uuidv4 (Platform := Examples.test_platform) n <> "") /\
  exists r w',
    PersonalData.updateData (P := Examples.test_platform)
      supplied Examples.fresh_store = (Ok r, w') /\
    exists doc,
      PersonalData.data_file w' = Some doc /\ r = JObj doc /\
      forallb (ids_present doc) list_sections = true.
Proof.
  intros supplied.
  assert (Hu : forall n, uuidv4 (Platform := Examples.test_platform) n <> "")
    by (intros n; apply String.eqb_neq; reflexivity).
  split; [exact Hu|]. eexists _, _. split.
  - vm_compute. reflexivity.
  - apply (updateData_assigns_ids (P := Examples.test_platform)
             supplied Examples.fresh_store _ _ Hu).
    vm_compute. reflexivity.
Defined.

Lemma entry_without_required_key_not_written_witness :
  let fs := [ ("skills", JArr [Examples.react_skill; Examples.bare_skill]) ] in
  In ("skills", ["name"; "category"; "proficiency"]) required_keys /\
  In "category" ["name"; "category"; "proficiency"] /\
  PersonalData.get Examples.bare_skill "category" = None /\
  (exists d, fst (PersonalData.updateData (P := Examples.test_platform)
                    (JObj fs) Examples.fresh_store)
             = Throw (Error ("Validation error: " +:+ Joi.message d))) /\
  PersonalData.data_file
    (snd (PersonalData.updateData (P := Examples.test_platform)
            (JObj fs) Examples.fresh_store))
  = PersonalData.data_file Examples.fresh_store.
Proof.
  intros fs.
  assert (H1 : In ("skills", ["name"; "category"; "proficiency"]) required_keys)
    by (simpl; tauto).
  assert (H2 : In "category" ["name"; "category"; "proficiency"])
    by (simpl; tauto).
  assert (H5 : PersonalData.get Examples.bare_skill "category" = None)
    by reflexivity.
  split; [exact H1|]. split; [exact H2|]. split; [exact H5|].
  exact (entry_without_required_key_not_written (P := Examples.test_platform)
           "skills" _ "category" fs
           [Examples.react_skill; Examples.bare_skill] 1 Examples.bare_skill
           Examples.fresh_store H1 H2 eq_refl eq_refl H5).
Defined.

Lemma unknown_key_not_written_witness :
  let fs := [ ("hobbies", JArr [JStr "chess"]) ] in
  ~ In "hobbies" known_keys /\
  is_Some (assoc "hobbies" fs) /\
  (exists d, fst (PersonalData.updateData (P := Examples.test_platform)
                    (JObj fs) Examples.fresh_store)
             = Throw (Error ("Validation error: " +:+ Joi.message d))) /\
  PersonalData.data_file
    (snd (PersonalData.updateData (P := Examples.test_platform)
            (JObj fs) Examples.fresh_store))
  = PersonalData.data_file Examples.fresh_store.
Proof.
  intros fs.
  assert (H1 : ~ In "hobbies" known_keys)
    by (unfold known_keys; simpl; intuition discriminate).
  assert (H2 : is_Some (assoc "hobbies" fs)) by (eexists; reflexivity).
  split; [exact H1|]. split; [exact H2|].
  exact (unknown_key_not_written (P := Examples.test_platform)
           fs "hobbies" Examples.fresh_store H1 H2).
Defined.

Lemma initializeDataFile_writes_valid_placeholder_witness :
  let w := Examples.empty_store in
  let w' := PersonalData.initializeDataFile (P := Examples.test_platform) w in
  (forall n, date_coerce (Platform := Examples.test_platform)
               (JStr (Date_toJSON (Platform := Examples.test_platform) n))
             = Some (Date_toJSON (Platform := Examples.test_platform) n)) /\
  (forall d, PersonalData.data_file w = Some d -> w' = w) /\
  PersonalData.initializeDataFile (P := Examples.test_platform) w' = w' /\
  (PersonalData.data_file w = None ->
   exists d,
     PersonalData.data_file w' = Some d /\
     forall t, Joi.validate (P := Examples.test_platform)
                 PersonalData.personalDataSchema [] (JObj d) t
               = Joi.VOk (JObj d) t).
Proof.
  intros w w'.
  assert (Hdate : forall n,
             date_coerce (Platform := Examples.test_platform)
               (JStr (Date_toJSON (Platform := Examples.test_platform) n))
             = Some (Date_toJSON (Platform := Examples.test_platform) n))
    by (intros n; reflexivity).
  split; [exact Hdate|].
  exact (initializeDataFile_writes_valid_placeholder (P := Examples.test_platform)
           w Hdate).
Defined.

Lemma updateSection_failure_writes_nothing_witness :
  let w := Examples.empty_store in
  fst (PersonalData.updateSection (P := Examples.test_platform) "skills" (JArr []) w)
  = Throw (TypeError "Cannot set properties of null") /\
  PersonalData.data_file
    (snd (PersonalData.updateSection (P := Examples.test_platform)
            "skills" (JArr []) w))
  = PersonalData.data_file w /\
  exists msg, TypeError "Cannot set properties of null" = TypeError msg.
Proof.
  intros w.
  assert (H : fst (PersonalData.updateSection (P := Examples.test_platform)
                     "skills" (JArr []) w)
              = Throw (TypeError "Cannot set properties of null"))
    by reflexivity.
  split; [exact H|].
  refine (updateSection_failure_writes_nothing (P := Examples.test_platform)
            "skills" (JArr []) w _ _ H).
  discriminate.
Defined.


(** ** The router of the profile *)

Import Routes.

Section Handlers.
Context `{P : Platform}.

Lemma parsed_truthy body : parsed body = true -> truthy (Some body) = true.
Proof. destruct body; try discriminate; reflexivity. Qed.


(** X9. The handler of [PUT /], run on a body that the JSON parser has
    handed on (an object or an array), answers with status 200 or 400
    and not with 500: 200 with the stored document when the schema
    accepts the body, and 400 with the text of the validation error, the
    file left as it was, when the schema rejects it.  Writing the file
    is taken to succeed. *)
Theorem put_root_answers_200_or_400 body w :
  parsed body = true ->
  let resp := fst (put_root_handler body w) in
  let w' := snd (put_root_handler body w) in
  match Joi.validate personalDataSchema [] body (clock w) with
  | Joi.VOk _ _ =>
      status resp = 200 /\
      exists doc, assoc "data" (Chat.body resp) = Some (JObj doc) /\
                  data_file w' = Some doc
  | Joi.VErr d _ =>
      status resp = 400 /\
      assoc "message" (Chat.body resp)
      = Some (JStr ("Validation error: " +:+ Joi.message d)) /\
      data_file w' = data_file w
  end.
Proof.
  intros _. cbv zeta. unfold put_root_handler.
  destruct (Joi.validate personalDataSchema [] body (clock w)) as [v t|d t] eqn:Ev.
  - destruct (validated_is_object _ _ _ _ Ev) as [value ->].
    destruct (ids_defined value (uuid_count w)) as [[value5 n] Eids].
    { intros k Hk. eapply validated_sections; eauto. }
    unfold updateData. rewrite Ev, Eids. simpl. split; [reflexivity|]. eauto.
  - rewrite (updateData_rejected _ _ _ _ Ev). simpl error_message.
    change ("Validation error: " +:+ Joi.message d)
      with ("Validation error" +:+ (": " +:+ Joi.message d)).
    rewrite includes_here. simpl. auto.
Qed.

(** X10. After a whole-document write that succeeds, [GET /:section]
    answers 404 for every name that is neither a key of the schema nor
    a name that every object answers to: the stored document has no
    other keys. *)
Theorem get_section_unknown_is_404 newData w r w' name :
  updateData newData w = (Ok r, w') ->
  ~ In name known_keys ->
  ~ In name inherited_keys ->
  status (get_section name w') = 404.
Proof.
  intros H Hk _. unfold get_section, getSection.
  destruct (updateData_ok_inv _ _ _ _ H) as (value & t & value5 & _ & _ & Hd).
  rewrite Hd. rewrite (updateData_known_keys _ _ _ _ _ _ H Hd Hk). reflexivity.
Qed.

End Handlers.

(** X11. No request reaches the handler of [GET /health]: the router
    answers a request with the first route that matches, and
    [GET /:section], registered before, matches every path of one
    segment, [health] included. *)
Theorem health_route_never_answers m path :
  (forall e params, dispatch m path = Some (e, params) -> e <> GetHealth) /\
  (forall name, name <> "" ->
     dispatch GET [name] = Some (GetSection, [("section", name)])).
Proof.
  split.
  - intros e params. unfold dispatch, routes.
    destruct m, path as [|x [|y [|z rest]]]; simpl;
      repeat match goal with
             | |- context [if ?b then _ else _] => destruct b eqn:?
             end;
      try discriminate; intros [= <- <-]; try discriminate.
    all: exfalso;
      match goal with
      | H : (?s =? "") = true |- _ => apply String.eqb_eq in H; subst s
      end; simpl in *; congruence.
  - intros name Hn. unfold dispatch, routes. simpl.
    apply String.eqb_neq in Hn. now rewrite Hn.
Qed.

Import Auth.

(** X12. [authenticateApiKey] hands a request on exactly when no key is
    configured, or the configured key is empty, or the key the request
    presents is the configured one, where the key of the header counts
    and the query parameter is read only when the header is absent or
    empty: a wrong key in the header is not made good by the right one
    in the query. *)
Theorem authenticateApiKey_decision c :
  authenticateApiKey c = Next <->
  match PERSONAL_DATA_API_KEY c with
  | None => True
  | Some expected =>
      expected = "" \/
      header_X_API_Key c = Some expected \/
      ((header_X_API_Key c = None \/ header_X_API_Key c = Some "") /\
       query_apiKey c = Some (QString expected))
  end.
Proof.
  unfold authenticateApiKey, apiKey.
  destruct (PERSONAL_DATA_API_KEY c) as [expected|]; [|tauto].
  destruct (String.eqb_spec expected "") as [->|He]; [tauto|].
  destruct (header_X_API_Key c) as [h|].
  - destruct (String.eqb_spec h "") as [->|Hh].
    + destruct (query_apiKey c) as [[k|]|].
      * destruct k as [|a k]; [split; [discriminate|]|].
        -- intros [?|[[= <-]|[_ [= <-]]]]; congruence.
        -- destruct (String.eqb_spec (String a k) expected) as [->|Hk].
           ++ split; auto.
           ++ split; [discriminate|].
              intros [?|[[= <-]|[_ [= E]]]]; congruence.
      * split; [discriminate|]. intros [?|[[= <-]|[_ ?]]]; congruence.
      * split; [discriminate|]. intros [?|[[= <-]|[_ ?]]]; congruence.
    + destruct h as [|a h]; [congruence|].
      destruct (String.eqb_spec (String a h) expected) as [->|Hk].
      * split; auto.
      * split; [discriminate|].
        intros [?|[[= E]|[[?|[= E]] _]]]; congruence.
  - destruct (query_apiKey c) as [[k|]|].
    + destruct k as [|a k]; [split; [discriminate|]|].
      * intros [?|[?|[_ [= <-]]]]; congruence.
      * destruct (String.eqb_spec (String a k) expected) as [->|Hk].
        -- split; auto.
        -- split; [discriminate|]. intros [?|[?|[_ [= E]]]]; congruence.
    + split; [discriminate|]. intros [?|[?|[_ ?]]]; congruence.
    + split; [discriminate|]. intros [?|[?|[_ ?]]]; congruence.
Qed.


(** A skill of level ["bogus"] sent to [PUT /]: status 400. *)
Lemma put_root_answers_200_or_400_witness :
  parsed Examples.bogus_doc = true /\
  status (fst (put_root_handler (P := Examples.test_platform)
                 Examples.bogus_doc Examples.fresh_store)) = 400 /\
  let resp := fst (put_root_handler (P := Examples.test_platform)
                     Examples.bogus_doc Examples.fresh_store) in
  let w' := snd (put_root_handler (P := Examples.test_platform)
                   Examples.bogus_doc Examples.fresh_store) in
  match Joi.validate (P := Examples.test_platform) personalDataSchema []
          Examples.bogus_doc (clock Examples.fresh_store) with
  | Joi.VOk _ _ =>
      status resp = 200 /\
      exists doc, assoc "data" (Chat.body resp) = Some (JObj doc) /\
                  data_file w' = Some doc
  | Joi.VErr d _ =>
      status resp = 400 /\
      assoc "message" (Chat.body resp)
      = Some (JStr ("Validation error: " +:+ Joi.message d)) /\
      data_file w' = data_file Examples.fresh_store
  end.
Proof.
  assert (Hp : parsed Examples.bogus_doc = true) by reflexivity.
  split; [exact Hp|]. split; [vm_compute; reflexivity|].
  exact (put_root_answers_200_or_400 (P := Examples.test_platform)
           Examples.bogus_doc Examples.fresh_store Hp).
Defined.

Lemma get_section_unknown_is_404_witness :
  PersonalData.updateData (P := Examples.test_platform) (JObj []) Examples.fresh_store
  = (Ok (PersonalData.getAllData Examples.emptied_store), Examples.emptied_store) /\
  ~ In "health" known_keys /\
  ~ In "health" inherited_keys /\
  status (get_section "health" Examples.emptied_store) = 404.
Proof.
  assert (H : PersonalData.updateData (P := Examples.test_platform)
                (JObj []) Examples.fresh_store
              = (Ok (PersonalData.getAllData Examples.emptied_store),
                 Examples.emptied_store))
    by (vm_compute; reflexivity).
  assert (Hk : ~ In "health" known_keys)
    by (unfold known_keys; simpl; intuition discriminate).
  assert (Hi : ~ In "health" inherited_keys)
    by (unfold inherited_keys; simpl; intuition discriminate).
  split; [exact H|]. split; [exact Hk|]. split; [exact Hi|].
  exact (get_section_unknown_is_404 (P := Examples.test_platform)
           _ _ _ _ "health" H Hk Hi).
Defined.

(** ** More of the relevance search *)

Lemma assoc_add_relevant_eq k r fs :
  assoc k (add_relevant k r fs)
  = match r with
    | Some (x :: xs) => Some (JArr (x :: xs))
    | _ => assoc k fs
    end.
Proof.
  destruct r as [[|x xs]|]; try reflexivity. simpl add_relevant.
  apply assoc_set_field_eq.
Qed.

Lemma result_of_assoc d b c rs rp re :
  let r := result_of d b c rs rp re in
  let section := fun (x : option (list json)) =>
    match x with Some (y :: ys) => Some (JArr (y :: ys)) | _ => None end in
  assoc "biography" r = (if c then Some b else None) /\
  assoc "skills" r = section rs /\
  assoc "projects" r = section rp /\
  assoc "experience" r = section re /\
  assoc "preferences" r
  = (if truthy (assoc "preferences" d) then assoc "preferences" d else None).
Proof.
  cbv zeta. unfold result_of.
  destruct (truthy (assoc "preferences" d)) eqn:T.
  - rewrite !(assoc_set_field_ne _ "preferences") by discriminate.
    rewrite assoc_set_field_eq.
    repeat split.
    + rewrite !assoc_add_relevant_ne by discriminate. now destruct c.
    + rewrite !(assoc_add_relevant_ne "skills") by discriminate.
      rewrite assoc_add_relevant_eq. destruct rs as [[|? ?]|], c; reflexivity.
    + rewrite !(assoc_add_relevant_ne "projects" "experience") by discriminate.
      rewrite assoc_add_relevant_eq. destruct rp as [[|? ?]|]; try reflexivity;
        rewrite assoc_add_relevant_ne by discriminate; now destruct c.
    + rewrite assoc_add_relevant_eq. destruct re as [[|? ?]|]; try reflexivity;
        rewrite !assoc_add_relevant_ne by discriminate; now destruct c.
    + destruct (assoc "preferences" d); [reflexivity|discriminate].
  - repeat split.
    + rewrite !assoc_add_relevant_ne by discriminate. now destruct c.
    + rewrite !(assoc_add_relevant_ne "skills") by discriminate.
      rewrite assoc_add_relevant_eq. destruct rs as [[|? ?]|], c; reflexivity.
    + rewrite !(assoc_add_relevant_ne "projects" "experience") by discriminate.
      rewrite assoc_add_relevant_eq. destruct rp as [[|? ?]|]; try reflexivity;
        rewrite assoc_add_relevant_ne by discriminate; now destruct c.
    + rewrite assoc_add_relevant_eq. destruct re as [[|? ?]|]; try reflexivity;
        rewrite !assoc_add_relevant_ne by discriminate; now destruct c.
    + rewrite !assoc_add_relevant_ne by discriminate. now destruct c.
Qed.

Lemma filter_section_ok d k terms :
  filterable d k ->
  filter_section d k terms
  = Ok (match assoc k d with
        | Some (JArr all) =>
            Some (List.filter
                    (fun x => containsTerms (toLowerCase (JSON_stringify x)) terms) all)
        | _ => None
        end).
Proof.
  unfold filter_section. intros [->|[->|[all ->]]]; reflexivity.
Qed.

Lemma filter_section_filterable d k terms rs :
  filter_section d k terms = Ok rs -> filterable d k.
Proof.
  unfold filter_section, filterable.
  destruct (assoc k d) as [[| | | |all|]|]; try discriminate; eauto.
Qed.

(** The search of a stored document goes through exactly when the
    document has a biography and its three list sections can be
    filtered, whatever the query. *)
Lemma search_body_defined query d :
  (exists r, search_body query (JObj d) = Ok r) <->
  (exists b, assoc "biography" d = Some b) /\
  filterable d "skills" /\ filterable d "projects" /\ filterable d "experience".
Proof.
  split.
  - intros [r H]. apply search_body_ok in H as (b & rs & rp & re & Hb & Hs & Hp & He & _).
    split; [eauto|]. repeat split; eapply filter_section_filterable; eassumption.
  - intros ([b Hb] & Hs & Hp & He). unfold search_body.
    rewrite Hb. rewrite !filter_section_ok by assumption.
    destruct (containsTerms _ _); simpl; eauto.
Qed.

Lemma search_body_result query d r :
  search_body query (JObj d) = Ok r ->
  exists b,
    assoc "biography" d = Some b /\
    filterable d "skills" /\ filterable d "projects" /\ filterable d "experience" /\
    let section := fun k =>
      match assoc k d with
      | Some (JArr all) => Some (List.filter (matches query) all)
      | _ => None
      end in
    r = result_of d b (matches query b) (section "skills") (section "projects")
                  (section "experience").
Proof.
  intros H.
  pose proof (proj1 (search_body_defined query d) (ex_intro _ r H))
    as ([b Hb] & Hs & Hp & He).
  exists b. repeat (split; [assumption|]).
  apply search_body_ok in H as (b' & rs & rp & re & Hb' & Hs' & Hp' & He' & ->).
  rewrite filter_section_ok in Hs', Hp', He' by assumption.
  injection Hs' as <-. injection Hp' as <-. injection He' as <-.
  rewrite Hb in Hb'. injection Hb' as <-. reflexivity.
Qed.

(** A search that returns anything read a document that can be
    searched. *)
Lemma search_nonempty query w :
  searchRelevantData query w <> [] ->
  exists d b,
    data_file w = Some d /\ assoc "biography" d = Some b /\
    filterable d "skills" /\ filterable d "projects" /\ filterable d "experience".
Proof.
  unfold searchRelevantData. intros Hne.
  destruct (search_body query (getAllData w)) as [r|e] eqn:E; [|congruence].
  unfold getAllData in E. destruct (data_file w) as [d|]; [|discriminate].
  apply search_body_result in E as (b & Hb & Hs & Hp & He & _).
  exists d, b. auto.
Qed.

(** What a search returns under each key, in closed form. *)
Lemma search_lookup query w d b :
  data_file w = Some d -> assoc "biography" d = Some b ->
  filterable d "skills" -> filterable d "projects" -> filterable d "experience" ->
  let r := searchRelevantData query w in
  let section := fun k =>
    match assoc k d with
    | Some (JArr all) =>
        match List.filter (matches query) all with
        | [] => None
        | l => Some (JArr l)
        end
    | _ => None
    end in
  assoc "biography" r = (if matches query b then Some b else None) /\
  assoc "skills" r = section "skills" /\
  assoc "projects" r = section "projects" /\
  assoc "experience" r = section "experience" /\
  assoc "preferences" r
  = (if truthy (assoc "preferences" d) then assoc "preferences" d else None).
Proof.
  intros Hd Hb Hs Hp He. unfold searchRelevantData, getAllData. rewrite Hd.
  destruct (proj2 (search_body_defined query d)) as [r Hr]; [eauto 6|].
  rewrite Hr.
  apply search_body_result in Hr as (b' & Hb' & _ & _ & _ & ->).
  rewrite Hb in Hb'. injection Hb' as <-.
  cbv zeta.
  destruct (result_of_assoc d b (matches query b)
              (match assoc "skills" d with
               | Some (JArr all) => Some (List.filter (matches query) all) | _ => None end)
              (match assoc "projects" d with
               | Some (JArr all) => Some (List.filter (matches query) all) | _ => None end)
              (match assoc "experience" d with
               | Some (JArr all) => Some (List.filter (matches query) all) | _ => None end))
    as (H1 & H2 & H3 & H4 & H5).
  cbv zeta in H1, H2, H3, H4, H5.
  rewrite H1, H2, H3, H4, H5.
  split; [reflexivity|].
  split; [|split; [|split; [|reflexivity]]].
  - destruct (assoc "skills" d) as [[| | | |all|]|]; reflexivity.
  - destruct (assoc "projects" d) as [[| | | |all|]|]; reflexivity.
  - destruct (assoc "experience" d) as [[| | | |all|]|]; reflexivity.
Qed.

Lemma split_nonempty sep s : split sep s <> [].
Proof.
  destruct s as [|c s]; simpl; [discriminate|].
  destruct (Ascii.eqb c sep); [discriminate|].
  destruct (split sep s); discriminate.
Qed.

(** The pieces of two texts joined by a separator are the pieces of the
    one followed by the pieces of the other. *)
Lemma split_join sep a b :
  split sep (a +:+ String sep "" +:+ b) = split sep a ++ split sep b.
Proof.
  induction a as [|c a IH].
  - rewrite append_nil. rewrite append_cons, append_nil. simpl.
    now rewrite Ascii.eqb_refl.
  - rewrite append_cons. simpl. destruct (Ascii.eqb c sep).
    + now rewrite IH.
    + rewrite IH. destruct (split sep a) as [|t ts] eqn:E; [|reflexivity].
      now apply split_nonempty in E.
Qed.

Lemma matches_more q1 q2 x :
  matches q1 x = true ->
  matches (q1 +:+ " " +:+ q2) x = true /\ matches (q2 +:+ " " +:+ q1) x = true.
Proof.
  unfold matches, containsTerms. intros H.
  rewrite !toLowerCase_app. change (toLowerCase " ") with " ".
  rewrite !(split_join " "), !existsb_app, H.
  split; [reflexivity | apply orb_true_r].
Qed.

Lemma found_more (hit hit' : json -> bool) all x :
  (forall y, hit y = true -> hit' y = true) ->
  In x (List.filter hit all) ->
  In x (List.filter hit' all) /\ List.filter hit' all <> [].
Proof.
  intros Hh Hin. apply filter_In in Hin as [Hin Hx].
  assert (Hin' : In x (List.filter hit' all)) by (apply filter_In; auto).
  split; [exact Hin'|]. intros E. now rewrite E in Hin'.
Qed.

Lemma found_section (hit hit' : json -> bool) (d : list (string * json)) k
    (r r' : list (string * json)) x :
  (forall y, hit y = true -> hit' y = true) ->
  assoc k r = match assoc k d with
              | Some (JArr all) =>
                  match List.filter hit all with [] => None | l => Some (JArr l) end
              | _ => None
              end ->
  assoc k r' = match assoc k d with
               | Some (JArr all) =>
                   match List.filter hit' all with [] => None | l => Some (JArr l) end
               | _ => None
               end ->
  In x (found r k) -> In x (found r' k).
Proof.
  intros Hh E E'. unfold found. rewrite E, E'.
  destruct (assoc k d) as [[| | | |all|]|]; try contradiction.
  destruct (List.filter hit all) as [|y ys] eqn:F; [contradiction|].
  rewrite <- F. intros Hin.
  destruct (found_more hit hit' all x Hh Hin) as [Hin' Hne].
  destruct (List.filter hit' all) as [|z zs]; [congruence|exact Hin'].
Qed.

Lemma search_wider q q' w k x :
  (forall y, matches q y = true -> matches q' y = true) ->
  In x (found (searchRelevantData q w) k) ->
  In x (found (searchRelevantData q' w) k).
Proof.
  intros Hm Hin.
  assert (Hne : searchRelevantData q w <> []).
  { intros E. rewrite E in Hin. exact Hin. }
  destruct (search_nonempty q w Hne) as (d & b & Hd & Hb & Hs & Hp & He).
  destruct (search_lookup q w d b Hd Hb Hs Hp He) as (B1 & S1 & P1 & E1 & F1).
  destruct (search_lookup q' w d b Hd Hb Hs Hp He) as (B2 & S2 & P2 & E2 & F2).
  cbv zeta in *.
  destruct (String.eqb_spec k "skills") as [->|Ks];
    [eapply (found_section _ _ d); eauto|].
  destruct (String.eqb_spec k "projects") as [->|Kp];
    [eapply (found_section _ _ d); eauto|].
  destruct (String.eqb_spec k "experience") as [->|Ke];
    [eapply (found_section _ _ d); eauto|].
  destruct (String.eqb_spec k "preferences") as [->|Kf].
  { unfold found in *. now rewrite F2, <- F1. }
  destruct (String.eqb_spec k "biography") as [->|Kb].
  { unfold found in *. rewrite B1 in Hin. rewrite B2.
    destruct (matches q b) eqn:M; [|contradiction].
    now rewrite (Hm _ M). }
  unfold found in Hin. rewrite search_keys in Hin; [contradiction|].
  unfold searched. simpl. intuition congruence.
Qed.

(** X13. A query with more words finds no less: what a search returns
    under a key for a query, it returns under that key for the query
    with further words put before or after it, a space in between. *)
Theorem search_monotone q1 q2 w k x :
  In x (found (searchRelevantData q1 w) k) ->
  In x (found (searchRelevantData (q1 +:+ " " +:+ q2) w) k) /\
  In x (found (searchRelevantData (q2 +:+ " " +:+ q1) w) k).
Proof.
  intros H. split; (eapply search_wider; [|exact H]); intros y Hy;
    apply (matches_more q1 q2 y Hy).
Qed.

Lemma forallb_filter_self {A} (hit : A -> bool) xs :
  forallb hit (List.filter hit xs) = true.
Proof.
  induction xs as [|x xs IH]; [reflexivity|]. simpl.
  destruct (hit x) eqn:E; [simpl; now rewrite E|exact IH].
Qed.

Lemma result_of_units (hit : json -> bool) d b c rs rp re :
  (c = true -> hit b = true) ->
  (forall l, rs = Some l -> forallb hit l = true) ->
  (forall l, rp = Some l -> forallb hit l = true) ->
  (forall l, re = Some l -> forallb hit l = true) ->
  forallb hit (units (result_of d b c rs rp re)) = true.
Proof.
  intros Hc Hs Hp He. unfold result_of.
  assert (Fb : if c then hit b = true else True) by (destruct c; auto).
  assert (Fs : match rs with Some l => forallb hit l = true | None => True end)
    by (destruct rs; auto).
  assert (Fp : match rp with Some l => forallb hit l = true | None => True end)
    by (destruct rp; auto).
  assert (Fe : match re with Some l => forallb hit l = true | None => True end)
    by (destruct re; auto).
  clear Hc Hs Hp He.
  destruct c, rs as [[|y1 l1]|], rp as [[|y2 l2]|], re as [[|y3 l3]|],
    (truthy (assoc "preferences" d));
    cbn in Fs, Fp, Fe;
    try (apply andb_true_iff in Fs as [Hy1 Hl1]);
    try (apply andb_true_iff in Fp as [Hy2 Hl2]);
    try (apply andb_true_iff in Fe as [Hy3 Hl3]);
    cbn;
    repeat first
      [ progress rewrite ?app_nil_r, ?forallb_app
      | progress cbn [forallb andb]
      | match goal with
        | H : hit _ = true |- _ => progress rewrite H
        | H : forallb hit _ = true |- _ => progress rewrite H
        end ];
    reflexivity.
Qed.


Lemma result_of_keys d b c rs rp re :
  sublist (List.map fst (result_of d b c rs rp re)) searched.
Proof.
  unfold result_of, searched.
  destruct c, rs as [[|y1 l1]|], rp as [[|y2 l2]|], re as [[|y3 l3]|],
    (truthy (assoc "preferences" d)); cbn;
    repeat first [apply sublist_nil | apply sublist_skip | apply sublist_cons].
Qed.

Lemma search_keys_in_order query w :
  sublist (List.map fst (searchRelevantData query w)) searched.
Proof.
  unfold searchRelevantData.
  destruct (search_body query (getAllData w)) as [r|e] eqn:E.
  - unfold getAllData in E. destruct (data_file w) as [d|]; [|discriminate].
    apply search_body_result in E as (b & _ & _ & _ & _ & ->).
    apply result_of_keys.
  - unfold searched. repeat apply sublist_cons. apply sublist_nil.
Qed.

(** X15. [POST /preview] with a message that is not empty answers 200;
    [sections] lists the keys of the relevant data, which come in the
    order biography, skills, projects, experience, preferences, each at
    most once and no other; [dataFound] says whether there is one. *)
Theorem post_preview_sections message sv :
  message <> "" ->
  let resp := post_preview message sv in
  let ks := List.map fst (searchRelevantData message (personal sv)) in
  status resp = 200 /\
  assoc "sections" (body resp) = Some (JArr (List.map JStr ks)) /\
  assoc "dataFound" (body resp)
  = Some (JBool (match ks with [] => false | _ => true end)) /\
  sublist ks searched.
Proof.
  intros Hm. cbv zeta. unfold post_preview.
  apply String.eqb_neq in Hm. rewrite Hm. simpl.
  split; [reflexivity|]. split; [now rewrite List.map_map|].
  split; [|apply search_keys_in_order].
  now destruct (searchRelevantData message (personal sv)).
Qed.

(** X16. A search of a profile that cannot be read, or that has no
    [biography], returns nothing, whatever the query: not the matching
    entries of the list sections, and not the preferences. *)
Theorem search_without_biography_is_empty query w :
  (forall d, data_file w = Some d -> assoc "biography" d = None) ->
  searchRelevantData query w = [].
Proof.
  intros H. unfold searchRelevantData, getAllData.
  destruct (data_file w) as [d|]; [|reflexivity].
  unfold search_body. now rewrite (H d eq_refl).
Qed.

Lemma search_monotone_witness :
  let w := Examples.react_store in
  In Examples.react_skill (found (PersonalData.searchRelevantData "react" w) "skills") /\
  In Examples.react_skill
     (found (PersonalData.searchRelevantData ("react" +:+ " " +:+ "java") w) "skills") /\
  In Examples.react_skill
     (found (PersonalData.searchRelevantData ("java" +:+ " " +:+ "react") w) "skills").
Proof.
  intros w.
  assert (H : In Examples.react_skill
                 (found (PersonalData.searchRelevantData "react" w) "skills"))
    by (vm_compute; tauto).
  split; [exact H|].
  exact (search_monotone "react" "java" w "skills" Examples.react_skill H).
Defined.

Lemma search_without_biography_is_empty_witness :
  let w := Examples.emptied_store in
  (forall d, PersonalData.data_file w = Some d -> assoc "biography" d = None) /\
  PersonalData.searchRelevantData "anything" w = [].
Proof.
  intros w.
  assert (H : forall d, PersonalData.data_file w = Some d -> assoc "biography" d = None).
  { intros d Hd. vm_compute in Hd. injection Hd as <-. reflexivity. }
  split; [exact H|].
  exact (search_without_biography_is_empty "anything" w H).
Defined.

Lemma post_preview_sections_witness :
  let sv := Examples.live_server in
  let resp := post_preview "hello there" sv in
  let ks := List.map fst (PersonalData.searchRelevantData "hello there" (personal sv)) in
  "hello there" <> "" /\
  status resp = 200 /\
  assoc "sections" (body resp) = Some (JArr (List.map JStr ks)) /\
  assoc "dataFound" (body resp)
  = Some (JBool (match ks with [] => false | _ => true end)) /\
  sublist ks searched.
Proof.
  intros sv resp ks.
  assert (H : "hello there" <> "") by discriminate.
  split; [exact H|].
  exact (post_preview_sections "hello there" sv H).
Defined.

(** ** The sessions of the chat router *)

Section Sessions.
Context `{P : Platform}.

Lemma get_context_alloc xs sv s :
  well_formed sv -> get_context s (snd (alloc xs sv)) = get_context s sv.
Proof.
  intros [Hlt _]. unfold get_context, alloc, deref. simpl.
  destruct (chatContexts sv !! s) as [r|] eqn:E; [|reflexivity].
  specialize (Hlt _ _ E). rewrite lookup_insert_ne by lia. reflexivity.
Qed.

Lemma update_domain sid u a sv s :
  is_Some (chatContexts (updateChatContext sid u a sv) !! s)
  <-> s = sid \/ is_Some (chatContexts sv !! s).
Proof.
  destruct (update_shape sid u a sv) as [[(Hm & _ & Hs)|(Hm & _)] _]; rewrite Hm.
  - split; [auto|]. intros [->|Hx]; assumption.
  - rewrite lookup_insert. case_decide; subst.
    + split; eauto.
    + split; [auto|]. intros [->|Hx]; [congruence|assumption].
Qed.

Lemma update_personal sid u a sv :
  personal (updateChatContext sid u a sv) = personal sv.
Proof.
  unfold updateChatContext.
  destruct (chatContexts sv !! sid) as [r|] eqn:E.
  - rewrite E. cbv zeta.
    match goal with |- context [if ?b then _ else _] => destruct b end; reflexivity.
  - unfold alloc, set_contexts, set_arrays, deref. simpl.
    repeat (rewrite lookup_insert_eq; simpl). reflexivity.
Qed.

(** The two ways a request ends: nothing changes for any session, or the
    model answered and the exchange went to the session's window. *)
Lemma post_chat_cases req sv :
  well_formed sv ->
  let sid := default "default" (sessionId req) in
  let resp := fst (post_chat req sv) in
  let sv' := snd (post_chat req sv) in
  personal sv' = personal sv /\
  (((status resp <> 200 \/ unconfigured sv = true) /\
    chatContexts sv' = chatContexts sv /\
    forall s, get_context s sv' = get_context s sv) \/
   (exists text,
      unconfigured sv = false /\ status resp = 200 /\
      assoc "response" (body resp) = Some (JStr text) /\
      get_context sid sv' = most_recent 10 (get_context sid sv ++ exchange (message req) text) /\
      (forall s, s <> sid -> get_context s sv' = get_context s sv) /\
      (forall s, is_Some (chatContexts sv' !! s)
                 <-> s = sid \/ is_Some (chatContexts sv !! s)))).
Proof.
  intros Hwf. cbv zeta. unfold post_chat.
  destruct (String.eqb (message req) "").
  { simpl. split; [reflexivity|]. left. repeat split; auto. }
  destruct (unconfigured sv) eqn:Eu.
  { simpl. split; [reflexivity|]. left. repeat split; auto. }
  set (sid := default "default" (sessionId req)).
  set (ctx := if default true (includePersonalContext req) then _ else _).
  assert (Hsv1 : exists r sv1,
             (match chatContexts sv !! sid with
              | Some r => (r, sv)
              | None => alloc [] sv
              end) = (r, sv1) /\
             well_formed sv1 /\ personal sv1 = personal sv /\
             chatContexts sv1 = chatContexts sv /\
             forall s, get_context s sv1 = get_context s sv).
  { destruct (chatContexts sv !! sid) as [r|] eqn:E.
    - exists r, sv. repeat split; auto; apply Hwf.
    - exists (next_ref sv), (snd (alloc [] sv)).
      split; [reflexivity|]. split; [now apply alloc_well_formed|].
      split; [reflexivity|]. split; [reflexivity|].
      intros s. now apply get_context_alloc. }
  destruct Hsv1 as (r & sv1 & -> & Hwf1 & Hp1 & Hm1 & Hg1).
  destruct (createPersonalizedPrompt (message req) ctx (deref sv1 r)) as [prompt|e];
    simpl.
  2:{ split; [exact Hp1|]. left. split; [|split; assumption].
      left. unfold error_response.
      repeat match goal with |- context [if ?b then _ else _] => destruct b end;
        simpl; discriminate. }
  destruct (generateContent prompt) as [text|e]; simpl.
  2:{ split; [exact Hp1|]. left. split; [|split; assumption].
      left. unfold error_response.
      repeat match goal with |- context [if ?b then _ else _] => destruct b end;
        simpl; discriminate. }
  split; [now rewrite update_personal|].
  right. exists text. split; [reflexivity|]. split; [reflexivity|].
  split; [reflexivity|].
  split; [now rewrite get_context_update, Hg1|].
  split.
  - intros s Hs. rewrite get_context_update_other by auto. apply Hg1.
  - intros s. rewrite update_domain, Hm1. reflexivity.
Qed.


Lemma turns_app l1 l2 : turns (l1 ++ l2) = turns l1 ++ turns l2.
Proof. unfold turns. apply flat_map_app. Qed.

Lemma turns_length l : List.length (turns l) = 2 * List.length l.
Proof. induction l as [|e l IH]; [reflexivity|]. unfold turns in *. simpl. rewrite IH. lia. Qed.

Lemma skipn_turns k l : skipn (2 * k) (turns l) = turns (skipn k l).
Proof.
  revert l. induction k as [|k IH]; intros l; [reflexivity|].
  destruct l as [|e l]; [reflexivity|].
  replace (2 * S k) with (S (S (2 * k))) by lia.
  change (turns (e :: l)) with (exchange (fst e) (snd e) ++ turns l).
  simpl. apply IH.
Qed.

Lemma most_recent_turns n l :
  most_recent (2 * n) (turns l) = turns (most_recent n l).
Proof.
  unfold most_recent. rewrite turns_length.
  replace (2 * List.length l - 2 * n) with (2 * (List.length l - n)) by lia.
  apply skipn_turns.
Qed.

Lemma get_context_clear_other sid s sv :
  s <> sid -> get_context s (clear_context sid sv) = get_context s sv.
Proof.
  intros Hne. unfold get_context, clear_context, set_contexts, deref. simpl.
  rewrite lookup_delete_ne by congruence. reflexivity.
Qed.

Lemma reachable_invariant sv :
  reachable sv -> well_formed sv /\ whole_exchanges sv.
Proof.
  induction 1 as [sv E | sid u a sv Hr [Hwf Hwh] | sid0 sv Hr [Hwf Hwh]
                 | xs sv Hr [Hwf Hwh]].
  - split; [now apply well_formed_empty|].
    intros sid. exists []. split; [simpl; lia|].
    unfold get_context. rewrite E, lookup_empty. split; [reflexivity|].
    split; [intros [x Hx]; discriminate | congruence].
  - split; [now apply update_well_formed|].
    intros sid'. destruct (Hwh sid') as (log & Hl & Hc & Hs).
    destruct (decide (sid' = sid)) as [->|Hne].
    + exists (most_recent 5 (log ++ [(u, a)])).
      split; [rewrite most_recent_length; lia|].
      split.
      * rewrite get_context_update, Hc. change 10 with (2 * 5).
        rewrite <- most_recent_turns, turns_app. reflexivity.
      * rewrite update_domain. split; [intros _ | auto].
        intros E. apply (f_equal (@List.length _)) in E.
        rewrite most_recent_length, length_app in E.
        cbn -[Nat.min] in E. lia.
    + exists log. rewrite get_context_update_other by auto.
      split; [assumption|]. split; [assumption|]. rewrite update_domain, <- Hs.
      split; [intros [?|?]; [contradiction|assumption] | auto].
  - split; [now apply clear_context_well_formed|].
    intros sid.
    destruct (decide (sid = sid0)) as [->|Hne].
    + exists []. split; [simpl; lia|]. rewrite get_context_clear.
      split; [reflexivity|].
      unfold clear_context, set_contexts. simpl. rewrite lookup_delete_eq.
      split; [intros [x Hx]; discriminate | congruence].
    + destruct (Hwh sid) as (log & Hl & Hc & Hs). exists log.
      rewrite get_context_clear_other by assumption.
      unfold clear_context, set_contexts. simpl.
      rewrite lookup_delete_ne by congruence. auto.
  - split; [now apply alloc_well_formed|].
    intros sid. destruct (Hwh sid) as (log & Hl & Hc & Hs). exists log.
    rewrite get_context_alloc by assumption. auto.
Qed.

(** The handlers go from state to state of the router. *)
Lemma post_chat_reachable req sv :
  reachable sv -> reachable (snd (post_chat req sv)).
Proof.
  intros Hr. unfold post_chat.
  destruct (String.eqb (message req) ""); [exact Hr|].
  destruct (unconfigured sv); [exact Hr|].
  set (ctx := if default true (includePersonalContext req) then _ else _).
  destruct (chatContexts sv !! default "default" (sessionId req)) as [r|].
  - destruct (createPersonalizedPrompt (message req) ctx (deref sv r)) as [prompt|e];
      simpl; [|exact Hr].
    destruct (generateContent prompt) as [text|e]; simpl; [|exact Hr].
    now apply reachable_append.
  - pose proof (reachable_alloc [] sv Hr) as Hr1.
    change (alloc [] sv) with (next_ref sv, snd (alloc [] sv)). cbv iota beta.
    destruct (createPersonalizedPrompt (message req) ctx
                (deref (snd (alloc [] sv)) (next_ref sv))) as [prompt|e];
      simpl; [|exact Hr1].
    destruct (generateContent prompt) as [text|e]; simpl; [|exact Hr1].
    now apply reachable_append.
Qed.

Lemma post_context_reachable sessionId action sv :
  reachable sv -> reachable (snd (post_context sessionId action sv)).
Proof.
  intros Hr. unfold post_context.
  destruct (String.eqb (default "get" action) "clear"); simpl;
    [now apply reachable_delete | exact Hr].
Qed.

(** X17. In every state the router reaches, however the requests
    interleave, the window of a session is a sequence of at most five
    whole exchanges, each a user turn followed by the assistant's: the
    cut to ten turns never splits an exchange; and the sessions
    [chatContexts] holds are those whose window is not empty. *)
Theorem reachable_windows_hold_whole_exchanges sv sid :
  reachable sv ->
  exists log,
    List.length log <= 5 /\
    get_context sid sv = turns log /\
    (is_Some (chatContexts sv !! sid) <-> log <> []).
Proof. intros H. apply (reachable_invariant sv H). Qed.

(** X18. A chat request that the model answered (status 200 outside
    the demo mode) puts the exchange, the message and then the text of
    the response, at the end of the window of its session and keeps the
    ten most recent turns; the windows of the other sessions and the
    stored profile stay as they were. *)
Theorem post_chat_records_exchange req sv :
  well_formed sv -> unconfigured sv = false ->
  status (fst (post_chat req sv)) = 200 ->
  let sid := default "default" (sessionId req) in
  let sv' := snd (post_chat req sv) in
  exists text,
    assoc "response" (body (fst (post_chat req sv))) = Some (JStr text) /\
    get_context sid sv'
    = most_recent 10 (get_context sid sv ++ exchange (message req) text) /\
    (forall s, s <> sid -> get_context s sv' = get_context s sv) /\
    personal sv' = personal sv.
Proof.
  intros Hwf Hu Hs. cbv zeta.
  destruct (post_chat_cases req sv Hwf) as [Hp [([Hn|Hn] & _)|(text & _ & _ & Hr & Hg & Ho & _)]].
  - contradiction.
  - congruence.
  - exists text. auto.
Qed.

(** X19. A chat request that is not answered with status 200, or that
    is answered in the demo mode, leaves the session map, the window of
    every session and the stored profile as they were. *)
Theorem post_chat_failure_keeps_windows req sv :
  well_formed sv ->
  status (fst (post_chat req sv)) <> 200 \/ unconfigured sv = true ->
  let sv' := snd (post_chat req sv) in
  chatContexts sv' = chatContexts sv /\
  (forall s, get_context s sv' = get_context s sv) /\
  personal sv' = personal sv.
Proof.
  intros Hwf Hn. cbv zeta.
  destruct (post_chat_cases req sv Hwf) as [Hp [(_ & Hm & Hg)|(text & Hu & Hs & _)]].
  - auto.
  - destruct Hn; congruence.
Qed.

(** X20. [POST /context]: after the action [clear] for a session, any
    other action for it answers with an empty context of length 0 and
    changes nothing, a second [clear] changes nothing, and what is
    answered for the other sessions is what was answered before. *)
Theorem post_context_clear_then_get sessionId action sv :
  action <> Some "clear" ->
  let sid := default "default" sessionId in
  let cleared := snd (post_context sessionId (Some "clear") sv) in
  fst (post_context sessionId action cleared)
  = {| status := 200;
       body := [ ("success", JBool true); ("sessionId", JStr sid);
                 ("context", JArr []); ("length", JNum "0");
                 ("message", JStr "Chat context retrieved") ] |} /\
  snd (post_context sessionId action cleared) = cleared /\
  snd (post_context sessionId (Some "clear") cleared) = cleared /\
  (forall other,
     default "default" other <> sid ->
     fst (post_context other action cleared) = fst (post_context other action sv)).
Proof.
  intros Ha. cbv zeta.
  assert (Hget : String.eqb (default "get" action) "clear" = false).
  { destruct action as [a|]; [|reflexivity]. simpl.
    apply String.eqb_neq. congruence. }
  assert (Hq : forall o sv0,
             post_context o action sv0
             = ({| status := 200;
                   body := [ ("success", JBool true);
                             ("sessionId", JStr (default "default" o));
                             ("context",
                               JArr (List.map turn_json
                                       (get_context (default "default" o) sv0)));
                             ("length",
                               JNum (string_of_nat
                                       (List.length
                                          (get_context (default "default" o) sv0))));
                             ("message", JStr "Chat context retrieved") ] |}, sv0)).
  { intros o sv0. unfold post_context. now rewrite Hget. }
  change (snd (post_context sessionId (Some "clear") sv))
    with (clear_context (default "default" sessionId) sv).
  rewrite !Hq. simpl. rewrite get_context_clear.
  split; [reflexivity|]. split; [reflexivity|]. split.
  - unfold clear_context, set_contexts. simpl. now rewrite delete_delete_eq.
  - intros other Hne. rewrite !Hq. simpl.
    rewrite get_context_clear_other by assumption. reflexivity.
Qed.

(** X21. The health routes and the chat handler agree on the demo
    mode: [geminiConfigured] is the negation of the test the chat
    handler makes, so a request with a message gets the demo answer
    exactly when the health routes report that no key is configured. *)
Theorem geminiConfigured_iff_not_demo req sv :
  message req <> "" ->
  geminiConfigured sv = negb (unconfigured sv) /\
  (assoc "isDemo" (body (fst (post_chat req sv))) = Some (JBool true)
   <-> geminiConfigured sv = false).
Proof.
  intros Hm.
  assert (Hg : geminiConfigured sv = negb (unconfigured sv)).
  { unfold geminiConfigured, unconfigured.
    destruct (GEMINI_API_KEY sv) as [k|]; [|reflexivity].
    now rewrite negb_orb. }
  split; [exact Hg|]. rewrite Hg.
  destruct (unconfigured sv) eqn:Eu; simpl.
  - rewrite post_chat_demo by assumption. simpl. split; reflexivity.
  - split; [|discriminate]. intros Hd. exfalso. revert Hd.
    unfold post_chat. apply String.eqb_neq in Hm. rewrite Hm, Eu.
    destruct (chatContexts sv !! default "default" (sessionId req)); simpl;
    match goal with |- context [bind ?c _] => destruct c as [prompt|e] end; simpl;
    try match goal with |- context [generateContent ?p] =>
          destruct (generateContent p) as [text|e] end; simpl;
    try discriminate;
    unfold error_response;
    repeat match goal with |- context [if ?b then _ else _] => destruct b end;
    simpl; discriminate.
Qed.

(** X22. On a profile that is well shaped (arrays without [null]
    entries for the list sections, arrays where the template joins, no
    object with a [toString] property of its own where it prints), as
    every whole-document write leaves it, or that cannot be read, a chat
    request with a message is answered with status 200 whenever a key is
    configured and the model answers: composing the prompt does not
    fail. *)
Theorem post_chat_answers_when_model_does req sv :
  (forall d, data_file (personal sv) = Some d -> well_shaped d = true) ->
  unconfigured sv = false ->
  message req <> "" ->
  (forall prompt, exists text, generateContent prompt = Ok text) ->
  status (fst (post_chat req sv)) = 200.
Proof.
  intros Hshape Hu Hm Hmodel. unfold post_chat.
  apply String.eqb_neq in Hm. rewrite Hm, Hu.
  set (ctx := if default true (includePersonalContext req) then _ else _).
  assert (Hctx : well_shaped ctx = true).
  { subst ctx. destruct (default true (includePersonalContext req)); [|reflexivity].
    destruct (data_file (personal sv)) as [d|] eqn:Hd.
    - eapply search_well_shaped; eauto.
    - unfold searchRelevantData, getAllData. rewrite Hd. reflexivity. }
  destruct (chatContexts sv !! default "default" (sessionId req)) as [r|];
    simpl; rewrite (createPersonalizedPrompt_ok _ _ _ Hctx); simpl;
    match goal with |- context [generateContent ?p] =>
      destruct (Hmodel p) as [text ->] end; reflexivity.
Qed.

End Sessions.

Lemma reachable_windows_hold_whole_exchanges_witness :
  let sv := Examples.after_requests 6 in
  reachable sv /\
  exists log,
    List.length log <= 5 /\
    get_context "s1" sv = turns log /\
    (is_Some (chatContexts sv !! "s1") <-> log <> []).
Proof.
  intros sv.
  assert (H : reachable sv).
  { subst sv. cbn [Examples.after_requests].
    do 6 apply (post_chat_reachable (P := Examples.test_platform)).
    apply reachable_start. reflexivity. }
  split; [exact H|].
  exact (reachable_windows_hold_whole_exchanges sv "s1" H).
Defined.

Lemma post_chat_records_exchange_witness :
  let req := Examples.ask "s1" "hi" in
  let sv := Examples.live_server in
  let sv' := snd (post_chat (P := Examples.test_platform) req sv) in
  well_formed sv /\ unconfigured sv = false /\
  status (fst (post_chat (P := Examples.test_platform) req sv)) = 200 /\
  exists text,
    assoc "response" (body (fst (post_chat (P := Examples.test_platform) req sv)))
    = Some (JStr text) /\
    get_context "s1" sv'
    = most_recent 10 (get_context "s1" sv ++ exchange "hi" text) /\
    (forall s, s <> "s1" -> get_context s sv' = get_context s sv) /\
    personal sv' = personal sv.
Proof.
  intros req sv sv'.
  assert (Hwf : well_formed sv) by (apply well_formed_empty; reflexivity).
  assert (Hu : unconfigured sv = false) by reflexivity.
  assert (Hs : status (fst (post_chat (P := Examples.test_platform) req sv)) = 200)
    by (vm_compute; reflexivity).
  split; [exact Hwf|]. split; [exact Hu|]. split; [exact Hs|].
  exact (post_chat_records_exchange (P := Examples.test_platform) req sv Hwf Hu Hs).
Defined.

Lemma post_chat_failure_keeps_windows_witness :
  let req := Examples.ask "s1" "hi" in
  let sv := Examples.after_requests 2 in
  let sv' := snd (post_chat (P := Examples.quota_platform) req sv) in
  well_formed sv /\
  status (fst (post_chat (P := Examples.quota_platform) req sv)) = 429 /\
  chatContexts sv' = chatContexts sv /\
  (forall s, get_context s sv' = get_context s sv) /\
  personal sv' = personal sv.
Proof.
  intros req sv sv'.
  assert (Hwf : well_formed sv).
  { subst sv. cbn [Examples.after_requests].
    do 2 apply (post_chat_well_formed (P := Examples.test_platform)).
    apply well_formed_empty. reflexivity. }
  assert (Hs : status (fst (post_chat (P := Examples.quota_platform) req sv)) = 429)
    by (vm_compute; reflexivity).
  split; [exact Hwf|]. split; [exact Hs|].
  refine (post_chat_failure_keeps_windows (P := Examples.quota_platform)
            req sv Hwf (or_introl _)).
  rewrite Hs. discriminate.
Defined.

Lemma post_context_clear_then_get_witness :
  let sv := Examples.after_requests 2 in
  let cleared := snd (post_context (Some "s1") (Some "clear") sv) in
  get_context "s1" sv = exchange "hi" "Hi" ++ exchange "hi" "Hi" /\
  fst (post_context (Some "s1") None cleared)
  = {| status := 200;
       body := [ ("success", JBool true); ("sessionId", JStr "s1");
                 ("context", JArr []); ("length", JNum "0");
                 ("message", JStr "Chat context retrieved") ] |} /\
  snd (post_context (Some "s1") None cleared) = cleared /\
  snd (post_context (Some "s1") (Some "clear") cleared) = cleared /\
  (forall other,
     default "default" other <> "s1" ->
     fst (post_context other None cleared) = fst (post_context other None sv)).
Proof.
  intros sv cleared.
  split; [vm_compute; reflexivity|].
  refine (post_context_clear_then_get (Some "s1") None sv _).
  discriminate.
Defined.

Lemma geminiConfigured_iff_not_demo_witness :
  let req := Examples.ask "s1" "hi" in
  let sv := Examples.demo_server in
  message req <> "" /\
  geminiConfigured sv = negb (unconfigured sv) /\
  (assoc "isDemo" (body (fst (post_chat (P := Examples.test_platform) req sv)))
   = Some (JBool true)
   <-> geminiConfigured sv = false).
Proof.
  intros req sv.
  assert (H : message req <> "") by discriminate.
  split; [exact H|].
  exact (geminiConfigured_iff_not_demo (P := Examples.test_platform) req sv H).
Defined.

Lemma post_chat_answers_when_model_does_witness :
  let req := Examples.ask "s1" "hi" in
  let sv := Examples.live_server in
  (forall d, PersonalData.data_file (personal sv) = Some d -> well_shaped d = true) /\
  unconfigured sv = false /\
  message req <> "" /\
  (forall prompt, exists text,
      generateContent (Platform := Examples.test_platform) prompt = Ok text) /\
  status (fst (post_chat (P := Examples.test_platform) req sv)) = 200.
Proof.
  intros req sv.
  assert (H1 : forall d, PersonalData.data_file (personal sv) = Some d ->
                         well_shaped d = true).
  { intros d Hd. vm_compute in Hd. injection Hd as <-. reflexivity. }
  assert (H2 : unconfigured sv = false) by reflexivity.
  assert (H3 : message req <> "") by discriminate.
  assert (H4 : forall prompt, exists text,
               generateContent (Platform := Examples.test_platform) prompt = Ok text)
    by (intros prompt; exists "Hi"; reflexivity).
  split; [exact H1|]. split; [exact H2|]. split; [exact H3|]. split; [exact H4|].
  exact (post_chat_answers_when_model_does (P := Examples.test_platform)
           req sv H1 H2 H3 H4).
Defined.

(** ** What the prompt reads *)

Lemma length_set_field k v fs :
  is_Some (assoc k fs) -> List.length (set_field k v fs) = List.length fs.
Proof.
  induction fs as [|[k' v'] fs IH]; simpl.
  - intros [x Hx]. discriminate.
  - destruct (String.eqb k k'); [reflexivity|]. intros H. simpl. now rewrite IH.
Qed.

Lemma cap_section_length k n ctx :
  List.length (cap_section k n ctx) = List.length ctx.
Proof.
  unfold cap_section. destruct (assoc k ctx) as [[| | | |xs|]|] eqn:E; try reflexivity.
  apply length_set_field. rewrite E. eauto.
Qed.

Lemma cap_section_other k k' n ctx :
  k' <> k -> assoc k' (cap_section k n ctx) = assoc k' ctx.
Proof.
  intros Hne. unfold cap_section.
  destruct (assoc k ctx) as [[| | | |xs|]|]; try reflexivity.
  now apply assoc_set_field_ne.
Qed.

Lemma most_recent_idem {A} n (xs : list A) :
  most_recent n (most_recent n xs) = most_recent n xs.
Proof. apply most_recent_short. rewrite most_recent_length. lia. Qed.

Section Reads.
Context `{P : Platform}.

Lemma list_block_other k k' n ctx header cap render prompt :
  k' <> k ->
  list_block (cap_section k n ctx) k' header cap render prompt
  = list_block ctx k' header cap render prompt.
Proof. intros Hne. unfold list_block. now rewrite cap_section_other. Qed.

Lemma list_block_capped_same k n ctx header render prompt :
  0 < n ->
  list_block (cap_section k n ctx) k header (Some (Z.of_nat n)) render prompt
  = list_block ctx k header (Some (Z.of_nat n)) render prompt.
Proof.
  intros Hn. unfold list_block, cap_section.
  destruct (assoc k ctx) as [v|] eqn:E; [|now rewrite E].
  destruct v as [| | | |xs|]; try (now rewrite E).
  rewrite assoc_set_field_eq. simpl.
  rewrite !slice_first, firstn_firstn, Nat.min_id.
  destruct xs as [|x xs]; [destruct n; reflexivity|].
  destruct n as [|n]; [lia|]. reflexivity.
Qed.

Lemma bind_ext {A B} (c : result A) (k k' : A -> result B) :
  (forall a, k a = k' a) -> bind c k = bind c k'.
Proof. intros H. destruct c; simpl; [apply H | reflexivity]. Qed.

Lemma createPersonalizedPrompt_cap_section k n userMessage ctx history :
  (k = "projects" /\ n = 5) \/ (k = "experience" /\ n = 3) ->
  createPersonalizedPrompt userMessage (cap_section k n ctx) history
  = createPersonalizedPrompt userMessage ctx history.
Proof.
  intros Hk. unfold createPersonalizedPrompt.
  rewrite cap_section_length. f_equal.
  destruct (0 <? List.length ctx)%nat; [|reflexivity].
  assert (Hb : forall p, biography_block (cap_section k n ctx) p = biography_block ctx p).
  { intros p. unfold biography_block. rewrite cap_section_other; [reflexivity|].
    destruct Hk as [[-> _]|[-> _]]; discriminate. }
  assert (Hp : forall p, preferences_block (cap_section k n ctx) p = preferences_block ctx p).
  { intros p. unfold preferences_block. rewrite cap_section_other; [reflexivity|].
    destruct Hk as [[-> _]|[-> _]]; discriminate. }
  rewrite Hb. apply bind_ext. intros p0.
  rewrite (list_block_other k "skills")
    by (destruct Hk as [[-> _]|[-> _]]; discriminate).
  apply bind_ext. intros p1.
  destruct Hk as [[-> ->]|[-> ->]].
  - change 5%Z with (Z.of_nat 5). rewrite list_block_capped_same by lia.
    apply bind_ext. intros p2.
    rewrite (list_block_other "projects" "experience") by discriminate.
    apply bind_ext. intros p3. apply Hp.
  - rewrite (list_block_other "experience" "projects") by discriminate.
    apply bind_ext. intros p2.
    change 3%Z with (Z.of_nat 3). rewrite list_block_capped_same by lia.
    apply bind_ext. intros p3. apply Hp.
Qed.

Lemma createPersonalizedPrompt_recent userMessage ctx history :
  createPersonalizedPrompt userMessage ctx (most_recent 4 history)
  = createPersonalizedPrompt userMessage ctx history.
Proof.
  unfold createPersonalizedPrompt.
  apply bind_ext. intros p. f_equal.
  rewrite most_recent_length.
  change (-4)%Z with (- Z.of_nat 4)%Z. rewrite !slice_last by lia.
  rewrite most_recent_idem.
  destruct history as [|x xs]; [reflexivity|].
  replace (0 <? 4 `min` List.length (x :: xs))%nat with true; [reflexivity|].
  symmetry. apply Nat.ltb_lt. simpl List.length. lia.
Qed.

(** X23. The prompt reads no project after the fifth, no experience
    after the third and no turn before the last four: it is the prompt
    of the relevant data and of the history cut to these, whatever they
    hold, and whether composing succeeds or throws. *)
Theorem createPersonalizedPrompt_reads_capped userMessage ctx history :
  createPersonalizedPrompt userMessage (capped ctx) (most_recent 4 history)
  = createPersonalizedPrompt userMessage ctx history.
Proof.
  unfold capped.
  rewrite createPersonalizedPrompt_recent.
  rewrite createPersonalizedPrompt_cap_section by auto.
  apply createPersonalizedPrompt_cap_section. auto.
Qed.

End Reads.

(** ** The frame of the prompt, and what the handler does not read *)

Lemma includes_app_l a b x : includes a x = true -> includes (a +:+ b) x = true.
Proof.
  intros H. apply includes_spec in H as (before & after & ->).
  apply includes_spec. exists before, (after +:+ b).
  now rewrite !append_assoc.
Qed.

Lemma includes_join sep xs s : In s xs -> includes (join sep xs) s = true.
Proof.
  induction xs as [|x xs IH]; [contradiction|]. intros [->|Hin].
  - destruct xs as [|y ys]; simpl.
    + rewrite <- (append_nil_r s) at 1. apply includes_here.
    + apply includes_here.
  - destruct xs as [|y ys]; [contradiction|].
    change (join sep (x :: y :: ys)) with (x +:+ sep +:+ join sep (y :: ys)).
    apply includes_later, includes_later, IH, Hin.
Qed.

Lemma includes_toLowerCase text term :
  includes text term = true ->
  includes (toLowerCase text) (toLowerCase term) = true.
Proof.
  intros H. apply includes_spec in H as (before & after & ->).
  rewrite !toLowerCase_app. apply includes_later, includes_here.
Qed.

(** X24. The search reads the names of the properties as well as their
    values: an entry matches every query that is the name of one of its
    properties, when the name has no space and no character that JSON
    escapes. *)
Theorem search_matches_property_names k v e :
  In (k, v) e ->
  escape k = k ->
  split " " (toLowerCase k) = [toLowerCase k] ->
  matches k (JObj e) = true /\
  containsTerms (toLowerCase (JSON_stringify (JObj e)))
                (split " " (toLowerCase k)) = true.
Proof.
  intros Hin Hesc Hsplit.
  assert (H : containsTerms (toLowerCase (JSON_stringify (JObj e)))
                            (split " " (toLowerCase k)) = true).
  { rewrite Hsplit. unfold containsTerms. cbn [existsb]. rewrite orb_false_r.
    apply includes_toLowerCase.
    change (JSON_stringify (JObj e))
      with ("{" +:+ join ","
              (List.map (fun kv => quote (fst kv) +:+ ":" +:+ JSON_stringify (snd kv)) e)
            +:+ "}").
    apply includes_later, includes_app_l.
    assert (Hk : includes (quote k +:+ ":" +:+ JSON_stringify v) k = true).
    { unfold quote. rewrite Hesc, !append_assoc. apply includes_later, includes_here. }
    apply includes_spec in Hk as (before & after & Hk).
    assert (Hj : includes
                   (join ","
                      (List.map (fun kv => quote (fst kv) +:+ ":" +:+ JSON_stringify (snd kv)) e))
                   (quote k +:+ ":" +:+ JSON_stringify v) = true).
    { apply includes_join.
      apply (in_map (fun kv => quote (fst kv) +:+ ":" +:+ JSON_stringify (snd kv))
                    e (k, v) Hin). }
    apply includes_spec in Hj as (b2 & a2 & Hj).
    apply includes_spec. exists (b2 +:+ before), (after +:+ a2).
    rewrite Hj, Hk, !append_assoc. reflexivity. }
  split; [exact H | exact H].
Qed.

Section Frame.
Context `{P : Platform}.

Lemma forEach_extends {A} (f : A -> result string) xs prompt q :
  forEach f xs prompt = Ok q -> exists s, q = prompt +:+ s.
Proof.
  revert prompt. induction xs as [|x xs IH]; intros prompt H.
  - injection H as <-. exists "". now rewrite append_nil_r.
  - simpl in H. apply bind_ok in H as (piece & _ & H).
    apply IH in H as [s ->]. exists (piece +:+ s). now rewrite append_assoc.
Qed.

Lemma list_block_extends ctx k header cap render prompt q :
  list_block ctx k header cap render prompt = Ok q -> exists s, q = prompt +:+ s.
Proof.
  unfold list_block. intros H.
  assert (Hsame : Ok prompt = Ok q -> exists s, q = prompt +:+ s)
    by (intros [= <-]; exists ""; now rewrite append_nil_r).
  destruct (assoc k ctx) as [v|]; [|auto].
  destruct (truthy (Some v)); [|auto].
  apply bind_ok in H as (filled & _ & H). destruct filled; [|auto].
  destruct v; try discriminate.
  apply forEach_extends in H as [s ->]. exists (header +:+ s).
  now rewrite append_assoc.
Qed.

Lemma biography_block_extends ctx prompt q :
  biography_block ctx prompt = Ok q -> exists s, q = prompt +:+ s.
Proof.
  unfold biography_block. intros H.
  assert (Hsame : Ok prompt = Ok q -> exists s, q = prompt +:+ s)
    by (intros [= <-]; exists ""; now rewrite append_nil_r).
  destruct (assoc "biography" ctx) as [b|]; [|auto].
  destruct (truthy (Some b)); [|auto].
  repeat (let x := fresh "x" in apply bind_ok in H as (x & _ & H)).
  injection H as <-. eexists. reflexivity.
Qed.

Lemma preferences_block_extends ctx prompt q :
  preferences_block ctx prompt = Ok q -> exists s, q = prompt +:+ s.
Proof.
  unfold preferences_block. intros H.
  assert (Hsame : Ok prompt = Ok q -> exists s, q = prompt +:+ s)
    by (intros [= <-]; exists ""; now rewrite append_nil_r).
  destruct (assoc "preferences" ctx) as [prefs|]; [|auto].
  destruct (truthy (Some prefs)); [|auto].
  repeat (let x := fresh "x" in apply bind_ok in H as (x & _ & H)).
  injection H as <-. eexists. reflexivity.
Qed.

(** X25. A prompt that was composed begins with the instructions and
    ends with the question of the user and the closing sentence,
    whatever the relevant data and the history hold. *)
Theorem createPersonalizedPrompt_frame userMessage ctx history prompt :
  createPersonalizedPrompt userMessage ctx history = Ok prompt ->
  exists middle, prompt = preamble +:+ middle +:+ closing userMessage.
Proof.
  unfold createPersonalizedPrompt. intros H.
  apply bind_ok in H as (p1 & H1 & H).
  apply bind_ok in H as (p2 & H2 & H). injection H as <-.
  assert (E1 : exists s, p1 = preamble +:+ s).
  { destruct (0 <? List.length ctx)%nat.
    - apply bind_ok in H1 as (a0 & Ha0 & H1).
      apply bind_ok in H1 as (a & Ha & H1).
      apply bind_ok in H1 as (b & Hb & H1).
      apply bind_ok in H1 as (c & Hc & H1).
      apply biography_block_extends in Ha0 as [s0 ->].
      apply list_block_extends in Ha as [sa ->].
      apply list_block_extends in Hb as [sb ->].
      apply list_block_extends in Hc as [sc ->].
      apply preferences_block_extends in H1 as [sd ->].
      eexists. rewrite !append_assoc. reflexivity.
    - injection H1 as <-. exists "". now rewrite append_nil_r. }
  assert (E2 : exists s, p2 = p1 +:+ s).
  { destruct (0 <? List.length history)%nat.
    - apply forEach_extends in H2 as [s ->]. eexists.
      rewrite !append_assoc. reflexivity.
    - injection H2 as <-. exists "". now rewrite append_nil_r. }
  destruct E1 as [s1 ->]. destruct E2 as [s2 ->].
  exists (s1 +:+ s2). now rewrite !append_assoc.
Qed.

Lemma updateChatContext_with_personal p sid u a sv :
  updateChatContext sid u a (with_personal p sv)
  = with_personal p (updateChatContext sid u a sv).
Proof.
  unfold updateChatContext.
  change (chatContexts (with_personal p sv)) with (chatContexts sv).
  destruct (chatContexts sv !! sid) as [r|] eqn:E.
  - change (chatContexts (with_personal p sv)) with (chatContexts sv).
    rewrite E. cbv zeta. rewrite !deref_set_arrays.
    change (deref (with_personal p sv) r) with (deref sv r).
    destruct (10 <? List.length
                      (deref sv r ++
                       [ {| role := "user"; content := u |};
                         {| role := "assistant"; content := a |} ]))%nat;
      reflexivity.
  - unfold alloc, set_contexts, set_arrays, deref, with_personal. simpl.
    repeat (rewrite lookup_insert_eq; simpl). reflexivity.
Qed.

(** X26. With [includePersonalContext] set to [false] the handler does
    not read the stored profile: the answer and what happens to the
    sessions are the same whatever the profile is. *)
Theorem post_chat_without_personal_context req p sv :
  includePersonalContext req = Some false ->
  post_chat req (with_personal p sv)
  = (fst (post_chat req sv), with_personal p (snd (post_chat req sv))).
Proof.
  intros Hinc. unfold post_chat. rewrite Hinc. simpl default.
  destruct (String.eqb (message req) ""); [reflexivity|].
  change (unconfigured (with_personal p sv)) with (unconfigured sv).
  destruct (unconfigured sv); [reflexivity|].
  change (chatContexts (with_personal p sv)) with (chatContexts sv).
  set (sid := default "default" (sessionId req)).
  assert (Hrest : forall sv1 r,
    match
      (let* prompt := createPersonalizedPrompt (message req) []
                        (deref (with_personal p sv1) r) in
       generateContent prompt)
    with
    | Throw e => (error_response (with_personal p sv1) e, with_personal p sv1)
    | Ok text =>
        let sv2 := updateChatContext sid (message req) text (with_personal p sv1) in
        ({| status := 200;
            body := [ ("response", JStr text);
                      ("sessionId", JStr sid);
                      ("personalDataUsed", JBool false);
                      ("contextLength",
                        JNum (string_of_nat (List.length (deref sv2 r))));
                      ("isDemo", JBool false) ] |}, sv2)
    end
    = (fst (match
              (let* prompt := createPersonalizedPrompt (message req) [] (deref sv1 r) in
               generateContent prompt)
            with
            | Throw e => (error_response sv1 e, sv1)
            | Ok text =>
                let sv2 := updateChatContext sid (message req) text sv1 in
                ({| status := 200;
                    body := [ ("response", JStr text);
                              ("sessionId", JStr sid);
                              ("personalDataUsed", JBool false);
                              ("contextLength",
                                JNum (string_of_nat (List.length (deref sv2 r))));
                              ("isDemo", JBool false) ] |}, sv2)
            end),
       with_personal p
         (snd (match
                 (let* prompt := createPersonalizedPrompt (message req) [] (deref sv1 r) in
                  generateContent prompt)
               with
               | Throw e => (error_response sv1 e, sv1)
               | Ok text =>
                   let sv2 := updateChatContext sid (message req) text sv1 in
                   ({| status := 200;
                       body := [ ("response", JStr text);
                                 ("sessionId", JStr sid);
                                 ("personalDataUsed", JBool false);
                                 ("contextLength",
                                   JNum (string_of_nat (List.length (deref sv2 r))));
                                 ("isDemo", JBool false) ] |}, sv2)
               end)))).
  { intros sv1 r. change (deref (with_personal p sv1) r) with (deref sv1 r).
    destruct (createPersonalizedPrompt (message req) [] (deref sv1 r)) as [prompt|e];
      simpl; [|reflexivity].
    destruct (generateContent prompt) as [text|e]; simpl; [|reflexivity].
    rewrite updateChatContext_with_personal. reflexivity. }
  destruct (chatContexts sv !! sid) as [r|] eqn:E.
  - apply Hrest.
  - apply (Hrest (snd (alloc [] sv)) (next_ref sv)).
Qed.

End Frame.

Lemma search_matches_property_names_witness :
  let e := [ ("name", JStr "React"); ("category", JStr "programming");
             ("proficiency", JStr "advanced"); ("yearsOfExperience", JNum "3") ] in
  In ("proficiency", JStr "advanced") e /\
  escape "proficiency" = "proficiency" /\
  split " " (toLowerCase "proficiency") = [toLowerCase "proficiency"] /\
  matches "proficiency" (JObj e) = true /\
  containsTerms (toLowerCase (JSON_stringify (JObj e)))
                (split " " (toLowerCase "proficiency")) = true.
Proof.
  intros e.
  assert (H1 : In ("proficiency", JStr "advanced") e) by (simpl; tauto).
  assert (H2 : escape "proficiency" = "proficiency") by reflexivity.
  assert (H3 : split " " (toLowerCase "proficiency") = [toLowerCase "proficiency"])
    by reflexivity.
  split; [exact H1|]. split; [exact H2|]. split; [exact H3|].
  exact (search_matches_property_names "proficiency" (JStr "advanced") e H1 H2 H3).
Defined.

Lemma createPersonalizedPrompt_frame_witness :
  exists prompt,
    createPersonalizedPrompt (P := Examples.test_platform)
      "What did they build?" Examples.big_context Examples.six_turns = Ok prompt /\
    exists middle,
      prompt = preamble +:+ middle +:+ closing "What did they build?".
Proof.
  eexists. split.
  - vm_compute. reflexivity.
  - apply (createPersonalizedPrompt_frame (P := Examples.test_platform)
             "What did they build?" Examples.big_context Examples.six_turns).
    vm_compute. reflexivity.
Defined.

Lemma post_chat_without_personal_context_witness :
  let req := {| message := "hi"; sessionId := Some "s1";
                includePersonalContext := Some false |} in
  let sv := Examples.live_server in
  let p := Examples.react_store in
  includePersonalContext req = Some false /\
  post_chat (P := Examples.test_platform) req (with_personal p sv)
  = (fst (post_chat (P := Examples.test_platform) req sv),
     with_personal p (snd (post_chat (P := Examples.test_platform) req sv))).
Proof.
  intros req sv p.
  split; [reflexivity|].
  exact (post_chat_without_personal_context (P := Examples.test_platform)
           req p sv eq_refl).
Defined.

End Facts.
